(** * whisp-media-processor: chunk reassembly pipeline, shallow embedding

    The development follows [app/worker.py] (the pipeline classes and the
    command line), [app/routes.py] and [app/driver.py] (the HTTP front end),
    [chunksToVideo.py] (the stand-alone assembler) and [script.py] (the older
    fetch-assemble-publish script).

    Modelling conventions.
    - Python [str] values are [string]s (byte strings); text is compared
      byte-wise.
    - Python [float]s are IEEE-754 binary64 values, represented by the Standard
      Library's [spec_float] with precision 53 and maximal exponent 1024.
    - Stateful code runs in a state-and-exception monad [M] over a [World]
      that holds the local file system, the remote bucket, the loaded speech
      model, the module globals of [app/driver.py], the console log of the
      front end and the trace of calls to external collaborators.
    - External collaborators (the transcoding tool, the object store's
      network, the speech model, the clock, the temporary-name generator, the
      process environment) are oracles of the class [External], indexed by the
      length of the trace, so that two calls never share an answer by
      construction.
    - The console narration ([print]) of the worker classes is not modelled;
      that of the front end and of [main] is. *)

From stdpp Require Import gmap strings list fin_maps pretty sorting.
From Stdlib Require Import Floats.SpecFloat ZArith Ascii.


(** ** Python string helpers *)

Module PyStr.

(** [s.startswith(p)] *)
Definition startswith (p s : string) : bool := String.prefix p s.

(** [s.endswith("/")] and friends, for a one-character suffix. *)
Fixpoint ends_with_char (c : ascii) (s : string) : bool :=
  match s with
  | "" => false
  | String a "" => bool_decide (a = c)
  | String _ s' => ends_with_char c s'
  end.

(** [s.split(c)[0]]: the text before the first occurrence of [c]. *)
Fixpoint split_first (c : ascii) (s : string) : string :=
  match s with
  | "" => ""
  | String a s' => if bool_decide (a = c) then "" else String a (split_first c s')
  end.

(** [s.rpartition(c)]: the texts before and after the last occurrence of
    [c], when there is one. *)
Fixpoint rsplit (c : ascii) (s : string) : option (string * string) :=
  match s with
  | "" => None
  | String a s' =>
      match rsplit c s' with
      | Some (b, e) => Some (String a b, e)
      | None => if bool_decide (a = c) then Some ("", s') else None
      end
  end.

(** [s.split(c)[-1]]: the text after the last occurrence of [c]. *)
Definition split_last (c : ascii) (s : string) : string :=
  match rsplit c s with
  | Some (_, e) => e
  | None => s
  end.

(** ASCII characters for which [str.isspace] holds. *)
Definition isspace (a : ascii) : bool :=
  let n := nat_of_ascii a in
  bool_decide (9 ≤ n ≤ 13) || bool_decide (28 ≤ n ≤ 32).

Fixpoint lstrip (s : string) : string :=
  match s with
  | "" => ""
  | String a s' => if isspace a then lstrip s' else s
  end.

(** [s.strip()], on ASCII white space. *)
Definition strip (s : string) : string :=
  String.rev (lstrip (String.rev (lstrip s))).

(** [sep.join(l)] *)
Definition join (sep : string) (l : list string) : string :=
  String.concat sep l.

Fixpoint zeros (n : nat) : string :=
  match n with
  | O => ""
  | S n' => String "0" (zeros n')
  end.

(** [format(z, "0<w>d")]: decimal, zero-padded to width [w], the sign
    counted in the width. *)
Definition fmt_d (w : nat) (z : Z) : string :=
  let digits := pretty (Z.abs_N z) in
  let sign := if (z <? 0)%Z then "-" else "" in
  sign +:+ zeros (w - String.length sign - String.length digits) +:+ digits.

(** [os.path.join(a, b)] for two components. *)
Definition path_join (a b : string) : string :=
  if startswith "/" b then b
  else if bool_decide (a = "") || ends_with_char "/" a then a +:+ b
  else a +:+ "/" +:+ b.

End PyStr.

(** ** Python floats: IEEE-754 binary64 *)

Module PyFloat.

Definition prec : Z := 53.
Definition emax : Z := 1024.

Abbreviation float := spec_float.

(** The float of an integer literal (exact below 2^53). *)
Definition of_Z (z : Z) : float := binary_normalize prec emax z 0 false.

Definition div (x y : float) : float := SFdiv prec emax x y.
Definition mul (x y : float) : float := SFmul prec emax x y.
Definition sub (x y : float) : float := SFsub prec emax x y.
Definition add (x y : float) : float := SFadd prec emax x y.

(** A decimal literal [n / 10^k] is read as the nearest float, which is what
    the correctly rounded quotient of the two exact integers gives as long
    as both are below 2^53. *)
Definition of_decimal (n : Z) (k : nat) : float :=
  div (of_Z n) (of_Z (10 ^ Z.of_nat k)).

Definition is_finite (x : float) : bool :=
  match x with
  | S754_zero _ | S754_finite _ _ _ => true
  | _ => false
  end.

Definition is_negative (x : float) : bool :=
  match x with
  | S754_finite true _ _ => true
  | _ => false
  end.

(** [int(x)]: truncation toward zero; [None] where Python raises
    ([OverflowError] on an infinity, [ValueError] on a NaN). *)
Definition to_int (x : float) : option Z :=
  match x with
  | S754_zero _ => Some 0%Z
  | S754_finite s m e =>
      let a := if (0 <=? e)%Z then (Z.pos m * 2 ^ e)%Z
               else (Z.pos m / 2 ^ (- e))%Z in
      Some (if s then (- a)%Z else a)
  | _ => None
  end.

(** C's [fmod(x, d)] for a finite [x] and a positive integer [d]: the
    remainder of the magnitude is exact, and carries the sign of [x]. *)
Definition fmod_pos (x : float) (d : Z) : float :=
  match x with
  | S754_finite s m e =>
      let r :=
        if (0 <=? e)%Z
        then binary_normalize prec emax ((Z.pos m * 2 ^ e) mod d) 0 false
        else binary_normalize prec emax (Z.pos m mod (d * 2 ^ (- e))) e false in
      match r with
      | S754_finite _ m' e' => S754_finite s m' e'
      | S754_zero _ => S754_zero s
      | other => other
      end
  | other => other
  end.

(** [x % d] for a positive integer constant [d], as CPython's [float_rem]
    computes it: [fmod], moved into the divisor's sign when it is non-zero
    and negative, and a positive zero otherwise.  On a non-finite
    argument the result is a NaN. *)
Definition rem_pos (x : float) (d : Z) : float :=
  match fmod_pos x d with
  | S754_zero _ => S754_zero false
  | S754_finite true m e => add (S754_finite true m e) (of_Z d)
  | S754_infinity _ => S754_nan
  | other => other
  end.

End PyFloat.

(** ** Subtitle generation ([WhisperTranscriber.format_timestamp],
       [WhisperTranscriber.convert_to_srt]) *)

(** One segment of a transcription result.  The fields are read with
    [dict.get], so each may be absent. *)
Record segment := Segment {
  seg_id : option Z;
  seg_start : option PyFloat.float;
  seg_end : option PyFloat.float;
  seg_text : option string
}.

(** The transcription result: [result["text"]], [result.get("language")],
    [result.get("segments")]. *)
Record whisper_result := WhisperResult {
  wr_text : string;
  wr_language : option string;
  wr_segments : option (list segment)
}.

(** The exceptions the model distinguishes; all derive from [Exception]. *)
Inductive exn :=
| TypeError (reason : string) (names : list string)
| ValueError
| OverflowError
| AttributeError
| FileNotFoundError
| FileExistsError
| IsADirectoryError
| NotADirectoryError
| ClientError
| RuntimeError
| CalledProcessError (stderr : string).

Module Srt.
Import PyFloat.

(** [int(x)] with the exception Python raises. *)
Definition py_int (x : float) : exn + Z :=
  match to_int x with
  | Some z => inr z
  | None => inl (match x with S754_nan => ValueError | _ => OverflowError end)
  end.

(** [format_timestamp(self, seconds)] *)
Definition format_timestamp (seconds : float) : exn + string :=
  match py_int (div seconds (of_Z 3600)) with
  | inl e => inl e
  | inr hours =>
  match py_int (div (rem_pos seconds 3600) (of_Z 60)) with
  | inl e => inl e
  | inr minutes =>
  let seconds := rem_pos seconds 60 in
  match py_int seconds with
  | inl e => inl e
  | inr isec =>
  match py_int (mul (sub seconds (of_Z isec)) (of_Z 1000)) with
  | inl e => inl e
  | inr milliseconds =>
      inr (PyStr.fmt_d 2 hours +:+ ":" +:+ PyStr.fmt_d 2 minutes +:+ ":" +:+
           PyStr.fmt_d 2 isec +:+ "," +:+ PyStr.fmt_d 3 milliseconds)
  end end end end.

Definition newline : string := String (ascii_of_nat 10) "".

(** One pass of the loop body of [convert_to_srt]: the entry for segment
    [seg], numbered [i]. *)
Definition srt_entry (i : nat) (seg : segment) : exn + string :=
  match format_timestamp (default (S754_zero false) (seg_start seg)) with
  | inl e => inl e
  | inr start_time =>
  match format_timestamp (default (S754_zero false) (seg_end seg)) with
  | inl e => inl e
  | inr end_time =>
      let text := PyStr.strip (default "" (seg_text seg)) in
      inr (pretty i +:+ newline +:+ start_time +:+ " --> " +:+ end_time +:+
           newline +:+ text +:+ newline +:+ newline)
  end end.

(** The loop of [convert_to_srt]: [i] is the counter of [enumerate(_, 1)],
    [acc] is [srt_content]. *)
Fixpoint srt_loop (i : nat) (segs : list segment) (acc : string) : exn + string :=
  match segs with
  | [] => inr acc
  | seg :: rest =>
      match srt_entry i seg with
      | inl e => inl e
      | inr entry => srt_loop (S i) rest (acc +:+ entry)
      end
  end.

(** [convert_to_srt(self, result)] *)
Definition convert_to_srt (result : whisper_result) : exn + string :=
  srt_loop 1 (default [] (wr_segments result)) "".

(** The cue layout of the subtitle format as the specification words it:
    [<index>\n<start> --> <end>\n<text>\n\n]. *)
Definition spec_cue (index : nat) (start_ts end_ts text : string) : string :=
  pretty index +:+ newline +:+ start_ts +:+ " --> " +:+ end_ts +:+ newline +:+
  text +:+ newline +:+ newline.

End Srt.

(** ** The world the pipeline runs in *)

(** An entry of the local file system: a regular file with its bytes, or a
    directory.  Paths are the strings the code passes to the operating system;
    a directory's entries are the paths that extend it by ["/"]. *)
Inductive node :=
| NFile (content : string)
| NDir.

(** What one run of an external process did: exit status 0 with the bytes it
    left in its output file; a non-zero exit status
    ([subprocess.CalledProcessError] under [check=True]) with its diagnostic
    stream and whatever it left in the output file; or no such executable
    ([FileNotFoundError]). *)
Inductive proc_outcome :=
| ProcOk (stdout : string) (written : string)
| ProcFail (stderr : string) (written : option string)
| ProcMissing.

(** Calls to external collaborators, in the order they were made. *)
Inductive event :=
| EvProc (cmd : list string) (out : proc_outcome)
| EvS3List (prefix : string) (ok : bool)
| EvS3Download (key local_path : string) (ok : bool)
| EvS3Upload (local_path key : string) (ok : bool)
| EvLoadModel (size : string) (ok : bool)
| EvTranscribe (audio : string) (ok : bool)
| EvClock (stamp : string)
| EvMkdtemp (dir : string).

(** Python values as they arrive in a JSON request body. *)
#[local] Unset Elimination Schemes.
Inductive pyval :=
| PNone
| PBool (b : bool)
| PInt (z : Z)
| PStr (s : string)
| PList (l : list pyval)
| PDict (d : list (string * pyval)).
#[local] Set Elimination Schemes.

(** The module globals of [app/driver.py]. *)
Record driver_globals := DriverGlobals {
  g_MEETING_ID : pyval;
  g_TAKE : pyval;
  g_USER_ID : pyval;
  g_PREFIX : string;
  g_DIR : option string;
  g_REMOTE_DIR : option string;
  g_LOCAL_DIR : option string;
  g_OUTPUT_DIR : option string;
  g_UPLOAD_DIR : option string
}.

Record World := mkWorld {
  w_fs : gmap string node;          (* local file system *)
  w_bucket : gmap string string;    (* remote bucket: key to bytes *)
  w_model : option string;          (* [transcriber.model]: the loaded model *)
  w_globals : driver_globals;       (* [app.driver] module state *)
  w_log : list string;              (* console lines of the front end *)
  w_trace : list event              (* external calls, oldest first *)
}.

(** The structured transcript that [transcribe_audio] serialises. *)
Record transcript_segment := TranscriptSegment {
  ts_id : option Z;
  ts_start : option PyFloat.float;
  ts_end : option PyFloat.float;
  ts_text : string
}.

Record transcript_data := TranscriptData {
  td_meeting_id : string;
  td_take : string;
  td_user_id : string;
  td_timestamp : string;
  td_model_used : string;
  td_language : string;
  td_full_text : string;
  td_segments : list transcript_segment
}.

(** The behaviour of everything outside the repository.  The first argument
    of an oracle is the time of the call: the number of external calls made
    before it. *)
Class External := {
  (** [subprocess.run(cmd, check=True)] *)
  ext_proc : nat → list string → proc_outcome;
  (** whether the object-store request made at this time goes through *)
  ext_net : nat → bool;
  (** [whisper.load_model(size)] *)
  ext_load_model : nat → string → bool;
  (** [model.transcribe(path)]; [None] when it raises *)
  ext_transcribe : nat → string → option whisper_result;
  (** [datetime.now().strftime("%Y-%m-%d_%H-%M-%S")] *)
  ext_now : nat → string;
  (** the directory name [tempfile] picks *)
  ext_tmpdir : nat → string;
  (** [os.getenv] after [load_dotenv] *)
  ext_getenv : string → option string;
  (** [json.dump(data, indent=2, ensure_ascii=False)] *)
  ext_json_dumps : transcript_data → string
}.

(** ** The state-and-exception monad *)

Inductive outcome (A : Type) :=
| Ret (a : A)
| Raise (e : exn).
Arguments Ret {A} a.
Arguments Raise {A} e.

Definition M (A : Type) : Type := World → outcome A * World.

#[global] Instance M_ret : MRet M := λ A a w, (Ret a, w).

#[global] Instance M_bind : MBind M := λ A B f m w,
  match m w with
  | (Ret a, w') => f a w'
  | (Raise e, w') => (Raise e, w')
  end.

Definition raise {A} (e : exn) : M A := λ w, (Raise e, w).

(** [try: body except Exception as e: handler(e)] *)
Definition try_except {A} (body : M A) (handler : exn → M A) : M A := λ w,
  match body w with
  | (Ret a, w') => (Ret a, w')
  | (Raise e, w') => handler e w'
  end.

(** [try: body finally: final] — [final] runs on both exits; an exception of
    [final] replaces the outcome of [body]. *)
Definition try_finally {A} (body : M A) (final : M unit) : M A := λ w,
  match body w with
  | (r, w') =>
      match final w' with
      | (Ret _, w'') => (r, w'')
      | (Raise e, w'') => (Raise e, w'')
      end
  end.

Definition lift_exn {A} (r : exn + A) : M A :=
  match r with
  | inl e => raise e
  | inr a => mret a
  end.

(** [for x in l: body(x)] *)
Fixpoint for_each {A} (l : list A) (body : A → M unit) : M unit :=
  match l with
  | [] => mret tt
  | x :: l' => body x;; for_each l' body
  end.

Definition set_fs (f : gmap string node → gmap string node) (w : World) : World :=
  mkWorld (f (w_fs w)) (w_bucket w) (w_model w) (w_globals w) (w_log w) (w_trace w).
Definition set_bucket (f : gmap string string → gmap string string) (w : World) : World :=
  mkWorld (w_fs w) (f (w_bucket w)) (w_model w) (w_globals w) (w_log w) (w_trace w).
Definition set_model (m : option string) (w : World) : World :=
  mkWorld (w_fs w) (w_bucket w) m (w_globals w) (w_log w) (w_trace w).
Definition set_globals (g : driver_globals) (w : World) : World :=
  mkWorld (w_fs w) (w_bucket w) (w_model w) g (w_log w) (w_trace w).
Definition add_log (line : string) (w : World) : World :=
  mkWorld (w_fs w) (w_bucket w) (w_model w) (w_globals w) (w_log w ++ [line]) (w_trace w).
Definition add_event (e : event) (w : World) : World :=
  mkWorld (w_fs w) (w_bucket w) (w_model w) (w_globals w) (w_log w) (w_trace w ++ [e]).

(** The time of the next external call. *)
Definition clock (w : World) : nat := length (w_trace w).

(** [print(line)], for the front end. *)
Definition print (line : string) : M unit := λ w, (Ret tt, add_log line w).

(** ** The local file system *)

Module Fs.

(** [p] is directory [d] or lies inside it. *)
Definition under (d p : string) : bool :=
  bool_decide (p = d) || String.prefix (d +:+ "/") p.

(** [os.path.exists(p)], [Path(p).exists()] *)
Definition exists_ (p : string) : M bool := λ w,
  (Ret (bool_decide (is_Some (w_fs w !! p))), w).

(** [os.makedirs(p, exist_ok=True)], [Path(p).mkdir(parents=True,
    exist_ok=True)].  Only [p] itself is recorded; every caller has created
    the ancestors by name beforehand. *)
Definition makedirs (p : string) : M unit := λ w,
  match w_fs w !! p with
  | Some (NFile _) => (Raise FileExistsError, w)
  | _ => (Ret tt, set_fs (insert p NDir) w)
  end.

(** [open(p, "wb")], [open(p, "w")]: create or truncate. *)
Definition open_w (p : string) : M unit := λ w,
  match w_fs w !! p with
  | Some NDir => (Raise IsADirectoryError, w)
  | _ => (Ret tt, set_fs (insert p (NFile "")) w)
  end.

(** [f.write(data)] on a file opened for writing at [p]. *)
Definition append (p data : string) : M unit := λ w,
  match w_fs w !! p with
  | Some (NFile c) => (Ret tt, set_fs (insert p (NFile (c +:+ data))) w)
  | Some NDir => (Raise IsADirectoryError, w)
  | None => (Raise FileNotFoundError, w)
  end.

(** [open(p, "rb").read()] *)
Definition read (p : string) : M string := λ w,
  match w_fs w !! p with
  | Some (NFile c) => (Ret c, w)
  | Some NDir => (Raise IsADirectoryError, w)
  | None => (Raise FileNotFoundError, w)
  end.

(** [Path(p).unlink()] *)
Definition unlink (p : string) : M unit := λ w,
  match w_fs w !! p with
  | Some (NFile _) => (Ret tt, set_fs (delete p) w)
  | Some NDir => (Raise IsADirectoryError, w)
  | None => (Raise FileNotFoundError, w)
  end.

(** [shutil.rmtree(d)] *)
Definition rmtree (d : string) : M unit := λ w,
  match w_fs w !! d with
  | Some NDir =>
      (Ret tt, set_fs (filter (λ kv : string * node, under d kv.1 = false)) w)
  | Some (NFile _) => (Raise NotADirectoryError, w)
  | None => (Raise FileNotFoundError, w)
  end.

(** [shutil.copy2(src, dst)] *)
Definition copy2 (src dst : string) : M unit :=
  data ← read src;
  open_w dst;;
  append dst data.

End Fs.

(** ** [pathlib.Path]

    Every [Path] of the code under study is built as [Path(dir) / name] from a
    directory string and a separator-free file name, so a path is kept as
    that pair. *)
Record Path := mkPath { p_dir : string; p_name : string }.

Module PyPath.

(** [str(p)] *)
Definition str (p : Path) : string := p_dir p +:+ "/" +:+ p_name p.

(** [p.suffix]: from the last dot of the name, unless that dot starts or
    ends the name. *)
Definition suffix (p : Path) : string :=
  match PyStr.rsplit "." (p_name p) with
  | Some (b, e) =>
      if bool_decide (b = "") || bool_decide (e = "") then "" else "." +:+ e
  | None => ""
  end.

(** The name without [p.suffix]. *)
Definition stem (p : Path) : string :=
  match PyStr.rsplit "." (p_name p) with
  | Some (b, e) =>
      if bool_decide (b = "") || bool_decide (e = "") then p_name p else b
  | None => p_name p
  end.

(** [p.with_suffix(suffix)]; raises [ValueError] on an empty name. *)
Definition with_suffix (p : Path) (suffix : string) : exn + Path :=
  if bool_decide (p_name p = "") then inl ValueError
  else inr (mkPath (p_dir p) (stem p +:+ suffix)).

(** [p.exists()] *)
Definition exists_ (p : Path) : M bool := Fs.exists_ (str p).

End PyPath.

(** ** Calls to external collaborators

    Each call appends one event to the trace. *)

Section Collaborators.
Context `{External}.

(** [subprocess.run(cmd, capture_output=True, check=True)].  [target] is
    the file the process is asked to produce, if any; an exit status 0
    means it has been produced. *)
Definition subprocess_run (cmd : list string) (target : option string) :
    M string := λ w,
  let out := ext_proc (clock w) cmd in
  let w := add_event (EvProc cmd out) w in
  match out with
  | ProcOk stdout written =>
      (Ret stdout,
       match target with
       | Some t => set_fs (insert t (NFile written)) w
       | None => w
       end)
  | ProcFail stderr written =>
      (Raise (CalledProcessError stderr),
       match target, written with
       | Some t, Some c => set_fs (insert t (NFile c)) w
       | _, _ => w
       end)
  | ProcMissing => (Raise FileNotFoundError, w)
  end.

(** The keys of the bucket that start with [prefix]. *)
Definition keys_under (prefix : string) (bucket : gmap string string) : list string :=
  List.filter (PyStr.startswith prefix) (map_to_list bucket).*1.

(** [s3.list_objects_v2(Bucket=..., Prefix=prefix)]: the keys of the
    response's ["Contents"], a member the object store leaves out when no
    key matches. *)
Definition s3_list_objects_v2 (prefix : string) : M (option (list string)) := λ w,
  let ok := ext_net (clock w) in
  let w' := add_event (EvS3List prefix ok) w in
  if ok then
    match keys_under prefix (w_bucket w) with
    | [] => (Ret None, w')
    | keys => (Ret (Some keys), w')
    end
  else (Raise ClientError, w').

(** [s3.download_file(bucket, key, local_path)] *)
Definition s3_download_file (key local_path : string) : M unit := λ w,
  let ok := ext_net (clock w) in
  match w_bucket w !! key with
  | Some data =>
      if ok then (Ret tt, set_fs (insert local_path (NFile data))
                            (add_event (EvS3Download key local_path true) w))
      else (Raise ClientError, add_event (EvS3Download key local_path false) w)
  | None => (Raise ClientError, add_event (EvS3Download key local_path false) w)
  end.

(** [s3.upload_file(local_path, bucket, key)] *)
Definition s3_upload_file (local_path key : string) : M unit := λ w,
  let ok := ext_net (clock w) in
  match w_fs w !! local_path with
  | Some (NFile data) =>
      if ok then (Ret tt, set_bucket (insert key data)
                            (add_event (EvS3Upload local_path key true) w))
      else (Raise ClientError, add_event (EvS3Upload local_path key false) w)
  | _ => (Raise FileNotFoundError, add_event (EvS3Upload local_path key false) w)
  end.

(** [whisper.load_model(size)] *)
Definition whisper_load_model (size : string) : M unit := λ w,
  let ok := ext_load_model (clock w) size in
  let w' := add_event (EvLoadModel size ok) w in
  if ok then (Ret tt, set_model (Some size) w') else (Raise RuntimeError, w').

(** [self.model.transcribe(audio)] *)
Definition whisper_transcribe (audio : string) : M whisper_result := λ w,
  match ext_transcribe (clock w) audio with
  | Some r => (Ret r, add_event (EvTranscribe audio true) w)
  | None => (Raise RuntimeError, add_event (EvTranscribe audio false) w)
  end.

(** [datetime.now().strftime("%Y-%m-%d_%H-%M-%S")] *)
Definition now_stamp : M string := λ w,
  let s := ext_now (clock w) in (Ret s, add_event (EvClock s) w).

(** Entering [tempfile.TemporaryDirectory()]: a new directory under a name
    that is not in use. *)
Definition mkdtemp : M string := λ w,
  let d := ext_tmpdir (clock w) in
  let w' := add_event (EvMkdtemp d) w in
  match w_fs w !! d with
  | Some _ => (Raise FileExistsError, w')
  | None => (Ret d, set_fs (insert d NDir) w')
  end.

(** [with tempfile.TemporaryDirectory() as temp_dir: body(temp_dir)] *)
Definition with_tempdir {A} (body : string → M A) : M A :=
  temp_dir ← mkdtemp;
  try_finally (body temp_dir) (Fs.rmtree temp_dir).

End Collaborators.

(** ** [CloudflareR2Manager] *)

Record CloudflareR2Manager := R2Manager {
  r2_remote_dir : string;
  r2_local_dir : string;
  r2_upload_dir : string;
  r2_user_id : string
}.

Section R2.
Context `{External}.

(** [CloudflareR2Manager.__init__]: the four credentials must be set. *)
Definition R2_init (remote_dir local_dir upload_dir user_id : string) :
    M CloudflareR2Manager :=
  let set k := bool_decide (is_Some (ext_getenv k) ∧ ext_getenv k ≠ Some "") in
  if set "S3_ACCESS_KEY_ID" && set "S3_SECRET_ACCESS_KEY" &&
     set "ACCOUNT_ID" && set "S3_BUCKET_NAME"
  then mret (R2Manager remote_dir local_dir upload_dir user_id)
  else raise ValueError.

(** The body of the loop of [download_chunks] for one listed key. *)
Definition download_one (self : CloudflareR2Manager) (key : string) : M unit :=
  let file := PyStr.split_last "/" key in
  let chunkType := PyStr.split_first "_" (PyStr.split_first "." file) in
  let DOWNLOAD_FOLDER :=
    if bool_decide (chunkType = "audio") then "/audio" else "/video" in
  let DOWNLOAD_DIR := r2_local_dir self +:+ DOWNLOAD_FOLDER in
  Fs.makedirs DOWNLOAD_DIR;;
  let local_file_path := PyStr.path_join DOWNLOAD_DIR file in
  s3_download_file key local_file_path.

(** [download_chunks(self)] *)
Definition download_chunks (self : CloudflareR2Manager) : M bool :=
  try_except
    (response ← s3_list_objects_v2 (r2_remote_dir self);
     match response with
     | None => mret false
     | Some contents =>
         for_each contents (download_one self);;
         mret true
     end)
    (λ _, mret false).

(** [upload_file(self, local_path, remote_key)] *)
Definition upload_file (local_path remote_key : string) : M bool :=
  try_except (s3_upload_file local_path remote_key;; mret true)
             (λ _, mret false).

(** One of the three guarded uploads of [upload_processed_files]: if the
    artifact is given and exists, upload it, and return whether that
    failed. *)
Definition upload_if_exists (path : option Path) (key : Path → string) : M bool :=
  match path with
  | None => mret false
  | Some p =>
      there ← PyPath.exists_ p;
      if (there : bool) then
        ok ← upload_file (PyPath.str p) (key p);
        mret (negb ok)
      else mret false
  end.

(** [upload_processed_files(self, video_path, audio_path, transcript_paths)].
    [transcript_paths] is [None], a pair [(json_path, srt_path)], or a single
    path, read as [(path, None)].  The upload of the JSON transcript is
    commented out in the source. *)
Definition upload_processed_files (self : CloudflareR2Manager)
    (video_path audio_path : option Path)
    (transcript_paths : option (Path * option Path)) : M bool :=
  failed_video ← upload_if_exists video_path
    (λ _, r2_upload_dir self +:+ "/final_video_" +:+ r2_user_id self +:+ ".mp4");
  failed_audio ← upload_if_exists audio_path
    (λ p, r2_upload_dir self +:+ "/final_audio_" +:+ r2_user_id self +:+ PyPath.suffix p);
  failed_srt ←
    match transcript_paths with
    | Some (json_path, srt_path) =>
        upload_if_exists srt_path
          (λ _, r2_upload_dir self +:+ "/subtitle_" +:+ r2_user_id self +:+ ".srt")
    | None => mret false
    end;
  mret (negb (failed_video || failed_audio || failed_srt)).

End R2.

(** ** [VideoProcessor] *)

Record VideoProcessor := Processor {
  video_chunks_dir : string;
  audio_chunks_dir : string;
  video_output_dir : string;
  audio_output_dir : string;
  transcript_output_dir : option string
}.

(** A located chunk: its index and its file. *)
Definition chunk : Type := nat * Path.

Module Locator.

(** The file name [f"{track}_{i}.webm"]. *)
Definition chunk_name (track : string) (i : nat) : string :=
  track +:+ "_" +:+ pretty i +:+ ".webm".

(** One scanning loop of [find_chunk_sequences]: the chunks of [track] in
    [dir] whose file exists, for [i] in [range(bound)], in the order the loop
    appends them. *)
Definition scan (fs : gmap string node) (dir track : string) (bound : nat) :
    list chunk :=
  omap (λ i, let f := mkPath dir (chunk_name track i) in
             if bool_decide (is_Some (fs !! PyPath.str f)) then Some (i, f)
             else None)
       (seq 0 bound).

(** [l.sort(key=lambda x: x[0])]: a stable sort on the index. *)
Fixpoint insert_by_index (x : chunk) (l : list chunk) : list chunk :=
  match l with
  | [] => [x]
  | y :: l' =>
      if bool_decide (x.1 ≤ y.1) then x :: l else y :: insert_by_index x l'
  end.

Definition sort_by_index (l : list chunk) : list chunk :=
  foldr insert_by_index [] l.

(** The scanning bound the source hard-codes. *)
Definition upper_bound : nat := 1000.

(** [find_chunk_sequences(self)] *)
Definition find_chunk_sequences (self : VideoProcessor) :
    M (list chunk * list chunk) := λ w,
  let video_chunks := scan (w_fs w) (video_chunks_dir self) "video" upper_bound in
  let audio_chunks := scan (w_fs w) (audio_chunks_dir self) "audio" upper_bound in
  (Ret (sort_by_index video_chunks, sort_by_index audio_chunks), w).

End Locator.

Section Processor.
Context `{External}.

(** [VideoProcessor.__init__]: the output directories are created. *)
Definition VideoProcessor_init
    (video_chunks_dir audio_chunks_dir video_output_dir audio_output_dir : string)
    (transcript_output_dir : option string) : M VideoProcessor :=
  let transcript_output_dir :=
    match transcript_output_dir with
    | Some "" => None
    | other => other
    end in
  Fs.makedirs video_output_dir;;
  Fs.makedirs audio_output_dir;;
  match transcript_output_dir with
  | Some d => Fs.makedirs d
  | None => mret tt
  end;;
  mret (Processor video_chunks_dir audio_chunks_dir video_output_dir
                  audio_output_dir transcript_output_dir).

(** [run_ffmpeg(self, command, description)]: only a non-zero exit status
    is caught; the output file of the tool is the last word of the
    command. *)
Definition run_ffmpeg (command : list string) : M (bool * string) :=
  try_except
    (stdout ← subprocess_run command (last command);
     mret (true, stdout))
    (λ e, match e with
          | CalledProcessError stderr => mret (false, stderr)
          | _ => raise e
          end).

(** [if p.exists(): p.unlink()] *)
Definition unlink_if_exists (p : Path) : M unit :=
  there ← PyPath.exists_ p;
  if (there : bool) then Fs.unlink (PyPath.str p) else mret tt.

(** The command of the timestamp-repair pass. *)
Definition remux_command (temp_concat_path output_path : Path) : list string :=
  ["ffmpeg"; "-y"; "-fflags"; "+genpts"; "-i"; PyPath.str temp_concat_path;
   "-c"; "copy"; "-avoid_negative_ts"; "make_zero"; PyPath.str output_path].

(** The body of the [try] of [concatenate_raw_chunks]: raw splice into the
    scratch file, remux, removal of the scratch file. *)
Definition splice_and_remux (chunks : list chunk)
    (temp_concat_path output_path : Path) : M bool :=
  Fs.open_w (PyPath.str temp_concat_path);;
  for_each chunks (λ c : chunk,
    data ← Fs.read (PyPath.str c.2);
    Fs.append (PyPath.str temp_concat_path) data);;
  r ← run_ffmpeg (remux_command temp_concat_path output_path);
  unlink_if_exists temp_concat_path;;
  mret r.1.

(** [concatenate_raw_chunks(self, chunks, output_path, chunk_type)] *)
Definition concatenate_raw_chunks (chunks : list chunk) (output_path : Path)
    (chunk_type : string) : M bool :=
  match chunks with
  | [] => mret false
  | _ =>
      temp_concat_path ← lift_exn (PyPath.with_suffix output_path ".temp.webm");
      try_except
        (splice_and_remux chunks temp_concat_path output_path)
        (λ _, unlink_if_exists temp_concat_path;; mret false)
  end.

(** [srt_path and Path(srt_path).exists()] *)
Definition srt_available (srt_path : option Path) : M bool :=
  match srt_path with
  | Some p => PyPath.exists_ p
  | None => mret false
  end.

(** The command [mux_video_audio_with_captions] builds. *)
Definition caption_mux_command (video_path : Path) (audio_path : option Path)
    (srt_path : option Path) (with_srt : bool) (output_path : Path) : list string :=
  ["ffmpeg"; "-y"] ++ ["-i"; PyPath.str video_path] ++
  match audio_path with Some a => ["-i"; PyPath.str a] | None => [] end ++
  match srt_path with
  | Some s => if with_srt then ["-i"; PyPath.str s] else []
  | None => []
  end ++
  ["-c:v"; "libx264"; "-preset"; "medium"; "-crf"; "23"] ++
  match audio_path with Some _ => ["-c:a"; "aac"; "-b:a"; "128k"] | None => [] end ++
  (if with_srt then ["-c:s"; "mov_text"; "-metadata:s:s:0"; "language=eng"] else []) ++
  ["-shortest"; "-avoid_negative_ts"; "make_zero"] ++ [PyPath.str output_path].

(** [mux_video_audio_with_captions(self, video_path, audio_path, srt_path,
    output_path)] *)
Definition mux_video_audio_with_captions (video_path : Path)
    (audio_path srt_path : option Path) (output_path : Path) : M bool :=
  with_srt ← srt_available srt_path;
  r ← run_ffmpeg (caption_mux_command video_path audio_path srt_path with_srt output_path);
  mret r.1.

(** The command that decodes an assembled audio track to WAV. *)
Definition wav_command (audio_concat_path output : Path) : list string :=
  ["ffmpeg"; "-y"; "-i"; PyPath.str audio_concat_path;
   "-acodec"; "pcm_s16le"; "-ar"; "44100"; PyPath.str output].

End Processor.

(** ** [WhisperTranscriber] *)

Record WhisperTranscriber := Transcriber { model_size : string }.

Section Transcriber.
Context `{External}.

(** [load_model(self)]: loads once; [self.model] is [w_model]. *)
Definition load_model (self : WhisperTranscriber) : M bool := λ w,
  match w_model w with
  | None =>
      try_except (whisper_load_model (model_size self);; mret true)
                 (λ _, mret false) w
  | Some _ => (Ret true, w)
  end.

(** The segment list of the structured transcript. *)
Definition transcript_segments (result : whisper_result) : list transcript_segment :=
  (λ seg, TranscriptSegment (seg_id seg) (seg_start seg) (seg_end seg)
            (PyStr.strip (default "" (seg_text seg))))
  <$> default [] (wr_segments result).

(** The body of the [try] of [transcribe_audio]. *)
Definition transcribe_and_save (self : WhisperTranscriber) (audio_path : Path)
    (output_dir meeting_id take user_id : string) : M (Path * Path) :=
  result ← whisper_transcribe (PyPath.str audio_path);
  Fs.makedirs output_dir;;
  timestamp ← now_stamp;
  let json_path := mkPath output_dir ("transcript_" +:+ timestamp +:+ ".json") in
  let srt_path := mkPath output_dir ("transcript_" +:+ timestamp +:+ ".srt") in
  let transcript_data :=
    TranscriptData meeting_id take user_id timestamp (model_size self)
      (default "unknown" (wr_language result))
      (PyStr.strip (wr_text result))
      (transcript_segments result) in
  Fs.open_w (PyPath.str json_path);;
  Fs.append (PyPath.str json_path) (ext_json_dumps transcript_data);;
  srt_content ← lift_exn (Srt.convert_to_srt result);
  Fs.open_w (PyPath.str srt_path);;
  Fs.append (PyPath.str srt_path) srt_content;;
  mret (json_path, srt_path).

(** [transcribe_audio(self, audio_path, output_dir, meeting_id, take,
    user_id)]: the pair [(json_path, srt_path)], or [None]. *)
Definition transcribe_audio (self : WhisperTranscriber) (audio_path : Path)
    (output_dir meeting_id take user_id : string) : M (option (Path * Path)) :=
  loaded ← load_model self;
  if negb loaded then mret None
  else
    try_except
      (paths ← transcribe_and_save self audio_path output_dir meeting_id take user_id;
       mret (Some paths))
      (λ _, mret None).

End Transcriber.

(** ** [VideoPipeline] *)

Record VideoPipeline := Pipeline {
  vp_meeting_id : string;
  vp_take : string;
  vp_user_id : string;
  vp_remote_dir : string;
  vp_local_dir : string;
  vp_output_dir : string;
  vp_upload_dir : string;
  vp_r2_manager : CloudflareR2Manager;
  vp_transcriber : WhisperTranscriber
}.

(** The deliverables a run hands to the publish step: the muxed video, the
    extracted audio if any, and the transcript pair if any. *)
Definition artifacts : Type := Path * option Path * option (Path * Path).

Module PyCall.

(** Binding the positional and keyword arguments of a call to the
    parameters of the callee, each given with its default if it has one. *)
Section Bind.
Context {V : Type}.

Definition lookup_kw (name : string) (kwargs : list (string * V)) : option V :=
  snd <$> List.find (λ kv, bool_decide (kv.1 = name)) kwargs.

(** The value of parameter number [i], named [name]. *)
Definition param_value (args : list V) (kwargs : list (string * V))
    (i : nat) (param : string * option V) : option V :=
  match args !! i with
  | Some v => Some v
  | None =>
      match lookup_kw param.1 kwargs with
      | Some v => Some v
      | None => param.2
      end
  end.

Definition bind_arguments (params : list (string * option V))
    (args : list V) (kwargs : list (string * V)) : exn + list V :=
  if bool_decide (length params < length args)
  then inl (TypeError "too many positional arguments" [])
  else
    match List.filter (λ k, bool_decide (k ∉ params.*1)) kwargs.*1 with
    | k :: _ => inl (TypeError "unexpected keyword argument" [k])
    | [] =>
        match List.filter (λ k, bool_decide (k ∈ take (length args) params.*1)) kwargs.*1 with
        | k :: _ => inl (TypeError "multiple values for argument" [k])
        | [] =>
            let values := imap (param_value args kwargs) params in
            match (List.filter (λ pv : (string * option V) * option V,
                                  match pv.2 with Some _ => false | None => true end)
                               (zip params values)).*1.*1 with
            | [] => inr (omap id values)
            | missing =>
                inl (TypeError "missing required positional arguments" missing)
            end
        end
    end.
End Bind.

End PyCall.

Section Pipeline.
Context `{External}.

(** The signature of [VideoPipeline.__init__] after [self]: seven required
    parameters and [whisper_model="base"]. *)
Definition VideoPipeline_params : list (string * option string) :=
  [("meeting_id", None); ("take", None); ("user_id", None);
   ("remote_dir", None); ("local_dir", None); ("output_dir", None);
   ("upload_dir", None); ("whisper_model", Some "base")].

(** A call of the class [VideoPipeline] with positional arguments [args]
    and keyword arguments [kwargs]: the arguments are bound, then the body
    of [__init__] runs. *)
Definition VideoPipeline_new (args : list string)
    (kwargs : list (string * string)) : M VideoPipeline :=
  bound ← lift_exn (PyCall.bind_arguments VideoPipeline_params args kwargs);
  match bound with
  | [meeting_id; take; user_id; remote_dir; local_dir; output_dir;
     upload_dir; whisper_model] =>
      r2 ← R2_init remote_dir local_dir upload_dir user_id;
      mret (Pipeline meeting_id take user_id remote_dir local_dir output_dir
                     upload_dir r2 (Transcriber whisper_model))
  | _ => raise (TypeError "arguments" [])
  end.

(** [setup_directories(self)] *)
Definition setup_directories (self : VideoPipeline) : M unit :=
  for_each
    [vp_local_dir self;
     PyStr.path_join (vp_local_dir self) "video";
     PyStr.path_join (vp_local_dir self) "audio";
     vp_output_dir self;
     PyStr.path_join (vp_output_dir self) "video";
     PyStr.path_join (vp_output_dir self) "audio";
     PyStr.path_join (vp_output_dir self) "transcripts"]
    Fs.makedirs.

(** [check_ffmpeg(self)] *)
Definition check_ffmpeg : M bool :=
  try_except
    (subprocess_run ["ffmpeg"; "-version"] None;; mret true)
    (λ e, match e with
          | CalledProcessError _ | FileNotFoundError => mret false
          | _ => raise e
          end).

(** [if os.path.exists(d): shutil.rmtree(d)] *)
Definition rmtree_if_exists (d : string) : M unit :=
  there ← Fs.exists_ d;
  if (there : bool) then Fs.rmtree d else mret tt.

(** [cleanup_local_files(self)] *)
Definition cleanup_local_files (self : VideoPipeline) : M unit :=
  try_except
    (rmtree_if_exists (vp_local_dir self);;
     rmtree_if_exists (vp_output_dir self))
    (λ _, mret tt).

(** Lines 708-713 of [run]: the audio track is assembled if it has chunks;
    a failure leaves [audio_concat_path] at [None]. *)
Definition assemble_audio (audio_chunks : list chunk) (temp_dir : string) :
    M (option Path) :=
  match audio_chunks with
  | [] => mret None
  | _ =>
      let audio_concat_path := mkPath temp_dir "audio_concatenated.webm" in
      ok ← concatenate_raw_chunks audio_chunks audio_concat_path "audio";
      mret (if (ok : bool) then Some audio_concat_path else None)
  end.

(** Lines 715-732 of [run]: the WAV for transcription. *)
Definition extract_wav_for_transcription (audio_concat_path : option Path)
    (temp_dir : string) (skip_transcription : bool) : M (option Path) :=
  match audio_concat_path with
  | Some audio =>
      if skip_transcription then mret None
      else
        let audio_wav_path := mkPath temp_dir "audio_for_transcription.wav" in
        r ← run_ffmpeg (wav_command audio audio_wav_path);
        mret (if (r.1 : bool) then Some audio_wav_path else None)
  | None => mret None
  end.

(** Lines 734-747 of [run]: [transcript_paths] and [srt_path]. *)
Definition generate_transcript (self : VideoPipeline)
    (audio_wav_path : option Path) (transcript_output_dir : string)
    (skip_transcription : bool) : M (option (Path * Path) * option Path) :=
  match audio_wav_path with
  | Some wav =>
      if skip_transcription then mret (None, None)
      else
        there ← PyPath.exists_ wav;
        if (there : bool) then
          transcript_paths ←
            transcribe_audio (vp_transcriber self) wav transcript_output_dir
              (vp_meeting_id self) (vp_take self) (vp_user_id self);
          mret (transcript_paths, snd <$> transcript_paths)
        else mret (None, None)
  | None => mret (None, None)
  end.

(** Lines 757-771 of [run]: the audio deliverable. *)
Definition save_final_audio (audio_concat_path : option Path)
    (final_audio_path : Path) : M (option Path) :=
  match audio_concat_path with
  | Some audio =>
      there ← PyPath.exists_ audio;
      if (there : bool) then
        r ← run_ffmpeg (wav_command audio final_audio_path);
        mret (if (r.1 : bool) then Some final_audio_path else None)
      else mret None
  | None => mret None
  end.

(** Lines 715-784 of [run]: what follows the assembly of the two tracks,
    [audio_concat_path] being [None] when there is no audio track.  [None]
    stands for the early [return False]. *)
Definition finish_assembly (self : VideoPipeline) (processor : VideoProcessor)
    (transcript_output_dir : string) (skip_transcription : bool) (temp_dir : string)
    (audio_concat_path : option Path) : M (option artifacts) :=
  let video_concat_path := mkPath temp_dir "video_concatenated.webm" in
  audio_wav_path ←
    extract_wav_for_transcription audio_concat_path temp_dir skip_transcription;
  tr ← generate_transcript self audio_wav_path transcript_output_dir
         skip_transcription;
  timestamp ← now_stamp;
  let final_video_path :=
    mkPath (video_output_dir processor) ("output_" +:+ timestamp +:+ ".mp4") in
  let final_audio_path :=
    mkPath (audio_output_dir processor) ("audio_" +:+ timestamp +:+ ".wav") in
  saved_audio_path ← save_final_audio audio_concat_path final_audio_path;
  muxed ← mux_video_audio_with_captions video_concat_path audio_concat_path
            tr.2 final_video_path;
  if (muxed : bool) then mret (Some (final_video_path, saved_audio_path, tr.1))
  else mret None.

(** Lines 699-784 of [run]: the body of the [with] block. *)
Definition assemble_and_mux (self : VideoPipeline) (processor : VideoProcessor)
    (video_chunks audio_chunks : list chunk) (transcript_output_dir : string)
    (skip_transcription : bool) (temp_dir : string) : M (option artifacts) :=
  let video_concat_path := mkPath temp_dir "video_concatenated.webm" in
  ok ← concatenate_raw_chunks video_chunks video_concat_path "video";
  if negb ok then mret None
  else
    audio_concat_path ← assemble_audio audio_chunks temp_dir;
    finish_assembly self processor transcript_output_dir skip_transcription
      temp_dir audio_concat_path.

(** Lines 786-801 of [run]: the publish step. *)
Definition publish (self : VideoPipeline) (a : artifacts) : M bool :=
  let '(video_path, saved_audio_path, transcript_paths) := a in
  ok ← upload_processed_files (vp_r2_manager self) (Some video_path)
         saved_audio_path
         ((λ jp : Path * Path, (jp.1, Some jp.2)) <$> transcript_paths);
  if negb ok then mret false else mret true.

(** Lines 674-784 of [run]: locating the chunks and assembling. *)
Definition process (self : VideoPipeline) (skip_transcription : bool) :
    M (option artifacts) :=
  let video_chunks_dir := PyStr.path_join (vp_local_dir self) "video" in
  let audio_chunks_dir := PyStr.path_join (vp_local_dir self) "audio" in
  let video_output_dir := PyStr.path_join (vp_output_dir self) "video" in
  let audio_output_dir := PyStr.path_join (vp_output_dir self) "audio" in
  let transcript_output_dir := PyStr.path_join (vp_output_dir self) "transcripts" in
  processor ← VideoProcessor_init video_chunks_dir audio_chunks_dir
                video_output_dir audio_output_dir (Some transcript_output_dir);
  chunks ← Locator.find_chunk_sequences processor;
  match chunks.1 with
  | [] => mret None
  | _ =>
      with_tempdir
        (assemble_and_mux self processor chunks.1 chunks.2
           transcript_output_dir skip_transcription)
  end.

(** The body of the [try] of [run]. *)
Definition run_stages (self : VideoPipeline) (skip_transcription : bool) : M bool :=
  setup_directories self;;
  ffmpeg_ok ← check_ffmpeg;
  if negb ffmpeg_ok then mret false
  else
    fetched ← download_chunks (vp_r2_manager self);
    if negb fetched then mret false
    else
      produced ← process self skip_transcription;
      match produced with
      | None => mret false
      | Some a => publish self a
      end.

(** [run(self, cleanup=True, skip_transcription=False)] *)
Definition run (self : VideoPipeline) (cleanup skip_transcription : bool) : M bool :=
  try_finally
    (try_except (run_stages self skip_transcription) (λ _, mret false))
    (if cleanup then cleanup_local_files self else mret tt).

End Pipeline.

(** ** [chunksToVideo.py]: the stand-alone assembler

    Its [VideoProcessor] has the same [find_chunk_sequences],
    [concatenate_raw_chunks] and [run_ffmpeg] as the one of [app/worker.py];
    only [process_chunks] and [mux_video_audio] are its own. *)

Module ChunksToVideo.
Section Assembler.
Context `{External}.

(** The command of [mux_video_audio]. *)
Definition mux_command (video_path audio_path output_path : Path) : list string :=
  ["ffmpeg"; "-y"; "-i"; PyPath.str video_path; "-i"; PyPath.str audio_path;
   "-c:v"; "copy"; "-c:a"; "copy"; "-shortest";
   "-avoid_negative_ts"; "make_zero"; PyPath.str output_path].

(** [mux_video_audio(self, video_path, audio_path, output_path)] *)
Definition mux_video_audio (video_path audio_path output_path : Path) : M bool :=
  r ← run_ffmpeg (mux_command video_path audio_path output_path);
  mret r.1.

(** Step 4 of [process_chunks]: the audio deliverable. *)
Definition save_audio (audio_concat_path : option Path) (final_audio_path : Path) :
    M (option Path) :=
  match audio_concat_path with
  | Some audio =>
      there ← PyPath.exists_ audio;
      if (there : bool) then
        try_except
          (r ← run_ffmpeg (wav_command audio final_audio_path);
           mret (if (r.1 : bool) then Some final_audio_path else None))
          (λ _, mret None)
      else mret None
  | None => mret None
  end.

(** Step 5 of [process_chunks]: mux, or copy the video alone. *)
Definition finish (video_concat_path : Path) (audio_concat_path : option Path)
    (final_video_path : Path) : M (option Path) :=
  there ← match audio_concat_path with
          | Some audio => PyPath.exists_ audio
          | None => mret false
          end;
  match audio_concat_path, (there : bool) with
  | Some audio, true =>
      muxed ← mux_video_audio video_concat_path audio final_video_path;
      mret (if (muxed : bool) then Some final_video_path else None)
  | _, _ =>
      try_except
        (Fs.copy2 (PyPath.str video_concat_path) (PyPath.str final_video_path);;
         mret (Some final_video_path))
        (λ _, mret None)
  end.

(** Steps 3 to 5 of [process_chunks]: what follows the assembly of the two
    tracks. *)
Definition deliver (self : VideoProcessor) (temp_dir : string)
    (audio_concat_path : option Path) : M (option Path * option Path) :=
  let video_concat_path := mkPath temp_dir "video_concatenated.webm" in
  timestamp ← now_stamp;
  let final_video_path :=
    mkPath (video_output_dir self) ("output_" +:+ timestamp +:+ ".webm") in
  let final_audio_path :=
    mkPath (audio_output_dir self) ("audio_" +:+ timestamp +:+ ".wav") in
  saved_audio_path ← save_audio audio_concat_path final_audio_path;
  video ← finish video_concat_path audio_concat_path final_video_path;
  mret (video, saved_audio_path).

(** The body of the [with] block of [process_chunks]. *)
Definition assemble (self : VideoProcessor) (video_chunks audio_chunks : list chunk)
    (temp_dir : string) : M (option Path * option Path) :=
  let video_concat_path := mkPath temp_dir "video_concatenated.webm" in
  ok ← concatenate_raw_chunks video_chunks video_concat_path "video";
  if negb ok then mret (None, None)
  else
    audio_concat_path ← assemble_audio audio_chunks temp_dir;
    deliver self temp_dir audio_concat_path.

(** [process_chunks(self)]: the final video and audio paths, each [None]
    when it was not produced. *)
Definition process_chunks (self : VideoProcessor) : M (option Path * option Path) :=
  chunks ← Locator.find_chunk_sequences self;
  match chunks.1 with
  | [] => mret (None, None)
  | _ => with_tempdir (assemble self chunks.1 chunks.2)
  end.

End Assembler.
End ChunksToVideo.

(** ** The front end: [app/driver.py] and [app/routes.py] *)

(** The dictionary [set_config] returns. *)
Record config := Config {
  cfg_MEETING_ID : string;
  cfg_TAKE : string;
  cfg_USER_ID : string;
  cfg_PREFIX : string;
  cfg_DIR : string;
  cfg_REMOTE_DIR : string;
  cfg_LOCAL_DIR : string;
  cfg_OUTPUT_DIR : string;
  cfg_UPLOAD_DIR : string
}.

Module PyVal.

(** Truth value of a Python object. *)
Definition truthy (v : pyval) : bool :=
  match v with
  | PNone => false
  | PBool b => b
  | PInt z => negb (z =? 0)%Z
  | PStr s => negb (bool_decide (s = ""))
  | PList l => match l with [] => false | _ => true end
  | PDict d => match d with [] => false | _ => true end
  end.

(** [data.get(key)]: defined on dictionaries only; a dictionary holds the
    first binding of a key. *)
Definition get (data : pyval) (key : string) : exn + option pyval :=
  match data with
  | PDict d => inr (snd <$> List.find (λ kv, bool_decide (kv.1 = key)) d)
  | _ => inl AttributeError
  end.

Definition as_str (v : pyval) : option string :=
  match v with
  | PStr s => Some s
  | _ => None
  end.

End PyVal.

(** The models the transcriber accepts. *)
Definition valid_models : list string := ["tiny"; "base"; "small"; "medium"; "large"].

(** [whisper_model in valid_models]: equality with one of five strings. *)
Definition in_valid_models (v : pyval) : bool :=
  match v with
  | PStr s => bool_decide (s ∈ valid_models)
  | _ => false
  end.

Module Driver.

(** The pure part of [set_config]: the directories of a job. *)
Definition job_config (meeting_id take user_id : string) : config :=
  let PREFIX := "recordings" in
  let DIR := PyStr.join "/" [meeting_id; take; user_id] in
  Config meeting_id take user_id PREFIX DIR
    (PREFIX +:+ "/" +:+ DIR)
    ("../chunks/" +:+ DIR)
    ("../recordings/" +:+ DIR)
    (PREFIX +:+ "/" +:+ PyStr.join "/" [meeting_id; take]).

(** [set_config(meeting_id, take, user_id)]: the identifiers are stored in
    the module globals first; [str.join] then raises on a non-string. *)
Definition set_config (meeting_id take user_id : pyval) : M config := λ w,
  let g := w_globals w in
  let g1 := DriverGlobals meeting_id take user_id "recordings"
              (g_DIR g) (g_REMOTE_DIR g) (g_LOCAL_DIR g) (g_OUTPUT_DIR g)
              (g_UPLOAD_DIR g) in
  match PyVal.as_str meeting_id, PyVal.as_str take, PyVal.as_str user_id with
  | Some m, Some t, Some u =>
      let c := job_config m t u in
      (Ret c,
       set_globals (DriverGlobals meeting_id take user_id (cfg_PREFIX c)
                      (Some (cfg_DIR c)) (Some (cfg_REMOTE_DIR c)) (Some (cfg_LOCAL_DIR c))
                      (Some (cfg_OUTPUT_DIR c)) (Some (cfg_UPLOAD_DIR c))) w)
  | _, _, _ =>
      (Raise (TypeError "sequence item: expected str instance" []),
       set_globals g1 w)
  end.

End Driver.

(** The JSON bodies [submit_data] answers with, by the shape of the
    dictionary passed to [jsonify]. *)
Inductive response_body :=
| BodyError (message : string)
    (* {"error": message} *)
| BodyInvalidModel (whisper_model : pyval)
    (* {"error": "Invalid whisper model: <whisper_model>. Valid models: ..."} *)
| BodyException (e : exn)
    (* {"error": str(api_error)} *)
| BodyStarted (status message : string) (meeting_id take user_id : string)
    (cfg : config) (whisper_model : string) (cleanup skip_transcription : pyval).
    (* {"status": status, "message": message, "meeting_id": ..., "take": ...,
        "user_id": ..., "config": ..., "options": {...}} *)

Record response := Response { status_code : nat; body : response_body }.

(** [str(e)] of an exception, as far as the log needs it. *)
Definition exn_str (e : exn) : string :=
  match e with
  | TypeError reason names => reason +:+ ": " +:+ PyStr.join ", " names
  | ValueError => "ValueError"
  | OverflowError => "OverflowError"
  | AttributeError => "AttributeError"
  | FileNotFoundError => "FileNotFoundError"
  | FileExistsError => "FileExistsError"
  | IsADirectoryError => "IsADirectoryError"
  | NotADirectoryError => "NotADirectoryError"
  | ClientError => "ClientError"
  | RuntimeError => "RuntimeError"
  | CalledProcessError stderr => stderr
  end.

Module Routes.
Section Routes.
Context `{External}.

(** The closure [run_pipeline] that [submit_data] hands to the thread. *)
Definition run_pipeline (MEETING_ID TAKE USER_ID whisper_model : string)
    (cleanup skip_transcription : pyval) : M unit :=
  let job := MEETING_ID +:+ "/" +:+ TAKE +:+ "/" +:+ USER_ID in
  try_except
    (pipeline ← VideoPipeline_new [] [("whisper_model", whisper_model)];
     success ← run pipeline (PyVal.truthy cleanup) (PyVal.truthy skip_transcription);
     if (success : bool)
     then print ("✅ Pipeline completed successfully for " +:+ job)
     else print ("❌ Pipeline failed for " +:+ job))
    (λ pipeline_error,
       print ("💥 Pipeline exception for " +:+ job +:+ ": " +:+ exn_str pipeline_error)).

(** [data.get(key)] resp. [data.get(key, default)] *)
Definition get_or (data : pyval) (key : string) (dflt : pyval) : M pyval :=
  v ← lift_exn (PyVal.get data key);
  mret (default dflt v).

(** The body of the [try] of [submit_data].  The result is the response
    and, if a thread was started, its target. *)
Definition submit_data_body (request_json : exn + pyval) :
    M (response * option (M unit)) :=
  data ← lift_exn request_json;
  if negb (PyVal.truthy data)
  then mret (Response 400 (BodyError "No JSON data provided"), None)
  else
    MEETING_ID ← get_or data "meeting_id" PNone;
    TAKE ← get_or data "take" PNone;
    USER_ID ← get_or data "user_id" PNone;
    if negb (PyVal.truthy MEETING_ID && PyVal.truthy TAKE && PyVal.truthy USER_ID)
    then mret (Response 400
                 (BodyError "Missing required tokens: 'meeting_id', 'take', 'user_id'"),
               None)
    else
      config ← Driver.set_config MEETING_ID TAKE USER_ID;
      print "🚀 Starting video processing pipeline for:";;
      print ("   Meeting ID: " +:+ cfg_MEETING_ID config);;
      print ("   Take: " +:+ cfg_TAKE config);;
      print ("   User ID: " +:+ cfg_USER_ID config);;
      print ("   Remote Directory: " +:+ cfg_REMOTE_DIR config);;
      print ("   Local Directory: " +:+ cfg_LOCAL_DIR config);;
      print ("   Output Directory: " +:+ cfg_OUTPUT_DIR config);;
      print ("   Upload Directory: " +:+ cfg_UPLOAD_DIR config);;
      whisper_model ← get_or data "whisper_model" (PStr "base");
      cleanup ← get_or data "cleanup" (PBool true);
      skip_transcription ← get_or data "skip_transcription" (PBool false);
      match whisper_model with
      | PStr model =>
          if bool_decide (model ∈ valid_models) then
            mret (Response 200
                    (BodyStarted "success" "Video processing pipeline started"
                       (cfg_MEETING_ID config) (cfg_TAKE config) (cfg_USER_ID config) config
                       model cleanup skip_transcription),
                  Some (run_pipeline (cfg_MEETING_ID config) (cfg_TAKE config)
                          (cfg_USER_ID config) model cleanup skip_transcription))
          else mret (Response 400 (BodyInvalidModel whisper_model), None)
      | _ => mret (Response 400 (BodyInvalidModel whisper_model), None)
      end.

(** [submit_data()], on the value (or exception) of [request.get_json()]. *)
Definition submit_data (request_json : exn + pyval) :
    M (response * option (M unit)) :=
  try_except (submit_data_body request_json)
    (λ api_error,
       print ("❌ Error in submit_data: " +:+ exn_str api_error);;
       mret (Response 500 (BodyException api_error), None)).

End Routes.
End Routes.

(** ** The command line: [main] of [app/worker.py] *)

Record cli_options := CliOptions {
  cli_cleanup : bool;
  cli_skip_transcription : bool;
  cli_whisper_model : string
}.

Module Cli.
Section Cli.
Context `{External}.

Definition rule : string := String.concat "" (replicate 60 "=").

Definition usage : string :=
  "Usage: python pipeline.py [options]".

(** The argument loop of [main], whose only effect is printing: the lines
    it prints, and the exit status of [sys.exit] or the options when the loop
    runs to its end. *)
Fixpoint scan_args (argv : list string) (o : cli_options) :
    list string * (nat + cli_options) :=
  match argv with
  | [] => ([], inr o)
  | arg :: rest =>
      if bool_decide (arg = "--no-cleanup") then
        let r := scan_args rest (CliOptions false (cli_skip_transcription o)
                                   (cli_whisper_model o)) in
        ("🗂️  Local files will be preserved after processing" :: r.1, r.2)
      else if bool_decide (arg = "--no-transcript") then
        let r := scan_args rest (CliOptions (cli_cleanup o) true
                                   (cli_whisper_model o)) in
        ("⏭️  Transcription will be skipped" :: r.1, r.2)
      else if bool_decide (arg = "--whisper-model") then
        match rest with
        | model :: rest' =>
            let r := scan_args rest' (CliOptions (cli_cleanup o)
                                        (cli_skip_transcription o) model) in
            (("🎤 Using Whisper model: " +:+ model) :: r.1, r.2)
        | [] =>
            (["❌ --whisper-model requires a model name (tiny, base, small, medium, large)"],
             inl 1)
        end
      else if bool_decide (arg = "--help") then ([usage], inl 0)
      else
        (["❌ Unknown argument: " +:+ arg; "Use --help for usage information"],
         inl 1)
  end.

Definition parse_args (argv : list string) (o : cli_options) : M (nat + cli_options) :=
  let r := scan_args argv o in
  for_each r.1 print;;
  mret r.2.

(** Lines 877-886 of [main]: the pipeline is built and run; an exception
    nobody catches ends the process with status 1. *)
Definition build_and_run (o : cli_options) : M nat :=
  try_except
    (pipeline ← VideoPipeline_new [] [("whisper_model", cli_whisper_model o)];
     success ← run pipeline (cli_cleanup o) (cli_skip_transcription o);
     if (success : bool)
     then print "🎊 All operations completed successfully!";; mret 0
     else print "💥 Pipeline failed!";; mret 1)
    (λ _, mret 1).

(** [main()], on [sys.argv[1:]]; the result is the exit status. *)
Definition main (argv : list string) : M nat :=
  print "🎥 Video Processing Pipeline with Whisper Transcription";;
  print rule;;
  parsed ← parse_args argv (CliOptions true false "base");
  match parsed with
  | inl status => mret status
  | inr o =>
      if bool_decide (cli_whisper_model o ∈ valid_models)
      then build_and_run o
      else
        print ("❌ Invalid Whisper model: " +:+ cli_whisper_model o);;
        print ("Valid models: " +:+ PyStr.join ", " valid_models);;
        mret 1
  end.

End Cli.
End Cli.

(** ** Jobs and example environments *)

(** The pipeline object of a job: the directories are those [set_config]
    computes, the arguments a complete call of [VideoPipeline] would be
    given. *)
Definition job_pipeline (meeting_id take user_id whisper_model : string) : VideoPipeline :=
  let c := Driver.job_config meeting_id take user_id in
  Pipeline meeting_id take user_id (cfg_REMOTE_DIR c) (cfg_LOCAL_DIR c)
    (cfg_OUTPUT_DIR c) (cfg_UPLOAD_DIR c)
    (R2Manager (cfg_REMOTE_DIR c) (cfg_LOCAL_DIR c) (cfg_UPLOAD_DIR c) user_id)
    (Transcriber whisper_model).

Definition initial_globals : driver_globals :=
  DriverGlobals PNone PNone PNone "recordings" None None None None None.

(** A world with an empty disk, the given bucket, no model loaded, nothing
    logged and no external call made. *)
Definition fresh_world (bucket : gmap string string) : World :=
  mkWorld ∅ bucket None initial_globals [] [].

Module Scenario.

(** The transcription the example speech model returns. *)
Definition result : whisper_result :=
  WhisperResult " hello world. bye "
    (Some "en")
    (Some [Segment (Some 0%Z) (Some (PyFloat.of_Z 0))
                   (Some (PyFloat.of_decimal 25 1)) (Some " hello world.");
           Segment (Some 1%Z) (Some (PyFloat.of_decimal 25 1))
                   (Some (PyFloat.of_decimal 37254 1)) (Some " bye ")]).

(** An environment in which every collaborator succeeds. *)
Definition all_succeed : External := {|
  ext_proc := λ _ cmd, ProcOk "" ("out:" +:+ default "" (last cmd));
  ext_net := λ _, true;
  ext_load_model := λ _ _, true;
  ext_transcribe := λ _ _, Some result;
  ext_now := λ _, "2024-05-01_10-00-00";
  ext_tmpdir := λ _, "/tmp/tmpk3v9";
  ext_getenv := λ _, Some "set";
  ext_json_dumps := λ d, "{transcript of " +:+ td_meeting_id d +:+ "}"
|}.

(** The end-to-end scenario of the specification: job [m1/t1/u1] with three
    video chunks and two audio chunks in the bucket. *)
Definition bucket : gmap string string :=
  list_to_map [
    ("recordings/m1/t1/u1/video_0.webm", "V0");
    ("recordings/m1/t1/u1/video_1.webm", "V1");
    ("recordings/m1/t1/u1/video_2.webm", "V2");
    ("recordings/m1/t1/u1/audio_0.webm", "A0");
    ("recordings/m1/t1/u1/audio_1.webm", "A1")].

Definition job : VideoPipeline := job_pipeline "m1" "t1" "u1" "base".

(** The scenario starts on an empty disk. *)
Definition start : World := fresh_world bucket.

(** The worlds in which the run of the scenario has set up its directories
    and starts to fetch, to process and to publish, each kept as the value the
    run computes. *)
Definition at_setup : World :=
  Eval vm_compute in (setup_directories job start).2.

Definition at_fetch : World :=
  Eval vm_compute in (check_ffmpeg (H := all_succeed) at_setup).2.

Definition at_process : World :=
  Eval vm_compute in
  (download_chunks (H := all_succeed) (vp_r2_manager job) at_fetch).2.

Definition at_publish : World :=
  Eval vm_compute in
  (process (H := all_succeed) job false at_process).2.

(** The deliverables of the scenario. *)
Definition video : Path :=
  mkPath "../recordings/m1/t1/u1/video" "output_2024-05-01_10-00-00.mp4".
Definition audio : Path :=
  mkPath "../recordings/m1/t1/u1/audio" "audio_2024-05-01_10-00-00.wav".
Definition json : Path :=
  mkPath "../recordings/m1/t1/u1/transcripts" "transcript_2024-05-01_10-00-00.json".
Definition srt : Path :=
  mkPath "../recordings/m1/t1/u1/transcripts" "transcript_2024-05-01_10-00-00.srt".

(** The subtitle text of the example transcription. *)
Definition subtitle : string :=
  match Srt.convert_to_srt result with
  | inr s => s
  | inl _ => ""
  end.

(** What the run of the scenario gives, with cleanup and without. *)
Definition finished : outcome bool * World :=
  Eval vm_compute in run (H := all_succeed) job true false start.

Definition finished_keeping_files : outcome bool * World :=
  Eval vm_compute in run (H := all_succeed) job false false start.

(** The same job when the bucket holds nothing. *)
Definition nothing_stored : World := fresh_world ∅.

Definition nothing_stored_at_setup : World :=
  Eval vm_compute in (setup_directories job nothing_stored).2.

Definition nothing_stored_at_fetch : World :=
  Eval vm_compute in (check_ffmpeg (H := all_succeed) nothing_stored_at_setup).2.

(** An environment in which the remux of the audio track fails. *)
Definition audio_remux_fails : External := {|
  ext_proc := λ _ cmd,
    if bool_decide (last cmd = Some "/tmp/tmpk3v9/audio_concatenated.webm")
    then ProcFail "Invalid data found when processing input" None
    else ProcOk "" ("out:" +:+ default "" (last cmd));
  ext_net := λ _, true;
  ext_load_model := λ _ _, true;
  ext_transcribe := λ _ _, Some result;
  ext_now := λ _, "2024-05-01_10-00-00";
  ext_tmpdir := λ _, "/tmp/tmpk3v9";
  ext_getenv := λ _, Some "set";
  ext_json_dumps := λ d, "{transcript of " +:+ td_meeting_id d +:+ "}"
|}.

(** The processor of the scenario and the chunks it locates. *)
Definition processor : VideoProcessor :=
  Processor "../chunks/m1/t1/u1/video" "../chunks/m1/t1/u1/audio"
    "../recordings/m1/t1/u1/video" "../recordings/m1/t1/u1/audio"
    (Some "../recordings/m1/t1/u1/transcripts").

Definition video_chunks : list chunk :=
  [(0, mkPath "../chunks/m1/t1/u1/video" "video_0.webm");
   (1, mkPath "../chunks/m1/t1/u1/video" "video_1.webm");
   (2, mkPath "../chunks/m1/t1/u1/video" "video_2.webm")].

Definition audio_chunks : list chunk :=
  [(0, mkPath "../chunks/m1/t1/u1/audio" "audio_0.webm");
   (1, mkPath "../chunks/m1/t1/u1/audio" "audio_1.webm")].

(** The worlds in which the chunks of the scenario are located and in which
    their assembly starts; they do not depend on the outcome of any remux. *)
Definition at_locate : World :=
  Eval vm_compute in
  (VideoProcessor_init
     "../chunks/m1/t1/u1/video" "../chunks/m1/t1/u1/audio"
     "../recordings/m1/t1/u1/video" "../recordings/m1/t1/u1/audio"
     (Some "../recordings/m1/t1/u1/transcripts") at_process).2.

Definition at_assembly : World :=
  Eval vm_compute in (mkdtemp (H := all_succeed) at_locate).2.

(** The worlds after the video track has been assembled and after the
    assembly of the audio track has failed. *)
Definition after_video : World :=
  Eval vm_compute in
  (concatenate_raw_chunks (H := audio_remux_fails) video_chunks
     (mkPath "/tmp/tmpk3v9" "video_concatenated.webm") "video" at_assembly).2.

Definition after_audio_failure : World :=
  Eval vm_compute in
  (concatenate_raw_chunks (H := audio_remux_fails) audio_chunks
     (mkPath "/tmp/tmpk3v9" "audio_concatenated.webm") "audio" after_video).2.

(** A disk with one chunk and a work directory, for the assembler alone. *)
Definition one_chunk : World :=
  set_fs (insert "/data/video_0.webm" (NFile "V0"))
    (set_fs (insert "/tmp/work" NDir) (fresh_world ∅)).

(** An environment in which the second upload, that of the audio, fails. *)
Definition audio_upload_fails : External := {|
  ext_proc := λ _ cmd, ProcOk "" ("out:" +:+ default "" (last cmd));
  ext_net := λ time, negb (bool_decide (time = 18));
  ext_load_model := λ _ _, true;
  ext_transcribe := λ _ _, Some result;
  ext_now := λ _, "2024-05-01_10-00-00";
  ext_tmpdir := λ _, "/tmp/tmpk3v9";
  ext_getenv := λ _, Some "set";
  ext_json_dumps := λ d, "{transcript of " +:+ td_meeting_id d +:+ "}"
|}.

(** A request that names a model outside the allowed set. *)
Definition request_huge : pyval :=
  PDict [("meeting_id", PStr "m1"); ("take", PStr "t1"); ("user_id", PStr "u1");
         ("whisper_model", PStr "huge")].

(** A request that names no model. *)
Definition request_default : list (string * pyval) :=
  [("meeting_id", PStr "m1"); ("take", PStr "t1"); ("user_id", PStr "u1")].

End Scenario.

(** ** Vocabulary of the properties *)

(** The uploads of a trace, as (local path, key, success). *)
Definition uploads (t : list event) : list (string * string * bool) :=
  omap (λ e, match e with
             | EvS3Upload l k ok => Some (l, k, ok)
             | _ => None
             end) t.

(** What the locator is to return for one track, in the words of the
    specification: exactly the pairs of an index below the bound and the path
    of the existing file of that index, in strictly ascending order of index,
    and nothing when no chunk exists. *)
Definition located (fs : gmap string node) (dir track : string) (l : list chunk) : Prop :=
  (∀ i p, (i, p) ∈ l ↔
     i < Locator.upper_bound ∧ p = mkPath dir (Locator.chunk_name track i) ∧
     is_Some (fs !! PyPath.str p)) ∧
  StronglySorted lt l.*1 ∧
  ((∀ i, i < Locator.upper_bound →
      fs !! PyPath.str (mkPath dir (Locator.chunk_name track i)) = None) → l = []).

(** [p] holds a regular file. *)
Definition is_file (p : string) (w : World) : Prop :=
  ∃ c, w_fs w !! p = Some (NFile c).

(** The artifact [p], if it is given and exists on disk. *)
Definition existing (fs : gmap string node) (p : option Path) : list Path :=
  match p with
  | Some p => if bool_decide (is_Some (fs !! PyPath.str p)) then [p] else []
  | None => []
  end.

(** The uploads [upload_processed_files] is to attempt, as (local path, key):
    one for each of video, audio and subtitle that exists, in that order. *)
Definition upload_plan (self : CloudflareR2Manager) (video_path audio_path : option Path)
    (transcript_paths : option (Path * option Path)) (fs : gmap string node) :
    list (string * string) :=
  ((λ p, (PyPath.str p,
          r2_upload_dir self +:+ "/final_video_" +:+ r2_user_id self +:+ ".mp4"))
     <$> existing fs video_path) ++
  ((λ p, (PyPath.str p,
          r2_upload_dir self +:+ "/final_audio_" +:+ r2_user_id self +:+ PyPath.suffix p))
     <$> existing fs audio_path) ++
  ((λ p, (PyPath.str p,
          r2_upload_dir self +:+ "/subtitle_" +:+ r2_user_id self +:+ ".srt"))
     <$> existing fs (transcript_paths ≫= snd)).

(** The trace events of a list of upload attempts with their outcomes. *)
Definition upload_events (plan : list (string * string)) (oks : list bool) : list event :=
  zip_with (λ lk ok, EvS3Upload lk.1 lk.2 ok) plan oks.

Section Stages.
Context `{External}.

(** The world a run leaves: that after its [finally] clause. *)
Definition finalize (self : VideoPipeline) (cleanup : bool) (w : World) : World :=
  if cleanup then (cleanup_local_files self w).2 else w.

(** A run started in [w] passes directory setup and the tool preflight and
    is about to fetch in [w2]. *)
Definition fetch_starts (self : VideoPipeline) (w w2 : World) : Prop :=
  ∃ w1, setup_directories self w = (Ret tt, w1) ∧
        check_ffmpeg w1 = (Ret true, w2).

(** A run started in [w] has fetched its chunks and is about to process them
    in [w3]. *)
Definition fetched (self : VideoPipeline) (w w3 : World) : Prop :=
  ∃ w2, fetch_starts self w w2 ∧
        download_chunks (vp_r2_manager self) w2 = (Ret true, w3).

(** A run started in [w] has located the chunks [video_chunks] (at least
    one) and [audio_chunks], and is about to assemble them in the temporary
    directory [temp_dir], in [w5]. *)
Definition assembly_starts (self : VideoPipeline) (w : World)
    (processor : VideoProcessor) (video_chunks audio_chunks : list chunk)
    (temp_dir : string) (w5 : World) : Prop :=
  ∃ w3 w4,
    fetched self w w3 ∧
    VideoProcessor_init
      (PyStr.path_join (vp_local_dir self) "video")
      (PyStr.path_join (vp_local_dir self) "audio")
      (PyStr.path_join (vp_output_dir self) "video")
      (PyStr.path_join (vp_output_dir self) "audio")
      (Some (PyStr.path_join (vp_output_dir self) "transcripts")) w3
      = (Ret processor, w4) ∧
    Locator.find_chunk_sequences processor w4 = (Ret (video_chunks, audio_chunks), w4) ∧
    video_chunks ≠ [] ∧
    mkdtemp w4 = (Ret temp_dir, w5).

(** What [run] does once the body of its [with] block has ended with
    outcome [r]: the temporary directory is removed, the artifacts, if any,
    are published, and the [finally] clause runs. *)
Definition run_after_assembly (self : VideoPipeline) (cleanup : bool)
    (temp_dir : string) (r : outcome (option artifacts) * World) :
    outcome bool * World :=
  let '(produced, w6) := try_finally (λ _, r) (Fs.rmtree temp_dir) r.2 in
  let '(published, w7) :=
    match produced with
    | Ret (Some a) => publish self a w6
    | Ret None => (Ret false, w6)
    | Raise e => (Raise e, w6)
    end in
  (Ret (match published with Ret b => b | Raise _ => false end),
   finalize self cleanup w7).

(** A run started in [w] has produced the artifacts [a] and is about to
    publish them in [w4]. *)
Definition publish_starts (self : VideoPipeline) (skip_transcription : bool)
    (w : World) (a : artifacts) (w4 : World) : Prop :=
  ∃ w3, fetched self w w3 ∧
        process self skip_transcription w3 = (Ret (Some a), w4).

End Stages.

(** [w'] differs from [w] on the local disk at most. *)
Definition same_but_fs (w w' : World) : Prop :=
  w_bucket w' = w_bucket w ∧ w_model w' = w_model w ∧
  w_globals w' = w_globals w ∧ w_log w' = w_log w ∧ w_trace w' = w_trace w.

(** The seven parameters of [VideoPipeline.__init__] without default. *)
Definition required_parameters : list string :=
  ["meeting_id"; "take"; "user_id"; "remote_dir"; "local_dir"; "output_dir";
   "upload_dir"].

(** [w'] differs from [w] in the console log and the driver's globals at
    most: no file or directory was created, no object stored, no model
    loaded and no external call made. *)
Definition no_work_done (w w' : World) : Prop :=
  w_fs w' = w_fs w ∧ w_bucket w' = w_bucket w ∧ w_model w' = w_model w ∧
  w_trace w' = w_trace w.

(** The identifiers a request carries are text: each of the three is absent,
    false in the sense of Python, or a string. *)
Definition textual_identifiers (data : pyval) : Prop :=
  ∀ key x, key ∈ ["meeting_id"; "take"; "user_id"] →
    PyVal.get data key = inr (Some x) → PyVal.truthy x = true → ∃ s, x = PStr s.

(** The two timestamps of a segment as [format_timestamp] renders them. *)
Definition stamped (seg : segment) (st : string * string) : Prop :=
  Srt.format_timestamp (default (S754_zero false) (seg_start seg)) = inr st.1 ∧
  Srt.format_timestamp (default (S754_zero false) (seg_end seg)) = inr st.2.

(** The cues of a segment list, numbered from [first]. *)
Definition cues_from (first : nat) (segs : list segment) (stamps : list (string * string)) :
    list string :=
  imap (λ k (p : segment * (string * string)),
          Srt.spec_cue (first + k) p.2.1 p.2.2
            (PyStr.strip (default "" (seg_text p.1))))
       (zip segs stamps).

(** [m] stores no object and attempts no upload. *)
Definition quiet {A} (m : M A) : Prop :=
  ∀ w, w_bucket (m w).2 = w_bucket w ∧
       uploads (w_trace (m w).2) = uploads (w_trace w).

(** Whenever [m] returns, its value satisfies [P]. *)
Definition returns {A} (m : M A) (P : A → Prop) : Prop :=
  ∀ w a w', m w = (Ret a, w') → P a.

(** The names of the artifacts of a job: the deliverables carry the stamp
    of the clock read before the mux, the transcripts that of the clock read
    by the transcriber. *)
Definition artifact_names (video_dir audio_dir transcript_dir : string)
    (a : artifacts) : Prop :=
  ∃ stamp,
    a.1.1 = mkPath video_dir ("output_" +:+ stamp +:+ ".mp4") ∧
    (∀ audio, a.1.2 = Some audio →
       audio = mkPath audio_dir ("audio_" +:+ stamp +:+ ".wav")) ∧
    (∀ json srt, a.2 = Some (json, srt) →
       ∃ stamp', json = mkPath transcript_dir ("transcript_" +:+ stamp' +:+ ".json") ∧
                 srt = mkPath transcript_dir ("transcript_" +:+ stamp' +:+ ".srt")).

(** The names of a transcript pair: both carry the stamp of one clock
    reading. *)
Definition transcript_names (dir : string) (tp : option (Path * Path)) : Prop :=
  ∀ json srt, tp = Some (json, srt) →
    ∃ stamp', json = mkPath dir ("transcript_" +:+ stamp' +:+ ".json") ∧
              srt = mkPath dir ("transcript_" +:+ stamp' +:+ ".srt").

(** ** [app/worker.py]: the methods [run] does not use *)

Section ProcessChunks.
Context `{External}.

(** [VideoProcessor.mux_video_audio(self, video_path, audio_path,
    output_path)], the same text as in [chunksToVideo.py]. *)
Definition mux_video_audio (video_path audio_path output_path : Path) : M bool :=
  r ← run_ffmpeg (ChunksToVideo.mux_command video_path audio_path output_path);
  mret r.1.

(** The two commands [process_chunks] builds for the final MP4. *)
Definition video_audio_command (video_concat_path audio_concat_path
    final_video_path : Path) : list string :=
  ["ffmpeg"; "-y"; "-i"; PyPath.str video_concat_path;
   "-i"; PyPath.str audio_concat_path;
   "-c:v"; "libx264"; "-preset"; "medium"; "-crf"; "23";
   "-c:a"; "aac"; "-b:a"; "128k"; "-shortest";
   "-avoid_negative_ts"; "make_zero"; PyPath.str final_video_path].

Definition video_only_command (video_concat_path final_video_path : Path) :
    list string :=
  ["ffmpeg"; "-y"; "-i"; PyPath.str video_concat_path;
   "-c:v"; "libx264"; "-preset"; "medium"; "-crf"; "23";
   PyPath.str final_video_path].

(** Steps 3 and 4 of [VideoProcessor.process_chunks]: the WAV and the MP4. *)
Definition deliver_mp4 (self : VideoProcessor) (temp_dir : string)
    (audio_concat_path : option Path) : M (option Path * option Path) :=
  let video_concat_path := mkPath temp_dir "video_concatenated.webm" in
  timestamp ← now_stamp;
  let final_video_path :=
    mkPath (video_output_dir self) ("output_" +:+ timestamp +:+ ".mp4") in
  let final_audio_path :=
    mkPath (audio_output_dir self) ("audio_" +:+ timestamp +:+ ".wav") in
  there ← match audio_concat_path with
          | Some audio => PyPath.exists_ audio
          | None => mret false
          end;
  match audio_concat_path, (there : bool) with
  | Some audio, true =>
      saved_audio_path ←
        try_except
          (r ← run_ffmpeg (wav_command audio final_audio_path);
           mret (if (r.1 : bool) then Some final_audio_path else None))
          (λ _, mret None);
      r ← run_ffmpeg (video_audio_command video_concat_path audio final_video_path);
      mret (if (r.1 : bool) then (Some final_video_path, saved_audio_path)
            else (None, None))
  | _, _ =>
      r ← run_ffmpeg (video_only_command video_concat_path final_video_path);
      mret (if (r.1 : bool) then (Some final_video_path, None) else (None, None))
  end.

(** [VideoProcessor.process_chunks(self)] *)
Definition process_chunks (self : VideoProcessor) : M (option Path * option Path) :=
  chunks ← Locator.find_chunk_sequences self;
  match chunks.1 with
  | [] => mret (None, None)
  | _ =>
      with_tempdir (λ temp_dir,
        let video_concat_path := mkPath temp_dir "video_concatenated.webm" in
        ok ← concatenate_raw_chunks chunks.1 video_concat_path "video";
        if negb ok then mret (None, None)
        else
          audio_concat_path ← assemble_audio chunks.2 temp_dir;
          deliver_mp4 self temp_dir audio_concat_path)
  end.

(** [VideoPipeline.process_chunks(self)] *)
Definition VideoPipeline_process_chunks (self : VideoPipeline) :
    M (option Path * option Path) :=
  processor ← VideoProcessor_init
    (PyStr.path_join (vp_local_dir self) "video")
    (PyStr.path_join (vp_local_dir self) "audio")
    (PyStr.path_join (vp_output_dir self) "video")
    (PyStr.path_join (vp_output_dir self) "audio") None;
  process_chunks processor.

(** What [VideoPipeline.transcribe_audio] returns: the pair [(None, None)],
    or what the transcriber returned (a pair of paths or [None]). *)
Inductive transcription :=
| NoAudio
| Transcribed (paths : option (Path * Path)).

(** [VideoPipeline.transcribe_audio(self, audio_path)] *)
Definition VideoPipeline_transcribe_audio (self : VideoPipeline)
    (audio_path : option Path) : M transcription :=
  there ← match audio_path with
          | Some audio => PyPath.exists_ audio
          | None => mret false
          end;
  match audio_path, (there : bool) with
  | Some audio, true =>
      paths ← transcribe_audio (vp_transcriber self) audio
                (PyStr.path_join (vp_output_dir self) "transcripts")
                (vp_meeting_id self) (vp_take self) (vp_user_id self);
      mret (Transcribed paths)
  | _, _ => mret NoAudio
  end.

End ProcessChunks.

(** ** [script.py] and [driver.py]: the stand-alone pipeline

    It drives the [VideoProcessor] of [chunksToVideo.py] for the job that
    [driver.py] names. *)

Module Script.

(** [driver.py] *)
Definition MEETING_ID : string := "abcdef".
Definition TAKE : string := "some-take-id".
Definition USER_ID : string := "some-user-id".
Definition PREFIX : string := "recordings".
Definition DIR : string := PyStr.join "/" [MEETING_ID; TAKE; USER_ID].
Definition REMOTE_DIR : string := PREFIX +:+ "/" +:+ DIR.
Definition LOCAL_DIR : string := "./chunks/" +:+ DIR.
Definition OUTPUT_DIR : string := "./recordings/" +:+ DIR.
Definition UPLOAD_DIR : string := PREFIX +:+ "/" +:+ PyStr.join "/" [MEETING_ID; TAKE].

Section Script.
Context `{External}.

(** [CloudflareR2Manager.__init__(self)] *)
Definition R2_init : M unit :=
  let set k := bool_decide (is_Some (ext_getenv k) ∧ ext_getenv k ≠ Some "") in
  if set "S3_ACCESS_KEY_ID" && set "S3_SECRET_ACCESS_KEY" &&
     set "ACCOUNT_ID" && set "S3_BUCKET_NAME"
  then mret tt
  else raise ValueError.

(** [download_chunks(self)]: the text of [app/worker.py], on the directories
    of [driver.py]. *)
Definition download_chunks : M bool :=
  download_chunks (R2Manager REMOTE_DIR LOCAL_DIR UPLOAD_DIR USER_ID).

(** [upload_processed_files(self, video_path, audio_path)] *)
Definition upload_processed_files (video_path audio_path : option Path) : M bool :=
  failed_video ← upload_if_exists video_path
    (λ _, UPLOAD_DIR +:+ "/final_video_" +:+ USER_ID +:+ ".webm");
  failed_audio ← upload_if_exists audio_path
    (λ _, UPLOAD_DIR +:+ "/final_audio_" +:+ USER_ID +:+ ".webm");
  mret (negb (failed_video || failed_audio)).

(** [VideoPipeline.setup_directories(self)] *)
Definition setup_directories : M unit :=
  for_each
    [LOCAL_DIR;
     PyStr.path_join LOCAL_DIR "video";
     PyStr.path_join LOCAL_DIR "audio";
     OUTPUT_DIR;
     PyStr.path_join OUTPUT_DIR "video";
     PyStr.path_join OUTPUT_DIR "audio"]
    Fs.makedirs.

(** [VideoProcessor.__init__] of [chunksToVideo.py] *)
Definition VideoProcessor_init
    (video_chunks_dir audio_chunks_dir video_output_dir audio_output_dir : string) :
    M VideoProcessor :=
  Fs.makedirs video_output_dir;;
  Fs.makedirs audio_output_dir;;
  mret (Processor video_chunks_dir audio_chunks_dir video_output_dir
                  audio_output_dir None).

(** [VideoPipeline.process_chunks(self)] *)
Definition process_chunks : M (option Path * option Path) :=
  processor ← VideoProcessor_init
    (PyStr.path_join LOCAL_DIR "video") (PyStr.path_join LOCAL_DIR "audio")
    (PyStr.path_join OUTPUT_DIR "video") (PyStr.path_join OUTPUT_DIR "audio");
  ChunksToVideo.process_chunks processor.

(** [VideoPipeline.cleanup_local_files(self)] *)
Definition cleanup_local_files : M unit :=
  try_except
    (rmtree_if_exists LOCAL_DIR;;
     rmtree_if_exists OUTPUT_DIR)
    (λ _, mret tt).

(** The body of the [try] of [run]. *)
Definition run_stages : M bool :=
  setup_directories;;
  ffmpeg_ok ← check_ffmpeg;
  if negb ffmpeg_ok then mret false
  else
    fetched ← download_chunks;
    if negb fetched then mret false
    else
      produced ← process_chunks;
      match produced.1 with
      | None => mret false
      | Some video_path =>
          ok ← upload_processed_files (Some video_path) produced.2;
          if negb ok then mret false else mret true
      end.

(** [VideoPipeline.run(self, cleanup=True)] *)
Definition run (cleanup : bool) : M bool :=
  try_finally
    (try_except run_stages (λ _, mret false))
    (if cleanup then cleanup_local_files else mret tt).

(** [main()], on [sys.argv[1:]]; the result is the exit status.  An
    exception nobody catches ends the process with status 1. *)
Definition main (argv : list string) : M nat :=
  print "🎥 Video Processing Pipeline";;
  print (String.concat "" (replicate 60 "="));;
  let cleanup := negb (bool_decide (head argv = Some "--no-cleanup")) in
  (if cleanup then mret tt
   else print "🗂️  Local files will be preserved after processing");;
  try_except
    (R2_init;;
     success ← run cleanup;
     if (success : bool)
     then print "🎊 All operations completed successfully!";; mret 0
     else print "💥 Pipeline failed!";; mret 1)
    (λ _, mret 1).

End Script.
End Script.

(** ** Further example jobs *)

Module Cases.

(** The job of the scenario when its prefix holds a video chunk and an
    audio chunk of index 1000 only. *)
Definition late_bucket : gmap string string :=
  list_to_map [
    ("recordings/m1/t1/u1/video_1000.webm", "V1000");
    ("recordings/m1/t1/u1/audio_1000.webm", "A1000")].

Definition late_finished : outcome bool * World :=
  Eval vm_compute in
  run (H := Scenario.all_succeed) Scenario.job true false (fresh_world late_bucket).

(** The scenario on a disk where a regular file sits at the path of the
    local directory. *)
Definition occupied : World :=
  set_fs (insert "../chunks/m1/t1/u1" (NFile "")) Scenario.start.

Definition occupied_finished : outcome bool * World :=
  Eval vm_compute in
  run (H := Scenario.all_succeed) Scenario.job true false occupied.

(** An environment in which the remux of the video track fails. *)
Definition video_remux_fails : External := {|
  ext_proc := λ _ cmd,
    if bool_decide (last cmd = Some "/tmp/tmpk3v9/video_concatenated.webm")
    then ProcFail "Invalid data found when processing input" None
    else ProcOk "" ("out:" +:+ default "" (last cmd));
  ext_net := λ _, true;
  ext_load_model := λ _ _, true;
  ext_transcribe := λ _ _, Some Scenario.result;
  ext_now := λ _, "2024-05-01_10-00-00";
  ext_tmpdir := λ _, "/tmp/tmpk3v9";
  ext_getenv := λ _, Some "set";
  ext_json_dumps := λ d, "{transcript of " +:+ td_meeting_id d +:+ "}"
|}.

(** The world after the assembly of the video track has failed, and what the
    run of the scenario gives then. *)
Definition after_video_failure : World :=
  Eval vm_compute in
  (concatenate_raw_chunks (H := video_remux_fails) Scenario.video_chunks
     (mkPath "/tmp/tmpk3v9" "video_concatenated.webm") "video"
     Scenario.at_assembly).2.

Definition video_failed : outcome bool * World :=
  Eval vm_compute in
  run (H := video_remux_fails) Scenario.job true false Scenario.start.

(** What the run of the scenario gives when the remux of the audio track
    fails. *)
Definition audio_failed : outcome bool * World :=
  Eval vm_compute in
  run (H := Scenario.audio_remux_fails) Scenario.job true false Scenario.start.

(** A transcription whose first timestamp is not a number, and an
    environment whose speech model returns it. *)
Definition unstamped : whisper_result :=
  WhisperResult " hello " (Some "en")
    (Some [Segment (Some 0%Z) (Some S754_nan) (Some (PyFloat.of_decimal 25 1))
             (Some " hello ")]).

Definition unformattable : External := {|
  ext_proc := λ _ cmd, ProcOk "" ("out:" +:+ default "" (last cmd));
  ext_net := λ _, true;
  ext_load_model := λ _ _, true;
  ext_transcribe := λ _ _, Some unstamped;
  ext_now := λ _, "2024-05-01_10-00-00";
  ext_tmpdir := λ _, "/tmp/tmpk3v9";
  ext_getenv := λ _, Some "set";
  ext_json_dumps := λ d, "{transcript of " +:+ td_meeting_id d +:+ "}"
|}.

Definition unformattable_finished : outcome bool * World :=
  Eval vm_compute in
  run (H := unformattable) Scenario.job true false Scenario.start.

(** The final video of the stand-alone assembler in the scenario. *)
Definition webm : Path :=
  mkPath "../recordings/m1/t1/u1/video" "output_2024-05-01_10-00-00.webm".

(** A request for a model outside the allowed set whose meeting id is a
    number. *)
Definition request_numeric_id : pyval :=
  PDict [("meeting_id", PInt 5); ("take", PStr "t1"); ("user_id", PStr "u1");
         ("whisper_model", PStr "huge")].

(** An environment without the tool. *)
Definition no_ffmpeg : External := {|
  ext_proc := λ _ _, ProcMissing;
  ext_net := λ _, true;
  ext_load_model := λ _ _, true;
  ext_transcribe := λ _ _, Some Scenario.result;
  ext_now := λ _, "2024-05-01_10-00-00";
  ext_tmpdir := λ _, "/tmp/tmpk3v9";
  ext_getenv := λ _, Some "set";
  ext_json_dumps := λ d, "{transcript of " +:+ td_meeting_id d +:+ "}"
|}.

(** An empty disk with the speech model loaded. *)
Definition model_loaded : World := set_model (Some "base") (fresh_world ∅).

(** The worlds the two [process_chunks] leave in the scenario. *)
Definition processed : World :=
  Eval vm_compute in
  (process_chunks (H := Scenario.all_succeed) Scenario.processor Scenario.at_locate).2.

Definition assembled : World :=
  Eval vm_compute in
  (ChunksToVideo.process_chunks (H := Scenario.all_succeed) Scenario.processor
     Scenario.at_locate).2.

(** Two chunks of which only the first is on the disk [Scenario.one_chunk]. *)
Definition two_chunks : list chunk :=
  [(0, mkPath "/data" "video_0.webm"); (1, mkPath "/data" "video_1.webm")].

End Cases.

(** ** Vocabulary of the further properties *)

(** [m] leaves every world in relation [R] with the one it started in. *)
Definition keeps {A} (R : relation World) (m : M A) : Prop :=
  ∀ w, R w (m w).2.

(** Calls to the speech model. *)
Definition speech (e : event) : bool :=
  match e with
  | EvLoadModel _ _ | EvTranscribe _ _ => true
  | _ => false
  end.

(** Between [w] and [w'] the speech model was neither loaded nor run. *)
Definition no_speech (w w' : World) : Prop :=
  w_model w' = w_model w ∧
  List.filter speech (w_trace w') = List.filter speech (w_trace w).

(** Between [w] and [w'] nothing was stored in the bucket and no upload was
    attempted. *)
Definition nothing_published (w w' : World) : Prop :=
  w_bucket w' = w_bucket w ∧ uploads (w_trace w') = uploads (w_trace w).

(** The local path [download_one] saves the object [key] to. *)
Definition download_path (self : CloudflareR2Manager) (key : string) : string :=
  let file := PyStr.split_last "/" key in
  let chunkType := PyStr.split_first "_" (PyStr.split_first "." file) in
  PyStr.path_join
    (r2_local_dir self +:+ (if bool_decide (chunkType = "audio") then "/audio" else "/video"))
    file.

(** The bytes of the chunks of [chunks] the disk holds, in list order;
    [None] when one of them is not a regular file. *)
Fixpoint chunk_bytes (fs : gmap string node) (chunks : list chunk) : option string :=
  match chunks with
  | [] => Some ""
  | c :: rest =>
      match fs !! PyPath.str c.2, chunk_bytes fs rest with
      | Some (NFile data), Some more => Some (data +:+ more)
      | _, _ => None
      end
  end.

(** The file at [p] holds the bytes of an object of [keys] that
    [download_one] saves there. *)
Definition fetched_to (self : CloudflareR2Manager) (keys : list string)
    (bucket : gmap string string) (fs : gmap string node) (p : string) : Prop :=
  ∃ key data, key ∈ keys ∧ download_path self key = p ∧
              bucket !! key = Some data ∧ fs !! p = Some (NFile data).

(** Between [w] and [w'] the bucket changed at most at keys [mine]
    accepts. *)
Definition bucket_kept_outside (mine : string → bool) (w w' : World) : Prop :=
  ∀ k, mine k = false → w_bucket w' !! k = w_bucket w !! k.

(** The keys [upload_processed_files] of [app/worker.py] stores to: that of
    the video, those of the audio, which end with the suffix of the audio
    file, and that of the subtitles. *)
Definition deliverable_key (self : CloudflareR2Manager) (k : string) : bool :=
  bool_decide (k = r2_upload_dir self +:+ "/final_video_" +:+ r2_user_id self +:+ ".mp4") ||
  PyStr.startswith (r2_upload_dir self +:+ "/final_audio_" +:+ r2_user_id self) k ||
  bool_decide (k = r2_upload_dir self +:+ "/subtitle_" +:+ r2_user_id self +:+ ".srt").

(** The two keys [upload_processed_files] of [script.py] stores to. *)
Definition script_deliverable_key (k : string) : bool :=
  bool_decide (k = Script.UPLOAD_DIR +:+ "/final_video_" +:+ Script.USER_ID +:+ ".webm") ||
  bool_decide (k = Script.UPLOAD_DIR +:+ "/final_audio_" +:+ Script.USER_ID +:+ ".webm").

(** The settings [CloudflareR2Manager.__init__] asks for. *)
Definition credential_names : list string :=
  ["S3_ACCESS_KEY_ID"; "S3_SECRET_ACCESS_KEY"; "ACCOUNT_ID"; "S3_BUCKET_NAME"].

(** The disk holds at [p] in [w'] what it held in [w]. *)
Definition kept_at (p : string) (w w' : World) : Prop :=
  w_fs w' !! p = w_fs w !! p.

(** Every collaborator does its part: every run of the tool exits with
    status 0, every request to the object store goes through, the speech
    model loads, every transcription gives a result whose subtitles can be
    formatted, and the temporary directories handed out have absolute
    names. *)
Definition every_step_succeeds (H : External) : Prop :=
  (∀ time command, ∃ stdout written, ext_proc time command = ProcOk stdout written) ∧
  (∀ time, ext_net time = true) ∧
  (∀ time size, ext_load_model time size = true) ∧
  (∀ time audio, ∃ result content,
     ext_transcribe time audio = Some result ∧
     Srt.convert_to_srt result = inr content) ∧
  (∀ time, PyStr.startswith "/" (ext_tmpdir time) = true).

(** The working directories of a job with local directory [L] and output
    directory [O]. *)
Definition job_dirs (L O : string) : list string :=
  [L; L +:+ "/video"; L +:+ "/audio";
   O; O +:+ "/video"; O +:+ "/audio"; O +:+ "/transcripts"].

(** The disk of a job at work: the working directories are there, they are
    the only directories, and nothing sits at the name of a temporary
    directory or inside one. *)
Definition working_disk `{External} (L O : string) (fs : gmap string node) : Prop :=
  (∀ p, p ∈ job_dirs L O → fs !! p = Some NDir) ∧
  (∀ p, fs !! p = Some NDir → p ∈ job_dirs L O) ∧
  (∀ time x, fs !! (ext_tmpdir time +:+ x) = None).

(** * Properties *)

(** ** The monad *)

Lemma bind_run {A B} (m : M A) (f : A → M B) (w : World) :
  (m ≫= f) w = match m w with
               | (Ret a, w') => f a w'
               | (Raise e, w') => (Raise e, w')
               end.
Proof. reflexivity. Qed.

Lemma ret_run {A} (a : A) (w : World) : (mret a : M A) w = (Ret a, w).
Proof. reflexivity. Qed.

Section Scratch.
Context `{External}.

Lemma exists_run p w :
  Fs.exists_ p w = (Ret (bool_decide (is_Some (w_fs w !! p))), w).
Proof. reflexivity. Qed.

Lemma unlink_if_exists_file (p : Path) w :
  is_file (PyPath.str p) w →
  unlink_if_exists p w = (Ret tt, set_fs (delete (PyPath.str p)) w).
Proof.
  intros [c Hc]. unfold unlink_if_exists, PyPath.exists_. rewrite bind_run, exists_run.
  rewrite bool_decide_eq_true_2 by (rewrite Hc; eauto).
  unfold Fs.unlink. by rewrite Hc.
Qed.

Lemma unlink_if_exists_dir (p : Path) w :
  w_fs w !! PyPath.str p = Some NDir →
  unlink_if_exists p w = (Raise IsADirectoryError, w).
Proof.
  intros Hd. unfold unlink_if_exists, PyPath.exists_. rewrite bind_run, exists_run.
  rewrite bool_decide_eq_true_2 by (rewrite Hd; eauto).
  unfold Fs.unlink. by rewrite Hd.
Qed.

(** The splice loop keeps the scratch file a regular file, whether it runs to
    its end or a chunk cannot be read. *)
Lemma splice_loop_keeps_file (temp : Path) (chunks : list chunk) w :
  is_file (PyPath.str temp) w →
  is_file (PyPath.str temp)
    (for_each chunks (λ c : chunk,
       data ← Fs.read (PyPath.str c.2);
       Fs.append (PyPath.str temp) data) w).2.
Proof.
  revert w. induction chunks as [|c chunks IH]; intros w Hf; [done|].
  simpl. rewrite bind_run, bind_run. unfold Fs.read at 1.
  destruct (w_fs w !! PyPath.str c.2) as [[data|]|] eqn:Hc; simpl; try done.
  unfold Fs.append. destruct Hf as [c0 Hc0]. rewrite Hc0.
  apply IH. exists (c0 +:+ data). simpl. by rewrite lookup_insert_eq.
Qed.

Lemma run_ffmpeg_keeps_file (p : string) (command : list string) w :
  is_file p w → is_file p (run_ffmpeg command w).2.
Proof.
  intros [c Hc]. unfold run_ffmpeg, try_except. rewrite bind_run.
  unfold subprocess_run.
  assert (∀ t d, is_file p (set_fs (insert t (NFile d))
                   (add_event (EvProc command (ext_proc (clock w) command)) w))) as Hins.
  { intros t d. unfold is_file. simpl. destruct (decide (t = p)) as [->|].
    - rewrite lookup_insert_eq. by eexists.
    - rewrite lookup_insert_ne by done. by exists c. }
  assert (is_file p (add_event (EvProc command (ext_proc (clock w) command)) w)) as Hev
    by (by exists c).
  destruct (ext_proc (clock w) command) as [out wr|err [wr|]|];
    destruct (last command) as [t|]; simpl; auto.
Qed.

(** After the body of the [try], the scratch file is gone if the body
    returned, and is still a regular file if it raised. *)
Lemma splice_and_remux_scratch (chunks : list chunk) (temp output_path : Path) w :
  w_fs w !! PyPath.str temp ≠ Some NDir →
  match splice_and_remux chunks temp output_path w with
  | (Ret _, w') => w_fs w' !! PyPath.str temp = None
  | (Raise _, w') => is_file (PyPath.str temp) w'
  end.
Proof.
  intros Hnd. unfold splice_and_remux. rewrite bind_run.
  assert (Fs.open_w (PyPath.str temp) w =
          (Ret tt, set_fs (insert (PyPath.str temp) (NFile "")) w)) as ->.
  { unfold Fs.open_w. by destruct (w_fs w !! PyPath.str temp) as [[]|]. }
  set (w1 := set_fs _ w).
  assert (is_file (PyPath.str temp) w1) as Hf1.
  { exists "". apply lookup_insert_eq. }
  rewrite bind_run.
  pose proof (splice_loop_keeps_file temp chunks w1 Hf1) as Hloop.
  destruct (for_each chunks _ w1) as [[[]|e] w2]; simpl in Hloop; [|done].
  rewrite bind_run.
  pose proof (run_ffmpeg_keeps_file _ (remux_command temp output_path) w2 Hloop) as Hff.
  destruct (run_ffmpeg _ w2) as [[r|e] w3]; simpl in Hff; [|done].
  rewrite bind_run, unlink_if_exists_file by done. simpl.
  apply lookup_delete_eq.
Qed.

Lemma splice_and_remux_dir (chunks : list chunk) (temp output_path : Path) w :
  w_fs w !! PyPath.str temp = Some NDir →
  splice_and_remux chunks temp output_path w = (Raise IsADirectoryError, w).
Proof.
  intros Hd. unfold splice_and_remux. rewrite bind_run.
  unfold Fs.open_w. by rewrite Hd.
Qed.

(** C10: on the empty chunk list [concatenate_raw_chunks] returns [False] at
    once: no scratch file is created, the remux pass is not invoked (the
    trace is unchanged) and nothing is written anywhere (the world is
    unchanged). *)
Theorem concatenate_empty_fails (output_path : Path) (chunk_type : string) (w : World) :
  concatenate_raw_chunks [] output_path chunk_type w = (Ret false, w).
Proof. reflexivity. Qed.

(** C8: for every call of [concatenate_raw_chunks] on a non-empty chunk list,
    whatever the disk holds and whatever the remux pass does (exit status 0,
    non-zero exit status, tool missing), no scratch file is left behind: if
    the output path has no file name the call raises before creating
    anything; otherwise no regular file exists at the scratch path
    [<stem>.temp.webm] when the call ends, and unless a directory occupied
    that path beforehand the call returns (it does not raise) and the scratch
    path does not exist at all. *)
Theorem scratch_file_always_removed (chunks : list chunk) (output_path : Path)
    (chunk_type : string) (w : World) :
  chunks ≠ [] →
  match PyPath.with_suffix output_path ".temp.webm" with
  | inl e => concatenate_raw_chunks chunks output_path chunk_type w = (Raise e, w)
  | inr temp =>
      let '(r, w') := concatenate_raw_chunks chunks output_path chunk_type w in
      PyPath.str temp = p_dir output_path +:+ "/" +:+ PyPath.stem output_path +:+ ".temp.webm" ∧
      ¬ is_file (PyPath.str temp) w' ∧
      (w_fs w !! PyPath.str temp ≠ Some NDir →
       (∃ b, r = Ret b) ∧ w_fs w' !! PyPath.str temp = None)
  end.
Proof.
  intros Hne. destruct chunks as [|c chunks]; [done|].
  unfold concatenate_raw_chunks.
  destruct (PyPath.with_suffix output_path ".temp.webm") as [e|temp] eqn:Hws;
    [reflexivity|].
  simpl lift_exn. rewrite bind_run, ret_run. unfold try_except.
  assert (PyPath.str temp
          = p_dir output_path +:+ "/" +:+ PyPath.stem output_path +:+ ".temp.webm") as Hstr.
  { unfold PyPath.with_suffix in Hws. case_bool_decide; simplify_eq. done. }
  assert (w_fs w !! PyPath.str temp = Some NDir ∨
          w_fs w !! PyPath.str temp ≠ Some NDir) as [Hd|Hnd]
    by (destruct (w_fs w !! PyPath.str temp) as [[]|]; auto).
  - rewrite splice_and_remux_dir by done.
    rewrite bind_run, unlink_if_exists_dir by done.
    split; [done|]. split; [|done]. intros [c' Hc']. congruence.
  - pose proof (splice_and_remux_scratch (c :: chunks) temp output_path w Hnd) as Hs.
    destruct (splice_and_remux _ _ _ w) as [[b|e] w1].
    + split; [done|]. split; [|eauto]. intros [c' Hc']. congruence.
    + rewrite bind_run, unlink_if_exists_file by done. simpl.
      split; [done|]. rewrite lookup_delete_eq.
      split; [|eauto]. intros [c' Hc']. simpl in Hc'.
      rewrite lookup_delete_eq in Hc'. done.
Qed.

End Scratch.

(** ** The chunk locator *)

Lemma scan_elem fs dir track bound i p :
  (i, p) ∈ Locator.scan fs dir track bound ↔
  i < bound ∧ p = mkPath dir (Locator.chunk_name track i) ∧
  is_Some (fs !! PyPath.str p).
Proof.
  unfold Locator.scan. rewrite list_elem_of_omap. split.
  - intros (j & Hj & Hf). apply elem_of_seq in Hj.
    case_bool_decide as Hs; simplify_eq. split; [lia|]. split; [done|]. exact Hs.
  - intros (Hi & -> & Hs). exists i. split; [apply elem_of_seq; lia|].
    rewrite bool_decide_eq_true_2; done.
Qed.

Lemma scan_indices_sorted fs dir track bound :
  StronglySorted lt (Locator.scan fs dir track bound).*1.
Proof.
  unfold Locator.scan. generalize 0 as start.
  induction bound as [|n IH]; intros start; simpl; [constructor|].
  case_bool_decide; simpl; [|apply IH].
  constructor; [apply IH|].
  apply Forall_forall. intros j Hj.
  apply list_elem_of_fmap in Hj as ([j' p] & -> & Hin).
  apply list_elem_of_omap in Hin as (k & Hk & Hf).
  apply elem_of_seq in Hk. case_bool_decide; simplify_eq. simpl. lia.
Qed.

Lemma insert_by_index_head (x : chunk) (l : list chunk) :
  Forall (λ y, x.1 ≤ y.1) l → Locator.insert_by_index x l = x :: l.
Proof.
  destruct l as [|y l]; [done|]. intros Hall. simpl.
  apply Forall_cons in Hall as [Hxy _]. by rewrite bool_decide_eq_true_2.
Qed.

Lemma sort_by_index_sorted (l : list chunk) :
  StronglySorted lt l.*1 → Locator.sort_by_index l = l.
Proof.
  induction l as [|x l IH]; [done|]. simpl. intros Hs.
  apply StronglySorted_inv in Hs as [Hl Hx].
  unfold Locator.sort_by_index in *. simpl. rewrite IH by done.
  apply insert_by_index_head.
  apply Forall_forall. intros y Hy.
  rewrite Forall_forall in Hx. specialize (Hx y.1).
  assert (x.1 < y.1); [|lia]. apply Hx. apply list_elem_of_fmap. by exists y.
Qed.

Lemma scan_located fs dir track :
  located fs dir track
    (Locator.sort_by_index (Locator.scan fs dir track Locator.upper_bound)).
Proof.
  rewrite sort_by_index_sorted by apply scan_indices_sorted.
  split; [|split].
  - intros i p. apply scan_elem.
  - apply scan_indices_sorted.
  - intros Hnone.
    destruct (Locator.scan _ _ _ _) as [|[i p] l] eqn:Hscan; [done|].
    assert ((i, p) ∈ Locator.scan fs dir track Locator.upper_bound) as Hin
      by (rewrite Hscan; left).
    apply scan_elem in Hin as (Hi & -> & Hs).
    rewrite Hnone in Hs by done. by destruct Hs.
Qed.


(** ** The publish step *)

Section Publish.
Context `{External}.

Lemma upload_file_run (local_path key : string) w :
  ∃ ok w',
    upload_file local_path key w = (Ret ok, w') ∧
    w_trace w' = w_trace w ++ [EvS3Upload local_path key ok] ∧
    w_fs w' = w_fs w.
Proof.
  unfold upload_file, try_except. rewrite bind_run. unfold s3_upload_file.
  destruct (w_fs w !! local_path) as [[data|]|]; [destruct (ext_net (clock w))|..];
    simpl; eauto.
Qed.

Lemma upload_if_exists_run (path : option Path) (key : Path → string) w :
  ∃ oks w',
    upload_if_exists path key w = (Ret (negb (forallb id oks)), w') ∧
    w_trace w' = w_trace w ++
      upload_events ((λ p, (PyPath.str p, key p)) <$> existing (w_fs w) path) oks ∧
    length oks = length (existing (w_fs w) path) ∧
    w_fs w' = w_fs w.
Proof.
  unfold upload_if_exists, existing. destruct path as [p|].
  - unfold PyPath.exists_. rewrite bind_run, exists_run.
    destruct (bool_decide (is_Some (w_fs w !! PyPath.str p))).
    + destruct (upload_file_run (PyPath.str p) (key p) w) as (ok & w' & Hrun & Htr & Hfs).
      exists [ok], w'. rewrite bind_run, Hrun. simpl. rewrite andb_true_r.
      repeat split; done.
    + exists [], w. simpl. rewrite app_nil_r. done.
  - exists [], w. simpl. rewrite app_nil_r. done.
Qed.

Lemma upload_events_app plan1 plan2 oks1 oks2 :
  length oks1 = length plan1 →
  upload_events (plan1 ++ plan2) (oks1 ++ oks2)
  = upload_events plan1 oks1 ++ upload_events plan2 oks2.
Proof. intros Hl. unfold upload_events. by rewrite zip_with_app. Qed.

(** The publish step attempts one upload per existing artifact, whatever the
    earlier attempts gave, and returns whether all of them succeeded. *)
Lemma upload_processed_files_run (self : CloudflareR2Manager)
    (video_path audio_path : option Path)
    (transcript_paths : option (Path * option Path)) (w : World) :
  ∃ oks w',
    upload_processed_files self video_path audio_path transcript_paths w
      = (Ret (forallb id oks), w') ∧
    w_trace w' = w_trace w ++
      upload_events (upload_plan self video_path audio_path transcript_paths (w_fs w)) oks ∧
    length oks = length (upload_plan self video_path audio_path transcript_paths (w_fs w)) ∧
    w_fs w' = w_fs w.
Proof.
  unfold upload_processed_files, upload_plan.
  destruct (upload_if_exists_run video_path
    (λ _, r2_upload_dir self +:+ "/final_video_" +:+ r2_user_id self +:+ ".mp4") w)
    as (oks1 & w1 & Hr1 & Ht1 & Hl1 & Hf1).
  rewrite bind_run, Hr1.
  destruct (upload_if_exists_run audio_path
    (λ p, r2_upload_dir self +:+ "/final_audio_" +:+ r2_user_id self +:+ PyPath.suffix p) w1)
    as (oks2 & w2 & Hr2 & Ht2 & Hl2 & Hf2).
  rewrite bind_run, Hr2.
  assert (∃ oks3 w3,
    match transcript_paths with
    | Some (_, srt_path) =>
        upload_if_exists srt_path
          (λ _, r2_upload_dir self +:+ "/subtitle_" +:+ r2_user_id self +:+ ".srt")
    | None => mret false
    end w2 = (Ret (negb (forallb id oks3)), w3) ∧
    w_trace w3 = w_trace w2 ++
      upload_events ((λ p, (PyPath.str p,
           r2_upload_dir self +:+ "/subtitle_" +:+ r2_user_id self +:+ ".srt"))
         <$> existing (w_fs w2) (transcript_paths ≫= snd)) oks3 ∧
    length oks3 = length (existing (w_fs w2) (transcript_paths ≫= snd)) ∧
    w_fs w3 = w_fs w2) as (oks3 & w3 & Hr3 & Ht3 & Hl3 & Hf3).
  { destruct transcript_paths as [[json srt]|]; simpl.
    - apply upload_if_exists_run.
    - exists [], w2. rewrite app_nil_r. done. }
  rewrite bind_run, Hr3. rewrite Hf2, Hf1 in *.
  exists (oks1 ++ oks2 ++ oks3), w3. rewrite ret_run.
  split; [|split; [|split]].
  - f_equal. f_equal. rewrite !forallb_app.
    by destruct (forallb id oks1), (forallb id oks2), (forallb id oks3).
  - rewrite Ht3, Ht2, Ht1, <- !app_assoc.
    rewrite !upload_events_app by (by rewrite ?length_fmap). done.
  - rewrite !length_app, !length_fmap. lia.
  - congruence.
Qed.

End Publish.

(** ** Steps that keep a relation between the worlds *)

Create HintDb keeps.

Section Keeps.
Context (R : relation World) `{!PreOrder R}.

Lemma keeps_ret {A} (a : A) : keeps R (mret a : M A).
Proof. intros w. simpl. reflexivity. Qed.

Lemma keeps_raise {A} (e : exn) : keeps R (raise e : M A).
Proof. intros w. simpl. reflexivity. Qed.

Lemma keeps_lift_exn {A} (r : exn + A) : keeps R (lift_exn r).
Proof. destruct r; [apply keeps_raise|apply keeps_ret]. Qed.

Lemma keeps_bind {A B} (m : M A) (f : A → M B) :
  keeps R m → (∀ a, keeps R (f a)) → keeps R (m ≫= f).
Proof.
  intros Hm Hf w. rewrite bind_run. specialize (Hm w).
  destruct (m w) as [[a|e] w1]; simpl in *; [|done].
  etrans; [exact Hm|apply Hf].
Qed.

Lemma keeps_try_except {A} (body : M A) (handler : exn → M A) :
  keeps R body → (∀ e, keeps R (handler e)) → keeps R (try_except body handler).
Proof.
  intros Hm Hf w. unfold try_except. specialize (Hm w).
  destruct (body w) as [[a|e] w1]; simpl in *; [done|].
  etrans; [exact Hm|apply Hf].
Qed.

Lemma keeps_try_finally {A} (body : M A) (final : M unit) :
  keeps R body → keeps R final → keeps R (try_finally body final).
Proof.
  intros Hm Hf w. unfold try_finally. specialize (Hm w).
  destruct (body w) as [r w1]. specialize (Hf w1).
  destruct (final w1) as [[[]|e] w2]; simpl in *; by etrans.
Qed.

Lemma keeps_for_each {A} (l : list A) (body : A → M unit) :
  (∀ x, keeps R (body x)) → keeps R (for_each l body).
Proof.
  intros Hb. induction l as [|x l IH]; simpl.
  - apply keeps_ret.
  - apply keeps_bind; [apply Hb|by intros _].
Qed.

Lemma keeps_run {A} (m : M A) (w : World) (r : outcome A) (w' : World) :
  keeps R m → m w = (r, w') → R w w'.
Proof. intros Hm Hr. specialize (Hm w). by rewrite Hr in Hm. Qed.

End Keeps.

Ltac keeps_step :=
  first
    [ solve [auto with keeps]
    | apply keeps_ret | apply keeps_raise | apply keeps_lift_exn
    | apply keeps_bind | apply keeps_try_except | apply keeps_try_finally
    | apply keeps_for_each
    | match goal with
      | |- PreOrder _ => apply _
      | |- keeps _ (match ?x with _ => _ end) => destruct x
      | |- keeps _ (let '(_, _) := ?x in _) => destruct x
      | |- ∀ _, _ => intro
      end ].

Ltac keeps_auto := repeat keeps_step.

Ltac keeps_primitive :=
  intros w; repeat case_match; simpl; done.

(** ** Frames: what a step leaves alone *)

Lemma same_but_fs_refl w : same_but_fs w w.
Proof. by repeat split. Qed.

Lemma same_but_fs_trans w1 w2 w3 :
  same_but_fs w1 w2 → same_but_fs w2 w3 → same_but_fs w1 w3.
Proof. unfold same_but_fs. intuition congruence. Qed.

Lemma same_but_fs_set_fs f w : same_but_fs w (set_fs f w).
Proof. by repeat split. Qed.

Lemma append_cons (x : ascii) (a c : string) :
  String x a +:+ c = String x (a +:+ c).
Proof. reflexivity. Qed.

Lemma append_assoc (a b c : string) : (a +:+ b) +:+ c = a +:+ b +:+ c.
Proof.
  induction a as [|x a IH]; [done|]. rewrite !append_cons. by f_equal.
Qed.

Lemma append_inv_head (a x y : string) : a +:+ x = a +:+ y → x = y.
Proof.
  induction a as [|c a IH]; [done|]. rewrite !append_cons. intros [= Heq]. by apply IH.
Qed.

Lemma prefix_iff (a b : string) :
  String.prefix a b = true ↔ ∃ c, b = a +:+ c.
Proof.
  revert b. induction a as [|x a IH]; intros b.
  - split; [intros _; by exists b|by destruct b].
  - destruct b as [|y b]; simpl; [split; [done|intros [c Hc]; done]|].
    destruct (Ascii.ascii_dec x y) as [->|Hne].
    + rewrite IH. split; intros [c Hc]; exists c; rewrite append_cons in *; congruence.
    + split; [done|]. intros [c Hc]. rewrite append_cons in Hc. congruence.
Qed.

Lemma under_refl d : Fs.under d d = true.
Proof. unfold Fs.under. by rewrite bool_decide_eq_true_2. Qed.

Lemma under_trans d e p :
  Fs.under d e = true → Fs.under e p = true → Fs.under d p = true.
Proof.
  unfold Fs.under. rewrite !orb_true_iff, !bool_decide_eq_true, !prefix_iff.
  intros [->|[c ->]] [->|[c' ->]]; eauto.
  right. exists (c +:+ "/" +:+ c'). by rewrite !append_assoc.
Qed.

Section RunLemmas.
Context `{External}.

Lemma makedirs_run d w w1 :
  Fs.makedirs d w = (Ret tt, w1) → w1 = set_fs (insert d NDir) w.
Proof. unfold Fs.makedirs. destruct (w_fs w !! d) as [[]|]; congruence. Qed.

(** After a list of directories has been created, each of them is a
    directory, and nothing but the disk has changed. *)
Lemma makedirs_all (l : list string) w w1 :
  for_each l Fs.makedirs w = (Ret tt, w1) →
  same_but_fs w w1 ∧ ∀ d, d ∈ l → w_fs w1 !! d = Some NDir.
Proof.
  revert w. induction l as [|d l IH]; intros w; simpl.
  - intros [= <-]. split; [apply same_but_fs_refl|]. intros d Hd. by apply elem_of_nil in Hd.
  - rewrite bind_run. destruct (Fs.makedirs d w) as [[[]|e] w0] eqn:Hm; [|done].
    apply makedirs_run in Hm as ->. intros Hrest.
    destruct (IH _ Hrest) as [Hsame Hdirs]. split.
    + eapply same_but_fs_trans; [apply same_but_fs_set_fs|done].
    + intros d' [->|Hd']%elem_of_cons; [|by apply Hdirs].
      (* later creations keep [d] a directory *)
      clear IH Hsame Hdirs. revert Hrest.
      assert (w_fs (set_fs (insert d NDir) w) !! d = Some NDir) as Hd
        by apply lookup_insert_eq.
      generalize dependent (set_fs (insert d NDir) w). clear w.
      induction l as [|d' l IH]; intros w Hd; simpl.
      * by intros [= <-].
      * rewrite bind_run. destruct (Fs.makedirs d' w) as [[[]|e] w0] eqn:Hm; [|done].
        apply makedirs_run in Hm as ->. apply IH. simpl.
        destruct (decide (d' = d)) as [->|];
          [apply lookup_insert_eq|by rewrite lookup_insert_ne].
Qed.

Lemma setup_directories_run (self : VideoPipeline) w w1 :
  setup_directories self w = (Ret tt, w1) →
  same_but_fs w w1 ∧
  w_fs w1 !! vp_local_dir self = Some NDir ∧
  w_fs w1 !! vp_output_dir self = Some NDir.
Proof.
  intros Hs. apply makedirs_all in Hs as [Hsame Hdirs].
  split; [done|]. split; apply Hdirs; set_solver.
Qed.

Lemma check_ffmpeg_run w b w2 :
  check_ffmpeg w = (Ret b, w2) →
  w2 = add_event (EvProc ["ffmpeg"; "-version"]
                    (ext_proc (clock w) ["ffmpeg"; "-version"])) w.
Proof.
  unfold check_ffmpeg, try_except. rewrite bind_run. unfold subprocess_run.
  destruct (ext_proc _ _) as [out wr|err wr|]; simpl; rewrite ?ret_run; congruence.
Qed.

Lemma fetch_starts_frame (self : VideoPipeline) w w2 :
  fetch_starts self w w2 →
  w_bucket w2 = w_bucket w ∧
  w_fs w2 !! vp_local_dir self = Some NDir ∧
  w_fs w2 !! vp_output_dir self = Some NDir.
Proof.
  intros (w1 & Hs & Hc). apply setup_directories_run in Hs as ((Hb & _) & Hl & Ho).
  apply check_ffmpeg_run in Hc as ->. simpl. done.
Qed.

Lemma cleanup_never_raises (self : VideoPipeline) w :
  (cleanup_local_files self w).1 = Ret tt.
Proof.
  unfold cleanup_local_files, try_except.
  match goal with
  | |- (match ?x with _ => _ end).1 = _ => by destruct x as [[[]|e] w']
  end.
Qed.

Lemma rmtree_run d w :
  w_fs w !! d = Some NDir →
  ∃ w', Fs.rmtree d w = (Ret tt, w') ∧ same_but_fs w w' ∧
    ∀ p, w_fs w' !! p = if Fs.under d p then None else w_fs w !! p.
Proof.
  intros Hd. unfold Fs.rmtree. rewrite Hd. eexists. split; [done|].
  split; [apply same_but_fs_set_fs|]. intros p. simpl.
  destruct (Fs.under d p) eqn:Hu.
  - apply map_lookup_filter_None. right. intros x _. simpl. by rewrite Hu.
  - destruct (w_fs w !! p) as [x|] eqn:Hp.
    + apply map_lookup_filter_Some. by split.
    + apply map_lookup_filter_None. by left.
Qed.

(** [cleanup_local_files] removes both working directories when they are
    directories, and touches nothing but the disk. *)
Lemma cleanup_local_files_run (self : VideoPipeline) w :
  w_fs w !! vp_local_dir self = Some NDir →
  w_fs w !! vp_output_dir self = Some NDir →
  ∃ w', cleanup_local_files self w = (Ret tt, w') ∧ same_but_fs w w' ∧
    ∀ p, Fs.under (vp_local_dir self) p || Fs.under (vp_output_dir self) p = true →
         w_fs w' !! p = None.
Proof.
  intros Hl Ho. unfold cleanup_local_files, try_except, rmtree_if_exists.
  rewrite !bind_run, exists_run.
  rewrite bool_decide_eq_true_2 by (rewrite Hl; eauto).
  destruct (rmtree_run _ _ Hl) as (w1 & -> & Hsame1 & Hfs1).
  rewrite bind_run, exists_run.
  destruct (Fs.under (vp_local_dir self) (vp_output_dir self)) eqn:Hu.
  - rewrite bool_decide_eq_false_2
      by (rewrite Hfs1, Hu; intros [? ?]; done).
    eexists. split; [done|]. split; [done|].
    intros p [Hp|Hp]%orb_true_iff; rewrite Hfs1.
    + by rewrite Hp.
    + by rewrite (under_trans _ _ _ Hu Hp).
  - assert (w_fs w1 !! vp_output_dir self = Some NDir) as Ho1
      by (by rewrite Hfs1, Hu).
    rewrite bool_decide_eq_true_2 by (rewrite Ho1; eauto).
    destruct (rmtree_run _ _ Ho1) as (w2 & -> & Hsame2 & Hfs2).
    eexists. split; [done|]. split; [by eapply same_but_fs_trans|].
    intros p Hp. rewrite Hfs2, Hfs1.
    destruct (Fs.under (vp_output_dir self) p); [done|].
    simpl in Hp. rewrite orb_false_r in Hp. by rewrite Hp.
Qed.

Lemma cleanup_local_files_frame (self : VideoPipeline) w :
  same_but_fs w (cleanup_local_files self w).2.
Proof.
  unfold cleanup_local_files, try_except, rmtree_if_exists, Fs.rmtree.
  rewrite !bind_run, exists_run.
  destruct (bool_decide _); [destruct (w_fs w !! vp_local_dir self) as [[]|]|];
    simpl; try apply same_but_fs_refl;
    rewrite ?bind_run, ?exists_run;
    (destruct (bool_decide _);
     [match goal with |- context [match ?fs !! vp_output_dir self with _ => _ end] =>
        destruct (fs !! vp_output_dir self) as [[]|] end|]);
    simpl; by repeat split.
Qed.

Lemma finalize_frame (self : VideoPipeline) cleanup w :
  same_but_fs w (finalize self cleanup w).
Proof.
  unfold finalize. destruct cleanup;
    [apply cleanup_local_files_frame|apply same_but_fs_refl].
Qed.

(** [run] never raises: it returns what its stages returned, [False] when
    they raised, and leaves the world its [finally] clause leaves. *)
Lemma run_unfold (self : VideoPipeline) cleanup skip w :
  run self cleanup skip w =
  (Ret (match (run_stages self skip w).1 with Ret b => b | Raise _ => false end),
   finalize self cleanup (run_stages self skip w).2).
Proof.
  unfold run, try_finally, try_except, finalize.
  destruct (run_stages self skip w) as [[b|e] w1]; simpl;
    (destruct cleanup;
     [pose proof (cleanup_never_raises self w1) as Hc;
      destruct (cleanup_local_files self w1) as [[[]|] w2]; simpl in *; congruence
     |done]).
Qed.

End RunLemmas.

Section RunTheorems.
Context `{External}.

Lemma download_chunks_nothing_listed (self : CloudflareR2Manager) w :
  keys_under (r2_remote_dir self) (w_bucket w) = [] →
  download_chunks self w
  = (Ret false, add_event (EvS3List (r2_remote_dir self) (ext_net (clock w))) w).
Proof.
  intros Hk. unfold download_chunks, try_except. rewrite bind_run.
  unfold s3_list_objects_v2. rewrite Hk. by destruct (ext_net (clock w)).
Qed.

Lemma run_stages_until_fetch (self : VideoPipeline) skip w w2 :
  fetch_starts self w w2 →
  run_stages self skip w
  = (fetched ← download_chunks (vp_r2_manager self);
     if negb fetched then mret false
     else
       produced ← process self skip;
       match produced with
       | None => mret false
       | Some a => publish self a
       end) w2.
Proof.
  intros (w1 & Hs & Hc). unfold run_stages.
  rewrite bind_run, Hs, bind_run, Hc. done.
Qed.

(** C5, amended: for every run that gets as far as the fetch while the bucket
    holds no object under the job's source prefix, the fetch step returns
    failure (whether the listing answers or the request fails), the run
    returns failure with the listing as its last external call, so nothing is
    downloaded or uploaded and the bucket is unchanged; and when the run was
    started with cleanup enabled, cleanup executes and removes both working
    directories and everything under them.  With cleanup disabled the world is
    left as the failed fetch left it. *)
Theorem fetch_fails_on_empty_prefix (self : VideoPipeline) (cleanup skip : bool)
    (w w2 : World) :
  fetch_starts self w w2 →
  keys_under (r2_remote_dir (vp_r2_manager self)) (w_bucket w) = [] →
  ∃ ok w',
    let w3 := add_event (EvS3List (r2_remote_dir (vp_r2_manager self)) ok) w2 in
    download_chunks (vp_r2_manager self) w2 = (Ret false, w3) ∧
    run self cleanup skip w = (Ret false, w') ∧
    w_trace w' = w_trace w3 ∧
    w_bucket w' = w_bucket w ∧
    if cleanup
    then ∀ p, Fs.under (vp_local_dir self) p || Fs.under (vp_output_dir self) p = true →
              w_fs w' !! p = None
    else w' = w3.
Proof.
  intros Hstart Hkeys.
  destruct (fetch_starts_frame _ _ _ Hstart) as (Hb & Hl & Ho).
  rewrite <- Hb in Hkeys.
  pose proof (download_chunks_nothing_listed _ _ Hkeys) as Hd.
  exists (ext_net (clock w2)). eexists. cbv zeta.
  split; [exact Hd|].
  rewrite run_unfold, (run_stages_until_fetch _ _ _ _ Hstart), bind_run, Hd. simpl.
  split; [reflexivity|].
  pose proof (finalize_frame self cleanup
    (add_event (EvS3List (r2_remote_dir (vp_r2_manager self)) (ext_net (clock w2))) w2))
    as (Hfb & _ & _ & _ & Hft).
  split; [exact Hft|]. split; [by rewrite Hfb|].
  destruct cleanup; [|reflexivity].
  unfold finalize.
  destruct (cleanup_local_files_run self
    (add_event (EvS3List (r2_remote_dir (vp_r2_manager self)) (ext_net (clock w2))) w2))
    as (w' & -> & _ & Hgone); done.
Qed.

Lemma run_stages_until_publish (self : VideoPipeline) skip w a w4 :
  publish_starts self skip w a w4 →
  run_stages self skip w = publish self a w4.
Proof.
  intros (w3 & (w2 & Hstart & Hd) & Hp).
  rewrite (run_stages_until_fetch _ _ _ _ Hstart), bind_run, Hd. simpl.
  by rewrite bind_run, Hp.
Qed.

(** C7: during publish, one upload is attempted for each of the video, audio
    and subtitle artifacts that exists on disk, in that order and exactly
    once, whatever the outcome of the other attempts; the step returns
    success exactly when every attempt succeeded, and a run that reaches
    publish returns what the step returned, so it is reported failed as soon
    as one upload failed. *)
Theorem publish_attempts_every_upload (self : VideoPipeline) (cleanup skip : bool) :
  (∀ (video_path audio_path : option Path)
     (transcript_paths : option (Path * option Path)) (w : World),
     let plan := upload_plan (vp_r2_manager self) video_path audio_path
                   transcript_paths (w_fs w) in
     ∃ oks w',
       upload_processed_files (vp_r2_manager self) video_path audio_path
         transcript_paths w = (Ret (forallb id oks), w') ∧
       length oks = length plan ∧
       w_trace w' = w_trace w ++ upload_events plan oks) ∧
  (∀ (w w4 : World) (video : Path) (audio : option Path) (tp : option (Path * Path)),
     publish_starts self skip w (video, audio, tp) w4 →
     let plan := upload_plan (vp_r2_manager self) (Some video) audio
                   ((λ jp : Path * Path, (jp.1, Some jp.2)) <$> tp) (w_fs w4) in
     ∃ oks w5,
       length oks = length plan ∧
       w_trace w5 = w_trace w4 ++ upload_events plan oks ∧
       run self cleanup skip w = (Ret (forallb id oks), finalize self cleanup w5)).
Proof.
  split.
  - intros video_path audio_path transcript_paths w. cbv zeta.
    destruct (upload_processed_files_run (vp_r2_manager self) video_path audio_path
                transcript_paths w) as (oks & w' & Hr & Ht & Hl & _).
    by exists oks, w'.
  - intros w w4 video audio tp Hstart. cbv zeta.
    destruct (upload_processed_files_run (vp_r2_manager self) (Some video) audio
                ((λ jp : Path * Path, (jp.1, Some jp.2)) <$> tp) w4)
      as (oks & w5 & Hr & Ht & Hl & _).
    exists oks, w5. split; [done|]. split; [done|].
    rewrite run_unfold, (run_stages_until_publish _ _ _ _ _ Hstart).
    unfold publish. rewrite bind_run, Hr. by destruct (forallb id oks).
Qed.

End RunTheorems.

Section Assembly.
Context `{External}.

Lemma clock_add_event e w : clock (add_event e w) = S (clock w).
Proof. unfold clock. simpl. rewrite length_app. simpl. lia. Qed.

(** From the start of assembly on, [run] is the body of the [with] block
    followed by the run's epilogue. *)
Lemma run_from_assembly (self : VideoPipeline) cleanup skip w processor
    video_chunks audio_chunks temp_dir w5 :
  assembly_starts self w processor video_chunks audio_chunks temp_dir w5 →
  run self cleanup skip w =
  run_after_assembly self cleanup temp_dir
    (assemble_and_mux self processor video_chunks audio_chunks
       (PyStr.path_join (vp_output_dir self) "transcripts") skip temp_dir w5).
Proof.
  intros (w3 & w4 & (w2 & Hstart & Hd) & Hinit & Hfind & Hne & Htmp).
  rewrite run_unfold, (run_stages_until_fetch _ _ _ _ Hstart), bind_run, Hd. simpl.
  rewrite bind_run. unfold process. rewrite bind_run, Hinit, bind_run, Hfind. simpl.
  destruct video_chunks as [|c video_chunks]; [done|].
  unfold with_tempdir. rewrite bind_run, Htmp.
  unfold run_after_assembly, try_finally.
  destruct (assemble_and_mux _ _ _ _ _ _ _ w5) as [r w6]. simpl.
  destruct (Fs.rmtree temp_dir w6) as [[[]|e] w7]; [|done].
  destruct r as [[a|]|e]; simpl; try done.
  by destruct (publish self a w7) as [[b|e] w8].
Qed.

Lemma rmtree_frame d w :
  same_but_fs w (Fs.rmtree d w).2.
Proof.
  unfold Fs.rmtree. destruct (w_fs w !! d) as [[]|]; simpl;
    by repeat split.
Qed.

(** The continuation of the assembly for a job without audio track: no WAV
    is extracted, nothing is transcribed, and the deliverable is muxed from
    the video alone. *)
Lemma finish_assembly_video_only (self : VideoPipeline) (processor : VideoProcessor)
    (transcript_dir : string) skip temp_dir w :
  let video := mkPath temp_dir "video_concatenated.webm" in
  let stamp := ext_now (clock w) in
  let final := mkPath (video_output_dir processor) ("output_" +:+ stamp +:+ ".mp4") in
  let cmd := caption_mux_command video None None false final in
  let out := ext_proc (S (clock w)) cmd in
  let w1 := add_event (EvProc cmd out) (add_event (EvClock stamp) w) in
  finish_assembly self processor transcript_dir skip temp_dir None w =
  match out with
  | ProcOk _ written =>
      (Ret (Some (final, None, None)),
       set_fs (insert (PyPath.str final) (NFile written)) w1)
  | ProcFail _ (Some written) =>
      (Ret None, set_fs (insert (PyPath.str final) (NFile written)) w1)
  | ProcFail _ None => (Ret None, w1)
  | ProcMissing => (Raise FileNotFoundError, w1)
  end.
Proof.
  cbv zeta. unfold finish_assembly, mux_video_audio_with_captions, run_ffmpeg,
    try_except, now_stamp, subprocess_run. simpl.
  unfold mbind, M_bind, mret, M_ret. simpl.
  rewrite clock_add_event.
  destruct (ext_proc _ _) as [out wr|err [wr|]|]; reflexivity.
Qed.

Lemma assemble_audio_failed (audio_chunks : list chunk) temp_dir w6 w7 :
  audio_chunks ≠ [] →
  concatenate_raw_chunks audio_chunks (mkPath temp_dir "audio_concatenated.webm")
    "audio" w6 = (Ret false, w7) →
  assemble_audio audio_chunks temp_dir w6 = (Ret None, w7).
Proof.
  intros Hne Hc. unfold assemble_audio.
  destruct audio_chunks as [|c l]; [done|]. by rewrite bind_run, Hc.
Qed.

(** The stand-alone assembler without audio track: the clock is read, no
    external tool is run, and no audio deliverable is reported. *)
Lemma deliver_video_only (self : VideoProcessor) temp_dir w :
  ∃ video w',
    ChunksToVideo.deliver self temp_dir None w = (Ret (video, None), w') ∧
    w_trace w' = w_trace w ++ [EvClock (ext_now (clock w))].
Proof.
  unfold ChunksToVideo.deliver, ChunksToVideo.finish, now_stamp, Fs.copy2, try_except.
  simpl. unfold mbind, M_bind, mret, M_ret. simpl.
  unfold Fs.read. simpl.
  destruct (w_fs w !! _) as [[c|]|]; simpl; eauto.
  unfold Fs.open_w. simpl.
  destruct (w_fs w !! _) as [[c'|]|]; simpl; eauto;
    unfold Fs.append; simpl; rewrite lookup_insert_eq; simpl; eauto.
Qed.

(** ** What the assembler leaves of the rest of the disk *)

#[global] Instance kept_at_preorder (p : string) : PreOrder (kept_at p).
Proof.
  split.
  - by intros w.
  - intros w1 w2 w3 H12 H23. unfold kept_at in *. congruence.
Qed.

Lemma kept_at_open_w (p q : string) : p ≠ q → keeps (kept_at p) (Fs.open_w q).
Proof.
  intros Hne w. unfold Fs.open_w, kept_at.
  destruct (w_fs w !! q) as [[c|]|]; simpl; try done; by rewrite lookup_insert_ne.
Qed.

Lemma kept_at_read (p q : string) : keeps (kept_at p) (Fs.read q).
Proof. intros w. unfold Fs.read, kept_at. by destruct (w_fs w !! q) as [[c|]|]. Qed.

Lemma kept_at_append (p q data : string) : p ≠ q → keeps (kept_at p) (Fs.append q data).
Proof.
  intros Hne w. unfold Fs.append, kept_at.
  destruct (w_fs w !! q) as [[c|]|]; simpl; try done; by rewrite lookup_insert_ne.
Qed.

Lemma kept_at_unlink_if_exists (p : string) (q : Path) :
  p ≠ PyPath.str q → keeps (kept_at p) (unlink_if_exists q).
Proof.
  intros Hne w. unfold unlink_if_exists, PyPath.exists_, kept_at.
  rewrite bind_run, exists_run. case_bool_decide; [|done].
  unfold Fs.unlink. destruct (w_fs w !! PyPath.str q) as [[c|]|]; simpl; try done.
  by rewrite lookup_delete_ne.
Qed.

Lemma kept_at_run_ffmpeg `{External} (p o : string) (command : list string) :
  last command = Some o → p ≠ o → keeps (kept_at p) (run_ffmpeg command).
Proof.
  intros Hlast Hne w. unfold run_ffmpeg, try_except, kept_at. rewrite bind_run.
  unfold subprocess_run. rewrite Hlast.
  destruct (ext_proc (clock w) command) as [so wr|err [wr|]|]; simpl; try done;
    by rewrite lookup_insert_ne.
Qed.

(** [concatenate_raw_chunks] writes at the scratch path and the output path
    only. *)
Lemma concatenate_frame `{External} (chunks : list chunk) (output_path temp : Path)
    (chunk_type p : string) :
  PyPath.with_suffix output_path ".temp.webm" = inr temp →
  p ≠ PyPath.str temp → p ≠ PyPath.str output_path →
  keeps (kept_at p) (concatenate_raw_chunks chunks output_path chunk_type).
Proof.
  intros Htemp Hnt Hno. unfold concatenate_raw_chunks.
  destruct chunks as [|c chunks]; [apply (keeps_ret _)|]. rewrite Htemp.
  intros w. rewrite bind_run. cbn [lift_exn]. rewrite ret_run. revert w.
  change (keeps (kept_at p)
            (try_except (splice_and_remux (c :: chunks) temp output_path)
               (λ _, unlink_if_exists temp;; mret false))).
  apply (keeps_try_except _).
  - unfold splice_and_remux.
    apply (keeps_bind _); [by apply kept_at_open_w|intros _].
    apply (keeps_bind _).
    { apply (keeps_for_each _). intros x.
      apply (keeps_bind _); [apply kept_at_read|intros data].
      by apply kept_at_append. }
    intros _. apply (keeps_bind _); [by apply (kept_at_run_ffmpeg p (PyPath.str output_path))|].
    intros r. apply (keeps_bind _); [by apply kept_at_unlink_if_exists|].
    intros _. apply (keeps_ret _).
  - intros e. apply (keeps_bind _); [by apply kept_at_unlink_if_exists|].
    intros _. apply (keeps_ret _).
Qed.

Lemma run_ffmpeg_true `{External} (command : list string) (o : string) w r w' :
  run_ffmpeg command w = (Ret r, w') → r.1 = true → last command = Some o →
  is_file o w'.
Proof.
  intros Hrun Hr Hlast. unfold run_ffmpeg, try_except in Hrun.
  rewrite bind_run in Hrun. unfold subprocess_run in Hrun. rewrite Hlast in Hrun.
  destruct (ext_proc (clock w) command) as [so wr|err [wr|]|]; simpl in Hrun;
    try done; injection Hrun as ? ?; subst; simpl in *; try done.
  exists wr. apply lookup_insert_eq.
Qed.

(** When [concatenate_raw_chunks] returns [True] the output path holds a
    regular file. *)
Lemma concatenate_true_leaves_output `{External} (chunks : list chunk)
    (output_path temp : Path) (chunk_type : string) w w' :
  concatenate_raw_chunks chunks output_path chunk_type w = (Ret true, w') →
  PyPath.with_suffix output_path ".temp.webm" = inr temp →
  PyPath.str output_path ≠ PyPath.str temp →
  is_file (PyPath.str output_path) w'.
Proof.
  intros Hrun Htemp Hne. unfold concatenate_raw_chunks in Hrun.
  destruct chunks as [|c chunks]; [done|]. rewrite Htemp, bind_run in Hrun.
  cbn [lift_exn] in Hrun. rewrite ret_run in Hrun. unfold try_except in Hrun.
  destruct (splice_and_remux (c :: chunks) temp output_path w) as [[b|e] w1] eqn:Hbody.
  - injection Hrun as -> ->. unfold splice_and_remux in Hbody.
    rewrite bind_run in Hbody.
    destruct (Fs.open_w (PyPath.str temp) w) as [[[]|e] w2]; [|done].
    rewrite bind_run in Hbody.
    destruct (for_each (c :: chunks) _ w2) as [[[]|e] w3]; [|done].
    rewrite bind_run in Hbody.
    destruct (run_ffmpeg (remux_command temp output_path) w3) as [[r|e] w4] eqn:Hff;
      [|done].
    rewrite bind_run in Hbody.
    pose proof (kept_at_unlink_if_exists (PyPath.str output_path) temp Hne w4) as Hkept.
    destruct (unlink_if_exists temp w4) as [[[]|e] w5]; [|done].
    rewrite ret_run in Hbody. injection Hbody as Hr <-.
    destruct (run_ffmpeg_true _ (PyPath.str output_path) _ _ _ Hff Hr eq_refl)
      as [content Hfile].
    exists content. unfold kept_at in Hkept. simpl in Hkept. by rewrite Hkept.
  - rewrite bind_run in Hrun.
    by destruct (unlink_if_exists temp w1) as [[[]|e'] w2].
Qed.

(** The stand-alone assembler without audio track copies the assembled video
    to its final name. *)
Lemma deliver_copies_video `{External} (self : VideoProcessor) (temp_dir : string)
    (content : string) w :
  let video := mkPath temp_dir "video_concatenated.webm" in
  let stamp := ext_now (clock w) in
  let final := mkPath (video_output_dir self) ("output_" +:+ stamp +:+ ".webm") in
  w_fs w !! PyPath.str video = Some (NFile content) →
  w_fs w !! PyPath.str final ≠ Some NDir →
  ChunksToVideo.deliver self temp_dir None w
  = (Ret (Some final, None),
     set_fs (insert (PyPath.str final) (NFile content)) (add_event (EvClock stamp) w)).
Proof.
  cbv zeta. intros Hvideo Hfinal.
  unfold ChunksToVideo.deliver, ChunksToVideo.save_audio, ChunksToVideo.finish,
    now_stamp, Fs.copy2, try_except.
  unfold mbind, M_bind, mret, M_ret. cbn beta iota.
  unfold Fs.read at 1. cbn [w_fs add_event]. rewrite Hvideo. cbn beta iota.
  unfold Fs.open_w at 1. cbn [w_fs add_event].
  destruct (w_fs w !! _) as [[c'|]|] eqn:Hf in |- *; [|done|];
    unfold Fs.append; cbn [w_fs set_fs]; rewrite lookup_insert_eq; cbn beta iota;
    unfold set_fs, add_event; cbn; by rewrite insert_insert_eq.
Qed.

(** C4: in every run that gets as far as assembly, a failed assembly of the
    video track (whether the splice raised or the remux failed) makes the run
    return failure with no external call after it, so no mux and no upload;
    a failed assembly of the audio track after a successful assembly of the
    video track only sets the audio path to absent: the run carries on exactly
    as a job without audio would, extracting no WAV, transcribing nothing and
    muxing the deliverable from the video alone, and it returns success when
    that mux and the upload of the video succeed.  The stand-alone assembler
    of [chunksToVideo.py] treats the two failures the same way: after a failed
    assembly of the video track it returns [(None, None)]; after a failed
    assembly of the audio track it goes on without audio, runs no tool, and
    still delivers the video: the assembled video track is on disk and, unless
    a directory sits at the final path, it is copied to [output_<stamp>.webm]
    in the video output directory, which is returned with no audio path. *)
Theorem video_failure_fatal_audio_failure_degrades (self : VideoPipeline)
    (cleanup skip : bool) :
  (∀ w processor video_chunks audio_chunks temp_dir w5,
     assembly_starts self w processor video_chunks audio_chunks temp_dir w5 →
     let video := mkPath temp_dir "video_concatenated.webm" in
     let audio := mkPath temp_dir "audio_concatenated.webm" in
     let transcripts := PyStr.path_join (vp_output_dir self) "transcripts" in
     (∀ w6,
        concatenate_raw_chunks video_chunks video "video" w5 = (Ret false, w6) →
        ∃ w', run self cleanup skip w = (Ret false, w') ∧
              w_trace w' = w_trace w6 ∧ w_bucket w' = w_bucket w6) ∧
     (∀ w6 w7,
        concatenate_raw_chunks video_chunks video "video" w5 = (Ret true, w6) →
        audio_chunks ≠ [] →
        concatenate_raw_chunks audio_chunks audio "audio" w6 = (Ret false, w7) →
        let stamp := ext_now (clock w7) in
        let final := mkPath (video_output_dir processor)
                       ("output_" +:+ stamp +:+ ".mp4") in
        let cmd := caption_mux_command video None None false final in
        let out := ext_proc (S (clock w7)) cmd in
        let key := r2_upload_dir (vp_r2_manager self) +:+ "/final_video_" +:+
                   r2_user_id (vp_r2_manager self) +:+ ".mp4" in
        run self cleanup skip w
          = run_after_assembly self cleanup temp_dir
              (finish_assembly self processor transcripts skip temp_dir None w7) ∧
        (∃ w8, w_trace w8 = w_trace w7 ++ [EvClock stamp; EvProc cmd out] ∧
               finish_assembly self processor transcripts skip temp_dir None w7
               = (match out with
                  | ProcOk _ _ => Ret (Some (final, None, None))
                  | ProcFail _ _ => Ret None
                  | ProcMissing => Raise FileNotFoundError
                  end, w8)) ∧
        (∀ stdout written,
           out = ProcOk stdout written →
           w_fs w7 !! temp_dir = Some NDir →
           PyPath.str final ≠ temp_dir →
           ∃ oks w9,
             length oks ≤ 1 ∧
             run self cleanup skip w = (Ret (forallb id oks), w9) ∧
             w_trace w9 = w_trace w7 ++ [EvClock stamp; EvProc cmd out] ++
                          upload_events [(PyPath.str final, key)] oks))) ∧
  (∀ (processor : VideoProcessor) video_chunks audio_chunks temp_dir w5,
     let video := mkPath temp_dir "video_concatenated.webm" in
     let audio := mkPath temp_dir "audio_concatenated.webm" in
     (∀ w6,
        concatenate_raw_chunks video_chunks video "video" w5 = (Ret false, w6) →
        ChunksToVideo.assemble processor video_chunks audio_chunks temp_dir w5
        = (Ret (None, None), w6)) ∧
     (∀ w6 w7,
        concatenate_raw_chunks video_chunks video "video" w5 = (Ret true, w6) →
        audio_chunks ≠ [] →
        concatenate_raw_chunks audio_chunks audio "audio" w6 = (Ret false, w7) →
        let stamp := ext_now (clock w7) in
        let final := mkPath (video_output_dir processor)
                       ("output_" +:+ stamp +:+ ".webm") in
        ChunksToVideo.assemble processor video_chunks audio_chunks temp_dir w5
        = ChunksToVideo.deliver processor temp_dir None w7 ∧
        (∃ video_result w8,
           ChunksToVideo.deliver processor temp_dir None w7
             = (Ret (video_result, None), w8) ∧
           w_trace w8 = w_trace w7 ++ [EvClock stamp]) ∧
        ∃ content,
          w_fs w7 !! PyPath.str video = Some (NFile content) ∧
          (w_fs w7 !! PyPath.str final ≠ Some NDir →
           ChunksToVideo.assemble processor video_chunks audio_chunks temp_dir w5
           = (Ret (Some final, None),
              set_fs (insert (PyPath.str final) (NFile content))
                (add_event (EvClock stamp) w7))))).
Proof.
  split.
  - intros w processor video_chunks audio_chunks temp_dir w5 Hstart. cbv zeta.
    pose proof (run_from_assembly self cleanup skip _ _ _ _ _ _ Hstart) as Hrun.
    split.
    + intros w6 Hv. rewrite Hrun. unfold assemble_and_mux.
      rewrite bind_run, Hv. simpl. rewrite ret_run.
      unfold run_after_assembly, try_finally. simpl.
      pose proof (rmtree_frame temp_dir w6) as (Hb & _ & _ & _ & Ht).
      destruct (Fs.rmtree temp_dir w6) as [[[]|e] w7]; simpl in *;
        eexists; (split; [reflexivity|]);
        match goal with
        | |- context [finalize self cleanup ?x] =>
            pose proof (finalize_frame self cleanup x) as (Hfb & _ & _ & _ & Hft)
        end; split; congruence.
    + intros w6 w7 Hv Hne Ha.
      assert (assemble_and_mux self processor video_chunks audio_chunks
                (PyStr.path_join (vp_output_dir self) "transcripts") skip temp_dir w5
              = finish_assembly self processor
                  (PyStr.path_join (vp_output_dir self) "transcripts") skip
                  temp_dir None w7) as Hbody.
      { unfold assemble_and_mux. rewrite bind_run, Hv. simpl.
        by rewrite bind_run, (assemble_audio_failed _ _ _ _ Hne Ha). }
      rewrite Hbody in Hrun.
      pose proof (finish_assembly_video_only self processor
        (PyStr.path_join (vp_output_dir self) "transcripts") skip temp_dir w7) as Hfin.
      cbv zeta in Hfin.
      split; [exact Hrun|]. split.
      * rewrite Hfin.
        destruct (ext_proc _ _) as [o wr|e [wr|]|]; eexists; (split; [|reflexivity]);
          simpl; by rewrite <- app_assoc.
      * intros stdout written Hout Hdir Hneq.
        rewrite Hrun, Hfin, Hout.
        unfold run_after_assembly, try_finally. simpl snd.
        match goal with
        | |- context [Fs.rmtree temp_dir ?x] =>
            destruct (rmtree_run temp_dir x) as (w9 & Hrm & Hsame & _)
        end.
        { simpl. by rewrite lookup_insert_ne. }
        rewrite Hrm. simpl.
        destruct (upload_processed_files_run (vp_r2_manager self)
          (Some (mkPath (video_output_dir processor)
                   ("output_" +:+ ext_now (clock w7) +:+ ".mp4"))) None None w9)
          as (oks & w10 & Hup & Htr & Hlen & _).
        unfold publish. simpl. rewrite bind_run, Hup.
        assert (∀ b : bool,
                  ((if negb b then mret false else mret true) : M bool) w10
                  = (Ret b, w10)) as Hif by (by intros []).
        rewrite Hif. simpl.
        assert (length oks ≤ 1) as Hle.
        { rewrite Hlen. unfold upload_plan, existing. simpl.
          case_bool_decide; simpl; lia. }
        exists oks. eexists.
        split; [exact Hle|]. split; [reflexivity|].
        match goal with
        | |- context [finalize self cleanup ?x] =>
            pose proof (finalize_frame self cleanup x) as (_ & _ & _ & _ & Hft)
        end.
        rewrite Hft, Htr.
        destruct Hsame as (_ & _ & _ & _ & ->). simpl.
        rewrite <- !app_assoc. simpl. do 3 f_equal.
        unfold upload_plan, existing in *. simpl in *.
        case_bool_decide; simpl in *; [done|].
        by destruct oks.
  - intros processor video_chunks audio_chunks temp_dir w5. cbv zeta. split.
    + intros w6 Hv. unfold ChunksToVideo.assemble. by rewrite bind_run, Hv.
    + intros w6 w7 Hv Hne Ha.
      assert (ChunksToVideo.assemble processor video_chunks audio_chunks temp_dir w5
              = ChunksToVideo.deliver processor temp_dir None w7) as Hbody.
      { unfold ChunksToVideo.assemble. rewrite bind_run, Hv. simpl.
        by rewrite bind_run, (assemble_audio_failed _ _ _ _ Hne Ha). }
      split; [exact Hbody|]. split; [apply deliver_video_only|].
      destruct (concatenate_true_leaves_output _ _
                  (mkPath temp_dir "video_concatenated.temp.webm") _ _ _ Hv eq_refl)
        as [content Hcontent].
      { unfold PyPath.str. simpl. intros Heq.
        apply append_inv_head in Heq. discriminate Heq. }
      pose proof (concatenate_frame audio_chunks
                    (mkPath temp_dir "audio_concatenated.webm")
                    (mkPath temp_dir "audio_concatenated.temp.webm") "audio"
                    (PyPath.str (mkPath temp_dir "video_concatenated.webm"))
                    eq_refl) as Hframe.
      specialize (Hframe
        ltac:(unfold PyPath.str; simpl; intros Heq;
              apply append_inv_head in Heq; discriminate Heq)
        ltac:(unfold PyPath.str; simpl; intros Heq;
              apply append_inv_head in Heq; discriminate Heq) w6).
      rewrite Ha in Hframe. unfold kept_at in Hframe. simpl in Hframe.
      exists content. split; [by rewrite Hframe|].
      intros Hfinal. rewrite Hbody.
      apply deliver_copies_video; [by rewrite Hframe|exact Hfinal].
Qed.

End Assembly.

(** ** The front end *)

Section FrontEnd.
Context `{External}.

Lemma no_work_done_refl w : no_work_done w w.
Proof. by repeat split. Qed.

Lemma no_work_done_trans w1 w2 w3 :
  no_work_done w1 w2 → no_work_done w2 w3 → no_work_done w1 w3.
Proof. unfold no_work_done. intuition congruence. Qed.

Lemma print_run line w : print line w = (Ret tt, add_log line w).
Proof. reflexivity. Qed.

(** The call [VideoPipeline(whisper_model=model)] of the front end and of
    [main] fails while its arguments are bound. *)
Lemma VideoPipeline_new_keyword_only (model : string) w :
  VideoPipeline_new [] [("whisper_model", model)] w
  = (Raise (TypeError "missing required positional arguments" required_parameters), w).
Proof. reflexivity. Qed.

Lemma run_pipeline_run (m t u model : string) (cleanup skip : pyval) w :
  Routes.run_pipeline m t u model cleanup skip w
  = (Ret tt,
     add_log ("💥 Pipeline exception for " +:+ (m +:+ "/" +:+ t +:+ "/" +:+ u) +:+ ": " +:+
              exn_str (TypeError "missing required positional arguments"
                         required_parameters)) w).
Proof. reflexivity. Qed.

Ltac run_submit :=
  unfold Routes.submit_data, try_except, Routes.submit_data_body, Routes.get_or,
    Driver.set_config, lift_exn, PyVal.get in *;
  unfold mbind, M_bind, mret, M_ret, raise, print in *; simpl in *.

(** A request that carries non-empty string identifiers and no or a valid
    model is accepted. *)
Lemma submit_data_accepts (d : list (string * pyval)) (m t u model : string) w :
  PyVal.get (PDict d) "meeting_id" = inr (Some (PStr m)) →
  PyVal.get (PDict d) "take" = inr (Some (PStr t)) →
  PyVal.get (PDict d) "user_id" = inr (Some (PStr u)) →
  m ≠ "" → t ≠ "" → u ≠ "" →
  (PyVal.get (PDict d) "whisper_model" = inr (Some (PStr model)) ∨
   PyVal.get (PDict d) "whisper_model" = inr None ∧ model = "base") →
  model ∈ valid_models →
  ∃ cleanup skip w1,
    Routes.submit_data (inr (PDict d)) w
    = (Ret (Response 200
              (BodyStarted "success" "Video processing pipeline started" m t u
                 (Driver.job_config m t u) model cleanup skip),
            Some (Routes.run_pipeline m t u model cleanup skip)), w1) ∧
    no_work_done w w1.
Proof.
  intros Hm Ht Hu Hme Hte Hue Hmodel Hvalid.
  assert (d ≠ []) as Hd by (intros ->; done).
  assert (match d with [] => false | _ :: _ => true end = true) as Htruthy
    by (by destruct d).
  run_submit. rewrite Htruthy. simpl.
  set (fm := List.find (λ kv : string * pyval, bool_decide (kv.1 = "meeting_id")) d) in *.
  set (ft := List.find (λ kv : string * pyval, bool_decide (kv.1 = "take")) d) in *.
  set (fu := List.find (λ kv : string * pyval, bool_decide (kv.1 = "user_id")) d) in *.
  set (fw := List.find (λ kv : string * pyval, bool_decide (kv.1 = "whisper_model")) d) in *.
  injection Hm as Hm. injection Ht as Ht. injection Hu as Hu.
  rewrite Hm, Ht, Hu. simpl.
  rewrite !bool_decide_eq_false_2 by done. simpl.
  destruct Hmodel as [[= ->]|[[= ->] ->]]; simpl;
    rewrite ?bool_decide_eq_true_2 by done;
    (eexists _, _, _; split; [reflexivity|]; by repeat split).
Qed.

(** Only such requests are accepted. *)
Lemma submit_data_accepted_inv (request : exn + pyval) w resp thread w1 :
  Routes.submit_data request w = (Ret (resp, thread), w1) →
  status_code resp = 200 →
  ∃ data m t u model cleanup skip,
    request = inr data ∧
    PyVal.get data "meeting_id" = inr (Some (PStr m)) ∧
    PyVal.get data "take" = inr (Some (PStr t)) ∧
    PyVal.get data "user_id" = inr (Some (PStr u)) ∧
    m ≠ "" ∧ t ≠ "" ∧ u ≠ "" ∧ model ∈ valid_models ∧
    resp = Response 200
             (BodyStarted "success" "Video processing pipeline started" m t u
                (Driver.job_config m t u) model cleanup skip) ∧
    thread = Some (Routes.run_pipeline m t u model cleanup skip) ∧
    no_work_done w w1.
Proof.
  intros Hrun Hstatus.
  destruct request as [e|data]; [run_submit; by simplify_eq|].
  destruct data as [| | | | |d]; try (run_submit; repeat case_match; by simplify_eq).
  exists (PDict d).
  run_submit.
  set (fm := List.find (λ kv : string * pyval, bool_decide (kv.1 = "meeting_id")) d) in *.
  set (ft := List.find (λ kv : string * pyval, bool_decide (kv.1 = "take")) d) in *.
  set (fu := List.find (λ kv : string * pyval, bool_decide (kv.1 = "user_id")) d) in *.
  set (fw := List.find (λ kv : string * pyval, bool_decide (kv.1 = "whisper_model")) d) in *.
  destruct (match d with [] => false | _ :: _ => true end) eqn:Htr;
    simpl in Hrun; [|by simplify_eq].
  destruct (snd <$> fm) as [[| | |m| |]|] eqn:Hm; simpl in Hrun;
    try (repeat case_match; by simplify_eq).
  destruct (snd <$> ft) as [[| | |t| |]|] eqn:Ht; simpl in Hrun;
    try (repeat case_match; by simplify_eq).
  destruct (snd <$> fu) as [[| | |u| |]|] eqn:Hu; simpl in Hrun;
    try (repeat case_match; by simplify_eq).
  repeat case_bool_decide; simpl in Hrun; try (by simplify_eq);
    try (repeat case_match; by simplify_eq).
  destruct (default (PStr "base") (snd <$> fw)) as [| | |model| |] eqn:Hw;
    try (by simplify_eq).
  case_bool_decide as Hvalid; [|by simplify_eq].
  injection Hrun as <- <- <-.
  eexists m, t, u, model, _, _. repeat split; done.
Qed.

(** A request for a model outside the allowed set is never accepted: the
    answer is 400, or 500 when [set_config] raises on the identifiers. *)
Lemma submit_data_invalid_model (data v : pyval) w :
  PyVal.get data "whisper_model" = inr (Some v) →
  in_valid_models v = false →
  ∃ status body w1,
    Routes.submit_data (inr data) w = (Ret (Response status body, None), w1) ∧
    (status = 400 ∨ status = 500) ∧
    no_work_done w w1 ∧
    (textual_identifiers data → status = 400).
Proof.
  intros Hv Hinvalid.
  destruct data as [| | | | |d]; try done.
  assert (textual_identifiers (PDict d) → ∀ x,
            PyVal.get (PDict d) "meeting_id" = inr (Some x) →
            PyVal.truthy x = true → ∃ s, x = PStr s) as Hm
    by (intros Hids x; apply Hids; set_solver).
  assert (textual_identifiers (PDict d) → ∀ x,
            PyVal.get (PDict d) "take" = inr (Some x) →
            PyVal.truthy x = true → ∃ s, x = PStr s) as Ht
    by (intros Hids x; apply Hids; set_solver).
  assert (textual_identifiers (PDict d) → ∀ x,
            PyVal.get (PDict d) "user_id" = inr (Some x) →
            PyVal.truthy x = true → ∃ s, x = PStr s) as Hu
    by (intros Hids x; apply Hids; set_solver).
  run_submit.
  set (fm := List.find (λ kv : string * pyval, bool_decide (kv.1 = "meeting_id")) d) in *.
  set (ft := List.find (λ kv : string * pyval, bool_decide (kv.1 = "take")) d) in *.
  set (fu := List.find (λ kv : string * pyval, bool_decide (kv.1 = "user_id")) d) in *.
  set (fw := List.find (λ kv : string * pyval, bool_decide (kv.1 = "whisper_model")) d) in *.
  assert (match d with [] => false | _ :: _ => true end = true) as ->
    by (destruct d; [by subst fw|done]).
  simpl. injection Hv as Hv. rewrite Hv. simpl.
  destruct (PyVal.truthy (default PNone (snd <$> fm))) eqn:Htm; simpl;
    [|eexists _, _, _; split; [reflexivity|]; split; [by left|];
      split; [by repeat split|done]].
  destruct (PyVal.truthy (default PNone (snd <$> ft))) eqn:Htt; simpl;
    [|eexists _, _, _; split; [reflexivity|]; split; [by left|];
      split; [by repeat split|done]].
  destruct (PyVal.truthy (default PNone (snd <$> fu))) eqn:Htu; simpl;
    [|eexists _, _, _; split; [reflexivity|]; split; [by left|];
      split; [by repeat split|done]].
  destruct (snd <$> fm) as [xm|]; [|done].
  destruct (snd <$> ft) as [xt|]; [|done].
  destruct (snd <$> fu) as [xu|]; [|done].
  simpl in *.
  destruct (PyVal.as_str xm) as [m|] eqn:Hsm; simpl.
  2: { eexists _, _, _. split; [reflexivity|]. split; [by right|].
       split; [by repeat split|]. intros Hids.
       destruct (Hm Hids xm) as [s ->]; done. }
  destruct (PyVal.as_str xt) as [t|] eqn:Hst; simpl.
  2: { eexists _, _, _. split; [reflexivity|]. split; [by right|].
       split; [by repeat split|]. intros Hids.
       destruct (Ht Hids xt) as [s ->]; done. }
  destruct (PyVal.as_str xu) as [u|] eqn:Hsu; simpl.
  2: { eexists _, _, _. split; [reflexivity|]. split; [by right|].
       split; [by repeat split|]. intros Hids.
       destruct (Hu Hids xu) as [s ->]; done. }
  destruct v as [| | |model| |]; simpl in *;
    try (eexists _, _, _; split; [reflexivity|]; split; [by left|];
         split; [by repeat split|done]).
  rewrite Hinvalid. eexists _, _, _. split; [reflexivity|]. split; [by left|].
  split; [by repeat split|done].
Qed.

Lemma print_all_frame (lines : list string) w :
  ∃ w', for_each lines print w = (Ret tt, w') ∧ no_work_done w w'.
Proof.
  revert w. induction lines as [|l lines IH]; intros w; simpl.
  - exists w. split; [done|apply no_work_done_refl].
  - rewrite bind_run, print_run. destruct (IH (add_log l w)) as (w' & -> & Hw).
    exists w'. split; [done|]. eapply no_work_done_trans; [|exact Hw]. by repeat split.
Qed.

Lemma main_rejects_model (argv : list string) (o : cli_options) w :
  (Cli.scan_args argv (CliOptions true false "base")).2 = inr o →
  cli_whisper_model o ∉ valid_models →
  ∃ w', Cli.main argv w = (Ret 1, w') ∧ no_work_done w w'.
Proof.
  intros Hscan Hinvalid. unfold Cli.main, Cli.parse_args.
  rewrite bind_run, print_run, bind_run, print_run, bind_run, bind_run.
  match goal with
  | |- context [for_each ?l print ?x] =>
      destruct (print_all_frame l x) as (w1 & -> & Hw1)
  end.
  rewrite ret_run, Hscan. rewrite bool_decide_eq_false_2 by done.
  rewrite bind_run, print_run, bind_run, print_run, ret_run.
  eexists. split; [reflexivity|].
  destruct Hw1 as (? & ? & ? & ?). repeat split; simpl in *; congruence.
Qed.

(** C2: every submission the endpoint accepts (it answers 200) is a JSON
    object carrying non-empty string identifiers and a model of the allowed
    set (the default when it names none), and every such submission is
    accepted, with status [success] in the body; the endpoint itself does no
    pipeline work.  The thread it starts calls [VideoPipeline] with the
    keyword [whisper_model] alone, so binding the arguments raises a
    [TypeError] for the seven missing parameters before the body of the
    constructor runs: whatever the state of the world when the thread runs,
    it leaves disk, bucket, model and trace untouched and adds the one line
    its guard prints. *)
Theorem accepted_submission_never_runs_pipeline :
  (∀ (request : exn + pyval) (w : World) resp thread w1,
     Routes.submit_data request w = (Ret (resp, thread), w1) →
     status_code resp = 200 →
     ∃ data m t u model cleanup skip,
       request = inr data ∧
       PyVal.get data "meeting_id" = inr (Some (PStr m)) ∧
       PyVal.get data "take" = inr (Some (PStr t)) ∧
       PyVal.get data "user_id" = inr (Some (PStr u)) ∧
       m ≠ "" ∧ t ≠ "" ∧ u ≠ "" ∧ model ∈ valid_models ∧
       resp = Response 200
                (BodyStarted "success" "Video processing pipeline started" m t u
                   (Driver.job_config m t u) model cleanup skip) ∧
       thread = Some (Routes.run_pipeline m t u model cleanup skip) ∧
       no_work_done w w1) ∧
  (∀ (d : list (string * pyval)) (m t u model : string) (w : World),
     PyVal.get (PDict d) "meeting_id" = inr (Some (PStr m)) →
     PyVal.get (PDict d) "take" = inr (Some (PStr t)) →
     PyVal.get (PDict d) "user_id" = inr (Some (PStr u)) →
     m ≠ "" → t ≠ "" → u ≠ "" →
     (PyVal.get (PDict d) "whisper_model" = inr (Some (PStr model)) ∨
      PyVal.get (PDict d) "whisper_model" = inr None ∧ model = "base") →
     model ∈ valid_models →
     ∃ resp thread w1,
       Routes.submit_data (inr (PDict d)) w = (Ret (resp, Some thread), w1) ∧
       status_code resp = 200) ∧
  (∀ (m t u model : string) (cleanup skip : pyval) (w : World),
     VideoPipeline_new [] [("whisper_model", model)] w
       = (Raise (TypeError "missing required positional arguments"
                   required_parameters), w) ∧
     length required_parameters = 7 ∧
     ∃ line,
       Routes.run_pipeline m t u model cleanup skip w = (Ret tt, add_log line w) ∧
       no_work_done w (add_log line w)).
Proof.
  split; [|split].
  - intros. by eapply submit_data_accepted_inv.
  - intros d m t u model w Hm Ht Hu Hme Hte Hue Hmodel Hvalid.
    destruct (submit_data_accepts d m t u model w) as (c & s & w1 & Hrun & _); try done.
    eexists _, _, _. split; [exact Hrun|done].
  - intros m t u model cleanup skip w.
    split; [apply VideoPipeline_new_keyword_only|]. split; [done|].
    eexists. split; [apply run_pipeline_run|]. by repeat split.
Qed.

(** C9, amended: a submission whose model is not one of the five allowed
    values starts no pipeline work.  The endpoint never accepts it: it
    answers 400 or 500 and starts no thread, and it answers 400 whenever the
    job identifiers, where present, are text ([set_config] runs before the
    model is looked at and raises on an identifier that is not, which gives
    500).  The command line, when its arguments parse to options, exits with
    status 1.  In all these cases the disk, the bucket, the loaded model and
    the trace of external calls are what they were: nothing is created,
    fetched, loaded or run. *)
Theorem invalid_model_rejected_before_work :
  (∀ (data v : pyval) (w : World),
     PyVal.get data "whisper_model" = inr (Some v) →
     in_valid_models v = false →
     ∃ status body w1,
       Routes.submit_data (inr data) w = (Ret (Response status body, None), w1) ∧
       (status = 400 ∨ status = 500) ∧
       no_work_done w w1 ∧
       (textual_identifiers data → status = 400)) ∧
  (∀ (argv : list string) (o : cli_options) (w : World),
     (Cli.scan_args argv (CliOptions true false "base")).2 = inr o →
     cli_whisper_model o ∉ valid_models →
     ∃ w', Cli.main argv w = (Ret 1, w') ∧ no_work_done w w').
Proof.
  split.
  - apply submit_data_invalid_model.
  - apply main_rejects_model.
Qed.

End FrontEnd.

(** ** Subtitles *)

Lemma append_nil_r (s : string) : s +:+ "" = s.
Proof. induction s as [|a s IH]; [done|]. rewrite append_cons. by f_equal. Qed.

Lemma length_append (a b : string) :
  String.length (a +:+ b) = String.length a + String.length b.
Proof. induction a as [|x a IH]; [done|]. rewrite append_cons. simpl. by f_equal. Qed.

Lemma concat_cons (x : string) (l : list string) :
  String.concat "" (x :: l) = x +:+ String.concat "" l.
Proof. destruct l; simpl; [by rewrite append_nil_r|done]. Qed.

Lemma length_zeros n : String.length (PyStr.zeros n) = n.
Proof. induction n; simpl; by f_equal. Qed.

(** A zero-padded field is at least as wide as asked, and exactly as wide
    as its sign and digits when they do not fit. *)
Lemma fmt_d_length (w : nat) (z : Z) :
  String.length (PyStr.fmt_d w z)
  = max w (String.length (if (z <? 0)%Z then "-" else "")
           + String.length (pretty (Z.abs_N z))).
Proof.
  unfold PyStr.fmt_d. rewrite !length_append, length_zeros. lia.
Qed.

Lemma cues_from_cons (i : nat) (seg : segment) (st : string * string)
    (segs : list segment) (stamps : list (string * string)) :
  cues_from i (seg :: segs) (st :: stamps)
  = Srt.spec_cue i st.1 st.2 (PyStr.strip (default "" (seg_text seg)))
    :: cues_from (S i) segs stamps.
Proof.
  unfold cues_from. cbn [zip zip_with imap fst snd]. f_equal.
  - by rewrite Nat.add_0_r.
  - apply imap_ext. intros k p _. cbn. f_equal. lia.
Qed.

Lemma srt_loop_cues (segs : list segment) (stamps : list (string * string))
    (i : nat) (acc : string) :
  Forall2 stamped segs stamps →
  Srt.srt_loop i segs acc = inr (acc +:+ String.concat "" (cues_from i segs stamps)).
Proof.
  intros Hall. revert i acc.
  induction Hall as [|seg st segs stamps [Hs He] _ IH]; intros i acc.
  - cbn. by rewrite append_nil_r.
  - cbn [Srt.srt_loop]. unfold Srt.srt_entry. rewrite Hs, He, IH.
    by rewrite cues_from_cons, concat_cons, append_assoc.
Qed.

Lemma srt_loop_inv (segs : list segment) (i : nat) (acc srt : string) :
  Srt.srt_loop i segs acc = inr srt → ∃ stamps, Forall2 stamped segs stamps.
Proof.
  revert i acc. induction segs as [|seg segs IH]; intros i acc; simpl.
  - intros _. by exists [].
  - unfold Srt.srt_entry.
    destruct (Srt.format_timestamp (default _ (seg_start seg))) as [|s] eqn:Hs; [done|].
    destruct (Srt.format_timestamp (default _ (seg_end seg))) as [|e] eqn:He; [done|].
    intros Hrest. destruct (IH _ _ Hrest) as [stamps Hall].
    exists ((s, e) :: stamps). by constructor.
Qed.

Lemma format_timestamp_layout (x : PyFloat.float) (s : string) :
  Srt.format_timestamp x = inr s →
  ∃ hours minutes seconds milliseconds : Z,
    PyFloat.to_int (PyFloat.div x (PyFloat.of_Z 3600)) = Some hours ∧
    PyFloat.to_int (PyFloat.div (PyFloat.rem_pos x 3600) (PyFloat.of_Z 60)) = Some minutes ∧
    PyFloat.to_int (PyFloat.rem_pos x 60) = Some seconds ∧
    PyFloat.to_int (PyFloat.mul (PyFloat.sub (PyFloat.rem_pos x 60) (PyFloat.of_Z seconds))
                      (PyFloat.of_Z 1000)) = Some milliseconds ∧
    s = PyStr.fmt_d 2 hours +:+ ":" +:+ PyStr.fmt_d 2 minutes +:+ ":" +:+
        PyStr.fmt_d 2 seconds +:+ "," +:+ PyStr.fmt_d 3 milliseconds ∧
    2 ≤ String.length (PyStr.fmt_d 2 hours) ∧
    2 ≤ String.length (PyStr.fmt_d 2 minutes) ∧
    2 ≤ String.length (PyStr.fmt_d 2 seconds) ∧
    3 ≤ String.length (PyStr.fmt_d 3 milliseconds).
Proof.
  unfold Srt.format_timestamp, Srt.py_int.
  destruct (PyFloat.to_int (PyFloat.div x _)) as [h|]; [|done].
  destruct (PyFloat.to_int (PyFloat.div (PyFloat.rem_pos x 3600) _)) as [m|]; [|done].
  destruct (PyFloat.to_int (PyFloat.rem_pos x 60)) as [sec|]; [|done].
  destruct (PyFloat.to_int (PyFloat.mul _ _)) as [ms|] eqn:Hms; [|done].
  intros [= <-]. exists h, m, sec, ms.
  repeat split; try done; rewrite fmt_d_length; apply Nat.le_max_l.
Qed.

(** C6: for every transcription result whose segment times can be
    formatted, the subtitle text is the concatenation of one cue per segment,
    in order, numbered consecutively from 1, each of the form
    [<index>\n<start> --> <end>\n<text>\n\n] with the stripped text of the
    segment; the subtitle is produced exactly in that case.  A timestamp is
    the four fields hours, minutes, seconds and milliseconds, each truncated
    to an integer, zero-padded to at least 2, 2, 2 and 3 digits and separated
    by [:], [:] and [,]; hours are not reduced modulo 24, and the fraction is
    truncated, not rounded: 3725.4 seconds gives [01:02:05,400], 90000
    seconds give [25:00:00,000] and 1.9999 seconds give [00:00:01,999]. *)
Theorem subtitle_cues_numbered_from_one (result : whisper_result)
    (stamps : list (string * string)) :
  Forall2 stamped (default [] (wr_segments result)) stamps →
  Srt.convert_to_srt result
    = inr (String.concat "" (cues_from 1 (default [] (wr_segments result)) stamps)) ∧
  length (cues_from 1 (default [] (wr_segments result)) stamps)
    = length (default [] (wr_segments result)) ∧
  (∀ k seg, default [] (wr_segments result) !! k = Some seg →
     ∃ st, stamps !! k = Some st ∧ stamped seg st ∧
       cues_from 1 (default [] (wr_segments result)) stamps !! k
       = Some (Srt.spec_cue (S k) st.1 st.2 (PyStr.strip (default "" (seg_text seg))))) ∧
  (∀ other srt, Srt.convert_to_srt other = inr srt →
     ∃ stamps', Forall2 stamped (default [] (wr_segments other)) stamps') ∧
  (∀ x s, Srt.format_timestamp x = inr s →
     ∃ hours minutes seconds milliseconds : Z,
       PyFloat.to_int (PyFloat.div x (PyFloat.of_Z 3600)) = Some hours ∧
       PyFloat.to_int (PyFloat.div (PyFloat.rem_pos x 3600) (PyFloat.of_Z 60))
         = Some minutes ∧
       PyFloat.to_int (PyFloat.rem_pos x 60) = Some seconds ∧
       PyFloat.to_int
         (PyFloat.mul (PyFloat.sub (PyFloat.rem_pos x 60) (PyFloat.of_Z seconds))
            (PyFloat.of_Z 1000)) = Some milliseconds ∧
       s = PyStr.fmt_d 2 hours +:+ ":" +:+ PyStr.fmt_d 2 minutes +:+ ":" +:+
           PyStr.fmt_d 2 seconds +:+ "," +:+ PyStr.fmt_d 3 milliseconds ∧
       2 ≤ String.length (PyStr.fmt_d 2 hours) ∧
       2 ≤ String.length (PyStr.fmt_d 2 minutes) ∧
       2 ≤ String.length (PyStr.fmt_d 2 seconds) ∧
       3 ≤ String.length (PyStr.fmt_d 3 milliseconds)) ∧
  Srt.format_timestamp (PyFloat.of_decimal 37254 1) = inr "01:02:05,400" ∧
  Srt.format_timestamp (PyFloat.of_Z 90000) = inr "25:00:00,000" ∧
  Srt.format_timestamp (PyFloat.of_decimal 19999 4) = inr "00:00:01,999".
Proof.
  intros Hall. split; [|split; [|split; [|split; [|split; [|split; [|split]]]]]].
  - unfold Srt.convert_to_srt. by rewrite (srt_loop_cues _ stamps).
  - unfold cues_from. rewrite length_imap, length_zip.
    apply Forall2_length in Hall. lia.
  - intros k seg Hk.
    destruct (Forall2_lookup_l _ _ _ _ _ Hall Hk) as (st & Hst & Hstamped).
    exists st. split; [done|]. split; [done|].
    unfold cues_from. rewrite list_lookup_imap.
    assert (zip (default [] (wr_segments result)) stamps !! k = Some (seg, st)) as ->
      by (by apply lookup_zip_Some). done.
  - intros other srt. apply srt_loop_inv.
  - apply format_timestamp_layout.
  - vm_compute. reflexivity.
  - vm_compute. reflexivity.
  - vm_compute. reflexivity.
Qed.

(** ** Steps that publish nothing *)

Create HintDb quiet.

Lemma quiet_ret {A} (a : A) : quiet (mret a : M A).
Proof. by intros w. Qed.

Lemma quiet_raise {A} (e : exn) : quiet (raise e : M A).
Proof. by intros w. Qed.

Lemma quiet_bind {A B} (m : M A) (f : A → M B) :
  quiet m → (∀ a, quiet (f a)) → quiet (m ≫= f).
Proof.
  intros Hm Hf w. rewrite bind_run. specialize (Hm w).
  destruct (m w) as [[a|e] w1]; simpl in *; [|done].
  destruct Hm as [? ?], (Hf a w1) as [? ?]. split; congruence.
Qed.

Lemma quiet_try_except {A} (body : M A) (handler : exn → M A) :
  quiet body → (∀ e, quiet (handler e)) → quiet (try_except body handler).
Proof.
  intros Hm Hf w. unfold try_except. specialize (Hm w).
  destruct (body w) as [[a|e] w1]; simpl in *; [done|].
  destruct Hm as [? ?], (Hf e w1) as [? ?]. split; congruence.
Qed.

Lemma quiet_try_finally {A} (body : M A) (final : M unit) :
  quiet body → quiet final → quiet (try_finally body final).
Proof.
  intros Hm Hf w. unfold try_finally. specialize (Hm w).
  destruct (body w) as [r w1]. specialize (Hf w1).
  destruct (final w1) as [[[]|e] w2]; simpl in *; split; intuition congruence.
Qed.

Lemma quiet_lift_exn {A} (r : exn + A) : quiet (lift_exn r).
Proof. by destruct r. Qed.

Lemma quiet_for_each {A} (l : list A) (body : A → M unit) :
  (∀ x, quiet (body x)) → quiet (for_each l body).
Proof.
  intros Hb. induction l as [|x l IH]; simpl.
  - apply quiet_ret.
  - apply quiet_bind; [apply Hb|by intros _].
Qed.

Lemma uploads_snoc (t : list event) (e : event) :
  uploads (t ++ [e])
  = uploads t ++ match e with EvS3Upload l k ok => [(l, k, ok)] | _ => [] end.
Proof. unfold uploads. rewrite omap_app. by destruct e. Qed.

Ltac quiet_primitive :=
  intros w; repeat case_match; simpl; rewrite ?uploads_snoc, ?app_nil_r; done.

Ltac quiet_step :=
  first
    [ solve [auto with quiet]
    | apply quiet_ret | apply quiet_raise | apply quiet_lift_exn
    | apply quiet_bind | apply quiet_try_except | apply quiet_try_finally
    | apply quiet_for_each
    | match goal with
      | |- quiet (match ?x with _ => _ end) => destruct x
      | |- quiet (let '(_, _) := ?x in _) => destruct x
      | |- ∀ _, _ => intro
      end ].

Ltac quiet_auto := repeat quiet_step.

Section Quiet.
Context `{External}.

Lemma quiet_exists p : quiet (Fs.exists_ p).
Proof. unfold Fs.exists_. quiet_primitive. Qed.
Lemma quiet_makedirs p : quiet (Fs.makedirs p).
Proof. unfold Fs.makedirs. quiet_primitive. Qed.
Lemma quiet_open_w p : quiet (Fs.open_w p).
Proof. unfold Fs.open_w. quiet_primitive. Qed.
Lemma quiet_append p d : quiet (Fs.append p d).
Proof. unfold Fs.append. quiet_primitive. Qed.
Lemma quiet_read p : quiet (Fs.read p).
Proof. unfold Fs.read. quiet_primitive. Qed.
Lemma quiet_unlink p : quiet (Fs.unlink p).
Proof. unfold Fs.unlink. quiet_primitive. Qed.
Lemma quiet_rmtree p : quiet (Fs.rmtree p).
Proof. unfold Fs.rmtree. quiet_primitive. Qed.
Lemma quiet_subprocess_run cmd target : quiet (subprocess_run cmd target).
Proof. unfold subprocess_run. quiet_primitive. Qed.
Lemma quiet_list prefix : quiet (s3_list_objects_v2 prefix).
Proof. unfold s3_list_objects_v2. quiet_primitive. Qed.
Lemma quiet_download key p : quiet (s3_download_file key p).
Proof. unfold s3_download_file. quiet_primitive. Qed.
Lemma quiet_whisper_load size : quiet (whisper_load_model size).
Proof. unfold whisper_load_model. quiet_primitive. Qed.
Lemma quiet_whisper_transcribe audio : quiet (whisper_transcribe audio).
Proof. unfold whisper_transcribe. quiet_primitive. Qed.
Lemma quiet_now : quiet now_stamp.
Proof. unfold now_stamp. quiet_primitive. Qed.
Lemma quiet_mkdtemp : quiet mkdtemp.
Proof. unfold mkdtemp. quiet_primitive. Qed.
Lemma quiet_find self : quiet (Locator.find_chunk_sequences self).
Proof. unfold Locator.find_chunk_sequences. quiet_primitive. Qed.

#[local] Hint Resolve quiet_exists quiet_makedirs quiet_open_w quiet_append
  quiet_read quiet_unlink quiet_rmtree quiet_subprocess_run quiet_list
  quiet_download quiet_whisper_load quiet_whisper_transcribe quiet_now
  quiet_mkdtemp quiet_find : quiet.

Lemma quiet_load_model self : quiet (load_model self).
Proof.
  intros w. unfold load_model. destruct (w_model w); [done|].
  revert w. change (quiet (try_except (whisper_load_model (model_size self);; mret true)
                             (λ _, mret false))). quiet_auto.
Qed.

Lemma quiet_run_ffmpeg cmd : quiet (run_ffmpeg cmd).
Proof. unfold run_ffmpeg. quiet_auto. Qed.

Lemma quiet_unlink_if_exists p : quiet (unlink_if_exists p).
Proof. unfold unlink_if_exists, PyPath.exists_. quiet_auto. Qed.

#[local] Hint Resolve quiet_load_model quiet_run_ffmpeg quiet_unlink_if_exists : quiet.

Lemma quiet_concatenate chunks out ty : quiet (concatenate_raw_chunks chunks out ty).
Proof.
  unfold concatenate_raw_chunks, splice_and_remux. quiet_auto.
Qed.

#[local] Hint Resolve quiet_concatenate : quiet.

Lemma quiet_setup_directories self : quiet (setup_directories self).
Proof. unfold setup_directories. quiet_auto. Qed.

Lemma quiet_check_ffmpeg : quiet check_ffmpeg.
Proof. unfold check_ffmpeg. quiet_auto. Qed.

Lemma quiet_download_chunks self : quiet (download_chunks self).
Proof. unfold download_chunks, download_one. quiet_auto. Qed.

Lemma quiet_transcribe_audio self audio dir m t u :
  quiet (transcribe_audio self audio dir m t u).
Proof. unfold transcribe_audio, transcribe_and_save. quiet_auto. Qed.

#[local] Hint Resolve quiet_transcribe_audio : quiet.

Lemma quiet_process self skip : quiet (process self skip).
Proof.
  unfold process, VideoProcessor_init, with_tempdir, assemble_and_mux,
    assemble_audio, finish_assembly, extract_wav_for_transcription,
    generate_transcript, save_final_audio, mux_video_audio_with_captions,
    srt_available, PyPath.exists_.
  quiet_auto.
Qed.

End Quiet.

(** ** What a step returns *)

Lemma returns_ret {A} (a : A) (P : A → Prop) : P a → returns (mret a : M A) P.
Proof. intros HP w a' w' [= <- _]. done. Qed.

Lemma returns_raise {A} (e : exn) (P : A → Prop) : returns (raise e : M A) P.
Proof. intros w a w' Hr. done. Qed.

Lemma returns_any {A} (m : M A) : returns m (λ _, True).
Proof. by intros w a w' _. Qed.

Lemma returns_bind {A B} (m : M A) (f : A → M B) (P : A → Prop) (Q : B → Prop) :
  returns m P → (∀ a, P a → returns (f a) Q) → returns (m ≫= f) Q.
Proof.
  intros Hm Hf w b w'. rewrite bind_run.
  destruct (m w) as [[a|e] w1] eqn:Hr; [|done].
  apply (Hf a); by eapply Hm.
Qed.

Lemma returns_try_except {A} (body : M A) (handler : exn → M A) (P : A → Prop) :
  returns body P → (∀ e, returns (handler e) P) → returns (try_except body handler) P.
Proof.
  intros Hm Hf w b w'. unfold try_except.
  destruct (body w) as [[a|e] w1] eqn:Hr.
  - intros [= <- _]. by eapply Hm.
  - apply Hf.
Qed.

Lemma returns_try_finally {A} (body : M A) (final : M unit) (P : A → Prop) :
  returns body P → returns (try_finally body final) P.
Proof.
  intros Hm w b w'. unfold try_finally.
  destruct (body w) as [r w1] eqn:Hr.
  destruct (final w1) as [[[]|e] w2]; [|done].
  intros [= -> _]. by eapply Hm.
Qed.

Section Names.
Context `{External}.

Lemma transcribe_audio_names self audio dir m t u :
  returns (transcribe_audio self audio dir m t u) (transcript_names dir).
Proof.
  unfold transcribe_audio.
  eapply returns_bind; [apply returns_any|]. intros loaded _.
  destruct (negb loaded); [by apply returns_ret|].
  apply returns_try_except; [|intros e; by apply returns_ret].
  eapply returns_bind with (P := λ p, transcript_names dir (Some p));
    [|intros p Hp; by apply returns_ret].
  unfold transcribe_and_save.
  repeat (eapply returns_bind; [apply returns_any|]; intros ? _).
  apply returns_ret. intros json srt [= <- <-]. eauto.
Qed.

Lemma generate_transcript_names self wav dir skip :
  returns (generate_transcript self wav dir skip) (λ tr, transcript_names dir tr.1).
Proof.
  unfold generate_transcript.
  destruct wav as [wav|]; [|by apply returns_ret].
  destruct skip; [by apply returns_ret|].
  eapply returns_bind; [apply returns_any|]. intros there _.
  destruct there; [|by apply returns_ret].
  eapply returns_bind; [apply transcribe_audio_names|].
  intros tp Htp. by apply returns_ret.
Qed.

Lemma save_final_audio_names audio final :
  returns (save_final_audio audio final) (λ s, ∀ p, s = Some p → p = final).
Proof.
  unfold save_final_audio.
  destruct audio as [audio|]; [|by apply returns_ret].
  eapply returns_bind; [apply returns_any|]. intros there _.
  destruct there; [|by apply returns_ret].
  eapply returns_bind; [apply returns_any|]. intros r _.
  apply returns_ret. destruct r.1; congruence.
Qed.

Lemma finish_assembly_names self processor dir skip temp_dir audio :
  returns (finish_assembly self processor dir skip temp_dir audio)
    (λ r, ∀ a, r = Some a →
       artifact_names (video_output_dir processor) (audio_output_dir processor) dir a).
Proof.
  unfold finish_assembly.
  eapply returns_bind; [apply returns_any|]. intros wav _.
  eapply returns_bind; [apply generate_transcript_names|]. intros tr Htr.
  eapply returns_bind; [apply returns_any|]. intros stamp _.
  eapply returns_bind; [apply save_final_audio_names|]. intros saved Hsaved.
  eapply returns_bind; [apply returns_any|]. intros muxed _.
  destruct muxed; apply returns_ret; [|done].
  intros a [= <-]. exists stamp. simpl. split; [done|]. split; [done|]. exact Htr.
Qed.

Lemma process_names self skip :
  returns (process self skip)
    (λ r, ∀ a, r = Some a →
       artifact_names (PyStr.path_join (vp_output_dir self) "video")
         (PyStr.path_join (vp_output_dir self) "audio")
         (PyStr.path_join (vp_output_dir self) "transcripts") a).
Proof.
  unfold process.
  eapply returns_bind with
    (P := λ p, video_output_dir p = PyStr.path_join (vp_output_dir self) "video" ∧
               audio_output_dir p = PyStr.path_join (vp_output_dir self) "audio").
  { unfold VideoProcessor_init.
    repeat (eapply returns_bind; [apply returns_any|]; intros ? _).
    by apply returns_ret. }
  intros processor [Hv Ha].
  eapply returns_bind; [apply returns_any|]. intros chunks _.
  destruct chunks.1 as [|c l]; [by apply returns_ret|].
  unfold with_tempdir.
  eapply returns_bind; [apply returns_any|]. intros temp_dir _.
  apply returns_try_finally. unfold assemble_and_mux.
  eapply returns_bind; [apply returns_any|]. intros ok _.
  destruct (negb ok); [by apply returns_ret|].
  eapply returns_bind; [apply returns_any|]. intros audio _.
  rewrite <- Hv, <- Ha. apply finish_assembly_names.
Qed.

End Names.

(** ** Paths and keys *)

Lemma rsplit_extension (s e : string) :
  PyStr.rsplit "." e = None →
  PyStr.rsplit "." (s +:+ "." +:+ e) = Some (s, e).
Proof.
  intros He. induction s as [|c s IH].
  - change ("" +:+ "." +:+ e) with (String "." e). simpl. by rewrite He.
  - rewrite append_cons. simpl. by rewrite IH.
Qed.

(** The suffix of a name that ends in a dot and a dot-free extension. *)
Lemma suffix_extension (d s e : string) :
  s ≠ "" → e ≠ "" → PyStr.rsplit "." e = None →
  PyPath.suffix (mkPath d (s +:+ "." +:+ e)) = "." +:+ e.
Proof.
  intros Hs He Hr. unfold PyPath.suffix. simpl. rewrite rsplit_extension by done.
  by rewrite !bool_decide_eq_false_2.
Qed.

(** [os.path.join(a, b)] extends [a] by a separator that depends on [a]
    alone, for a relative [b]. *)
Lemma path_join_relative (a : string) :
  ∃ sep, ∀ b, PyStr.startswith "/" b = false → PyStr.path_join a b = a +:+ sep +:+ b.
Proof.
  unfold PyStr.path_join.
  destruct (bool_decide (a = "") || PyStr.ends_with_char "/" a).
  - exists "". by intros b ->.
  - exists "/". by intros b ->.
Qed.

(** The upload prefix of a job. *)
Lemma job_upload_dir (m t u model : string) :
  r2_upload_dir (vp_r2_manager (job_pipeline m t u model))
  = "recordings/" +:+ m +:+ "/" +:+ t.
Proof. reflexivity. Qed.

Section Upload.
Context `{External}.

Lemma upload_if_exists_succeeds (p : Path) (key : Path → string) (c : string) w :
  w_fs w !! PyPath.str p = Some (NFile c) →
  ext_net (clock w) = true →
  upload_if_exists (Some p) key w
  = (Ret false,
     set_bucket (insert (key p) c)
       (add_event (EvS3Upload (PyPath.str p) (key p) true) w)).
Proof.
  intros Hf Hn. unfold upload_if_exists, PyPath.exists_.
  rewrite bind_run, exists_run, bool_decide_eq_true_2 by (rewrite Hf; eauto).
  unfold upload_file, try_except. rewrite !bind_run.
  unfold s3_upload_file. by rewrite Hf, Hn.
Qed.

End Upload.

Section EndToEnd.
Context `{External}.

Lemma fetched_quiet (self : VideoPipeline) w w3 :
  fetched self w w3 →
  w_bucket w3 = w_bucket w ∧ uploads (w_trace w3) = uploads (w_trace w).
Proof.
  intros (w2 & (w1 & Hs & Hc) & Hd).
  pose proof (quiet_setup_directories self w) as [Hb1 Hu1]. rewrite Hs in Hb1, Hu1.
  pose proof (quiet_check_ffmpeg w1) as [Hb2 Hu2]. rewrite Hc in Hb2, Hu2.
  pose proof (quiet_download_chunks (vp_r2_manager self) w2) as [Hb3 Hu3].
  rewrite Hd in Hb3, Hu3. simpl in *. split; congruence.
Qed.

Lemma audio_suffix (d stamp : string) :
  PyPath.suffix (mkPath d ("audio_" +:+ stamp +:+ ".wav")) = ".wav".
Proof.
  change ("audio_" +:+ stamp +:+ ".wav") with ("audio_" +:+ stamp +:+ "." +:+ "wav").
  rewrite <- (append_assoc "audio_" stamp). by apply suffix_extension.
Qed.

(** Once a run has produced a muxed video, an extracted audio and a
    transcript pair and the three deliverables are on disk, with the three
    uploads succeeding, it returns success and uploads exactly the video, the
    audio and the subtitles; the structured transcript is none of the files
    uploaded.  With cleanup enabled the working directories are removed;
    otherwise the disk is left as it was when publishing started. *)
Lemma run_publishes_from_publish_start
    (m t u model : string) (cleanup : bool) (w w4 : World)
    (video audio json srt : Path) (cv ca cs : string) :
  publish_starts (job_pipeline m t u model) false w
    (video, Some audio, Some (json, srt)) w4 →
  w_fs w4 !! PyPath.str video = Some (NFile cv) →
  w_fs w4 !! PyPath.str audio = Some (NFile ca) →
  w_fs w4 !! PyPath.str srt = Some (NFile cs) →
  (∀ k, k < 3 → ext_net (clock w4 + k) = true) →
  ∃ w' stamp stamp',
    let self := job_pipeline m t u model in
    let prefix := "recordings/" +:+ m +:+ "/" +:+ t in
    let key_video := prefix +:+ "/final_video_" +:+ u +:+ ".mp4" in
    let key_audio := prefix +:+ "/final_audio_" +:+ u +:+ ".wav" in
    let key_srt := prefix +:+ "/subtitle_" +:+ u +:+ ".srt" in
    run self cleanup false w = (Ret true, w') ∧
    video = mkPath (PyStr.path_join (vp_output_dir self) "video")
              ("output_" +:+ stamp +:+ ".mp4") ∧
    audio = mkPath (PyStr.path_join (vp_output_dir self) "audio")
              ("audio_" +:+ stamp +:+ ".wav") ∧
    json = mkPath (PyStr.path_join (vp_output_dir self) "transcripts")
             ("transcript_" +:+ stamp' +:+ ".json") ∧
    srt = mkPath (PyStr.path_join (vp_output_dir self) "transcripts")
            ("transcript_" +:+ stamp' +:+ ".srt") ∧
    w_trace w' = w_trace w4 ++
      [EvS3Upload (PyPath.str video) key_video true;
       EvS3Upload (PyPath.str audio) key_audio true;
       EvS3Upload (PyPath.str srt) key_srt true] ∧
    uploads (w_trace w') = uploads (w_trace w) ++
      [(PyPath.str video, key_video, true);
       (PyPath.str audio, key_audio, true);
       (PyPath.str srt, key_srt, true)] ∧
    (PyPath.str json ∉ [PyPath.str video; PyPath.str audio; PyPath.str srt]) ∧
    w_bucket w'
      = (<[key_srt := cs]> (<[key_audio := ca]> (<[key_video := cv]> (w_bucket w)))) ∧
    if cleanup
    then w_fs w4 !! vp_local_dir self = Some NDir →
         w_fs w4 !! vp_output_dir self = Some NDir →
         ∀ p, Fs.under (vp_local_dir self) p || Fs.under (vp_output_dir self) p = true →
              w_fs w' !! p = None
    else w_fs w' = w_fs w4.
Proof.
  intros Hstart Hv Ha Hs Hnet.
  pose proof Hstart as (w3 & Hfetched & Hproc).
  destruct (fetched_quiet _ _ _ Hfetched) as [Hb3 Hu3].
  pose proof (quiet_process (job_pipeline m t u model) false w3) as [Hb4 Hu4].
  rewrite Hproc in Hb4, Hu4. simpl in Hb4, Hu4.
  destruct (process_names _ _ _ _ _ Hproc _ eq_refl) as (stamp & Hvn & Han & Htn).
  cbn [fst snd] in Hvn. specialize (Han _ eq_refl).
  destruct (Htn _ _ eq_refl) as (stamp' & Hjn & Hsn). clear Htn.
  set (self := job_pipeline m t u model) in *.
  set (prefix := "recordings/" +:+ m +:+ "/" +:+ t).
  set (w5 := set_bucket (insert (prefix +:+ "/final_video_" +:+ u +:+ ".mp4") cv)
               (add_event (EvS3Upload (PyPath.str video)
                  (prefix +:+ "/final_video_" +:+ u +:+ ".mp4") true) w4)).
  set (w6 := set_bucket (insert (prefix +:+ "/final_audio_" +:+ u +:+ ".wav") ca)
               (add_event (EvS3Upload (PyPath.str audio)
                  (prefix +:+ "/final_audio_" +:+ u +:+ ".wav") true) w5)).
  set (w7 := set_bucket (insert (prefix +:+ "/subtitle_" +:+ u +:+ ".srt") cs)
               (add_event (EvS3Upload (PyPath.str srt)
                  (prefix +:+ "/subtitle_" +:+ u +:+ ".srt") true) w6)).
  assert (publish self (video, Some audio, Some (json, srt)) w4 = (Ret true, w7)) as Hpub.
  { unfold publish, upload_processed_files. rewrite !bind_run.
    rewrite (upload_if_exists_succeeds video _ cv w4 Hv)
      by (rewrite <- (Nat.add_0_r (clock w4)); apply Hnet; lia).
    rewrite bind_run.
    rewrite (upload_if_exists_succeeds audio _ ca w5 Ha).
    2:{ unfold clock. simpl. rewrite length_app. apply Hnet. simpl. lia. }
    rewrite bind_run. cbn [fmap option_fmap option_map fst snd].
    replace (PyPath.suffix audio) with ".wav"
      by (rewrite Han; symmetry; apply audio_suffix).
    rewrite (upload_if_exists_succeeds srt _ cs w6 Hs).
    2:{ unfold clock. simpl. rewrite !length_app.
        rewrite <- Nat.add_assoc. apply Hnet. simpl. lia. }
    reflexivity. }
  pose proof (finalize_frame self cleanup w7) as (Hfb & _ & _ & _ & Hft).
  exists (finalize self cleanup w7), stamp, stamp'. cbv zeta.
  split; [|split; [done|split; [done|split; [done|split; [done|]]]]].
  { rewrite run_unfold, (run_stages_until_publish _ _ _ _ _ Hstart), Hpub. done. }
  split; [|split; [|split; [|split]]].
  - rewrite Hft. simpl. by rewrite <- !app_assoc.
  - rewrite Hft. simpl. rewrite !uploads_snoc, <- !app_assoc. simpl. congruence.
  - destruct (path_join_relative (vp_output_dir self)) as [sep Hsep].
    rewrite Hvn, Han, Hjn, Hsn, !Hsep by done. unfold PyPath.str. cbn [p_dir p_name].
    generalize (vp_output_dir self). intros out.
    rewrite !elem_of_cons, elem_of_nil, !append_assoc.
    intros [Heq|[Heq|[Heq|[]]]];
      apply (append_inv_head out), (append_inv_head sep) in Heq;
      try discriminate Heq.
    apply (append_inv_head "transcripts/transcript_"), (append_inv_head stamp') in Heq.
    discriminate Heq.
  - rewrite Hfb. simpl. congruence.
  - destruct cleanup.
    + intros Hl Ho. unfold finalize.
      destruct (cleanup_local_files_run self w7 Hl Ho) as (w' & -> & _ & Hgone). done.
    + reflexivity.
Qed.

End EndToEnd.

(** ** The scenarios of the specification, run *)

(** An equation between a computation and its value, checked by evaluating
    the computation. *)
Ltac evaluate :=
  lazymatch goal with
  | |- _ = ?v => vm_cast_no_check (@eq_refl _ v)
  end.

Lemma scenario_fetch_starts :
  fetch_starts (H := Scenario.all_succeed) Scenario.job Scenario.start Scenario.at_fetch.
Proof. exists Scenario.at_setup. split; evaluate. Qed.

Lemma scenario_fetched :
  fetched (H := Scenario.all_succeed) Scenario.job Scenario.start Scenario.at_process.
Proof. exists Scenario.at_fetch. split; [exact scenario_fetch_starts|evaluate]. Qed.

Lemma scenario_publish_starts :
  publish_starts (H := Scenario.all_succeed) Scenario.job false Scenario.start
    (Scenario.video, Some Scenario.audio, Some (Scenario.json, Scenario.srt))
    Scenario.at_publish.
Proof. exists Scenario.at_process. split; [exact scenario_fetched|evaluate]. Qed.

Lemma scenario_finished :
  run (H := Scenario.all_succeed) Scenario.job true false Scenario.start
  = Scenario.finished.
Proof. evaluate. Qed.

Lemma scenario_finished_keeping_files :
  run (H := Scenario.all_succeed) Scenario.job false false Scenario.start
  = Scenario.finished_keeping_files.
Proof. evaluate. Qed.

Lemma late_chunks_finished :
  run (H := Scenario.all_succeed) Scenario.job true false (fresh_world Cases.late_bucket)
  = Cases.late_finished.
Proof. evaluate. Qed.

Lemma occupied_finished :
  run (H := Scenario.all_succeed) Scenario.job true false Cases.occupied
  = Cases.occupied_finished.
Proof. evaluate. Qed.

Lemma unformattable_finished :
  run (H := Cases.unformattable) Scenario.job true false Scenario.start
  = Cases.unformattable_finished.
Proof. evaluate. Qed.


(** ** The empty source prefix *)

Lemma nothing_stored_fetch_starts :
  fetch_starts (H := Scenario.all_succeed) Scenario.job Scenario.nothing_stored
    Scenario.nothing_stored_at_fetch.
Proof. exists Scenario.nothing_stored_at_setup. split; evaluate. Qed.

(** The scenario without chunks, run with cleanup disabled: the listing
    reports no object, the run returns failure and uploads nothing, and the
    working directories are left on disk: no cleanup executes. *)
Lemma failed_fetch_without_cleanup_keeps_directories :
  keys_under (r2_remote_dir (vp_r2_manager Scenario.job))
    (w_bucket Scenario.nothing_stored) = [] ∧
  (run (H := Scenario.all_succeed) Scenario.job false false Scenario.nothing_stored).1
  = Ret false ∧
  w_trace (run (H := Scenario.all_succeed) Scenario.job false false
             Scenario.nothing_stored).2
  = [EvProc ["ffmpeg"; "-version"] (ProcOk "" "out:-version");
     EvS3List "recordings/m1/t1/u1" true] ∧
  w_fs (run (H := Scenario.all_succeed) Scenario.job false false
          Scenario.nothing_stored).2 !! "../chunks/m1/t1/u1" = Some NDir ∧
  w_fs (run (H := Scenario.all_succeed) Scenario.job false false
          Scenario.nothing_stored).2 !! "../recordings/m1/t1/u1" = Some NDir.
Proof. repeat split; evaluate. Qed.

Lemma fetch_fails_on_empty_prefix_witness :
  fetch_starts (H := Scenario.all_succeed) Scenario.job Scenario.nothing_stored
    Scenario.nothing_stored_at_fetch ∧
  keys_under (r2_remote_dir (vp_r2_manager Scenario.job))
    (w_bucket Scenario.nothing_stored) = [] ∧
  ∃ w',
    run (H := Scenario.all_succeed) Scenario.job true false Scenario.nothing_stored
      = (Ret false, w') ∧
    uploads (w_trace w') = [] ∧
    w_bucket w' = ∅ ∧
    w_fs w' !! "../chunks/m1/t1/u1" = None ∧
    w_fs w' !! "../recordings/m1/t1/u1" = None.
Proof.
  split; [exact nothing_stored_fetch_starts|]. split; [evaluate|].
  destruct (fetch_fails_on_empty_prefix (H := Scenario.all_succeed) Scenario.job
    true false Scenario.nothing_stored Scenario.nothing_stored_at_fetch
    nothing_stored_fetch_starts) as (ok & w' & _ & Hrun & Htrace & Hbucket & Hgone).
  - evaluate.
  - exists w'. split; [exact Hrun|]. split.
    + rewrite Htrace. unfold add_event. cbn [w_trace]. rewrite uploads_snoc. evaluate.
    + split; [exact Hbucket|]. split; apply Hgone; evaluate.
Defined.

(** ** The assembler on one chunk *)

Lemma scratch_file_always_removed_witness :
  [(0, mkPath "/data" "video_0.webm")] ≠ ([] : list chunk) ∧
  match PyPath.with_suffix (mkPath "/tmp/work" "video_concatenated.webm") ".temp.webm" with
  | inl e =>
      concatenate_raw_chunks (H := Scenario.all_succeed)
        [(0, mkPath "/data" "video_0.webm")]
        (mkPath "/tmp/work" "video_concatenated.webm") "video" Scenario.one_chunk
      = (Raise e, Scenario.one_chunk)
  | inr temp =>
      let '(r, w') :=
        concatenate_raw_chunks (H := Scenario.all_succeed)
          [(0, mkPath "/data" "video_0.webm")]
          (mkPath "/tmp/work" "video_concatenated.webm") "video" Scenario.one_chunk in
      PyPath.str temp
      = "/tmp/work" +:+ "/" +:+
        PyPath.stem (mkPath "/tmp/work" "video_concatenated.webm") +:+ ".temp.webm" ∧
      ¬ is_file (PyPath.str temp) w' ∧
      (w_fs Scenario.one_chunk !! PyPath.str temp ≠ Some NDir →
       (∃ b, r = Ret b) ∧ w_fs w' !! PyPath.str temp = None)
  end.
Proof.
  split; [done|].
  apply (scratch_file_always_removed (H := Scenario.all_succeed)
           [(0, mkPath "/data" "video_0.webm")]
           (mkPath "/tmp/work" "video_concatenated.webm") "video" Scenario.one_chunk).
  done.
Defined.

(** ** Subtitles of the example transcription *)

Lemma subtitle_cues_numbered_from_one_witness :
  Forall2 stamped (default [] (wr_segments Scenario.result))
    [("00:00:00,000", "00:00:02,500"); ("00:00:02,500", "01:02:05,400")] ∧
  Srt.convert_to_srt Scenario.result
  = inr (String.concat ""
           [Srt.spec_cue 1 "00:00:00,000" "00:00:02,500" "hello world.";
            Srt.spec_cue 2 "00:00:02,500" "01:02:05,400" "bye"]).
Proof.
  assert (Forall2 stamped (default [] (wr_segments Scenario.result))
            [("00:00:00,000", "00:00:02,500"); ("00:00:02,500", "01:02:05,400")])
    as Hstamps.
  { repeat constructor; evaluate. }
  split; [exact Hstamps|].
  exact (proj1 (subtitle_cues_numbered_from_one Scenario.result _ Hstamps)).
Defined.

(** ** A failed audio track, a failed upload *)

Lemma audio_remux_fails_assembly_starts :
  assembly_starts (H := Scenario.audio_remux_fails) Scenario.job Scenario.start
    Scenario.processor Scenario.video_chunks Scenario.audio_chunks "/tmp/tmpk3v9"
    Scenario.at_assembly.
Proof.
  exists Scenario.at_process, Scenario.at_locate.
  split; [|split; [evaluate|split; [evaluate|split; [done|evaluate]]]].
  exists Scenario.at_fetch. split; [|evaluate].
  exists Scenario.at_setup. split; evaluate.
Qed.

Lemma video_remux_fails_assembly_starts :
  assembly_starts (H := Cases.video_remux_fails) Scenario.job Scenario.start
    Scenario.processor Scenario.video_chunks Scenario.audio_chunks "/tmp/tmpk3v9"
    Scenario.at_assembly.
Proof.
  exists Scenario.at_process, Scenario.at_locate.
  split; [|split; [evaluate|split; [evaluate|split; [done|evaluate]]]].
  exists Scenario.at_fetch. split; [|evaluate].
  exists Scenario.at_setup. split; evaluate.
Qed.

Lemma video_failure_fatal_audio_failure_degrades_witness :
  (assembly_starts (H := Cases.video_remux_fails) Scenario.job Scenario.start
     Scenario.processor Scenario.video_chunks Scenario.audio_chunks "/tmp/tmpk3v9"
     Scenario.at_assembly ∧
   concatenate_raw_chunks (H := Cases.video_remux_fails) Scenario.video_chunks
     (mkPath "/tmp/tmpk3v9" "video_concatenated.webm") "video" Scenario.at_assembly
   = (Ret false, Cases.after_video_failure) ∧
   ∃ w',
     run (H := Cases.video_remux_fails) Scenario.job true false Scenario.start
     = (Ret false, w') ∧
     last (w_trace w')
     = Some (EvProc (remux_command (mkPath "/tmp/tmpk3v9" "video_concatenated.temp.webm")
                       (mkPath "/tmp/tmpk3v9" "video_concatenated.webm"))
               (ProcFail "Invalid data found when processing input" None)) ∧
     uploads (w_trace w') = [] ∧
     w_bucket w' = w_bucket Scenario.start) ∧
  (assembly_starts (H := Scenario.audio_remux_fails) Scenario.job Scenario.start
     Scenario.processor Scenario.video_chunks Scenario.audio_chunks "/tmp/tmpk3v9"
     Scenario.at_assembly ∧
   concatenate_raw_chunks (H := Scenario.audio_remux_fails) Scenario.video_chunks
     (mkPath "/tmp/tmpk3v9" "video_concatenated.webm") "video" Scenario.at_assembly
   = (Ret true, Scenario.after_video) ∧
   concatenate_raw_chunks (H := Scenario.audio_remux_fails) Scenario.audio_chunks
     (mkPath "/tmp/tmpk3v9" "audio_concatenated.webm") "audio" Scenario.after_video
   = (Ret false, Scenario.after_audio_failure) ∧
   ∃ oks w9,
     length oks ≤ 1 ∧
     run (H := Scenario.audio_remux_fails) Scenario.job true false Scenario.start
     = (Ret (forallb id oks), w9) ∧
     forallb id oks = true ∧
     uploads (w_trace w9)
     = [("../recordings/m1/t1/u1/video/output_2024-05-01_10-00-00.mp4",
         "recordings/m1/t1/final_video_u1.mp4", true)] ∧
     w_bucket w9
     = <["recordings/m1/t1/final_video_u1.mp4" :=
           "out:../recordings/m1/t1/u1/video/output_2024-05-01_10-00-00.mp4"]>
         (w_bucket Scenario.start)) ∧
  (ChunksToVideo.assemble (H := Scenario.audio_remux_fails) Scenario.processor
     Scenario.video_chunks Scenario.audio_chunks "/tmp/tmpk3v9" Scenario.at_assembly
   = (Ret (Some Cases.webm, None),
      set_fs (insert (PyPath.str Cases.webm)
                (NFile "out:/tmp/tmpk3v9/video_concatenated.webm"))
        (add_event (EvClock "2024-05-01_10-00-00") Scenario.after_audio_failure))).
Proof.
  assert (concatenate_raw_chunks (H := Cases.video_remux_fails) Scenario.video_chunks
            (mkPath "/tmp/tmpk3v9" "video_concatenated.webm") "video" Scenario.at_assembly
          = (Ret false, Cases.after_video_failure)) as Hfailed by evaluate.
  assert (concatenate_raw_chunks (H := Scenario.audio_remux_fails) Scenario.video_chunks
            (mkPath "/tmp/tmpk3v9" "video_concatenated.webm") "video" Scenario.at_assembly
          = (Ret true, Scenario.after_video)) as Hvideo by evaluate.
  assert (concatenate_raw_chunks (H := Scenario.audio_remux_fails) Scenario.audio_chunks
            (mkPath "/tmp/tmpk3v9" "audio_concatenated.webm") "audio" Scenario.after_video
          = (Ret false, Scenario.after_audio_failure)) as Haudio by evaluate.
  split; [|split].
  - split; [exact video_remux_fails_assembly_starts|]. split; [exact Hfailed|].
    destruct (video_failure_fatal_audio_failure_degrades (H := Cases.video_remux_fails)
                Scenario.job true false) as [Hrun _].
    destruct (Hrun _ _ _ _ _ _ video_remux_fails_assembly_starts) as [Hfatal _].
    destruct (Hfatal _ Hfailed) as (w' & Hfinal & Htrace & Hbucket).
    exists w'. split; [exact Hfinal|]. rewrite Htrace, Hbucket.
    split; [evaluate|]. split; evaluate.
  - split; [exact audio_remux_fails_assembly_starts|].
    split; [exact Hvideo|]. split; [exact Haudio|].
    destruct (video_failure_fatal_audio_failure_degrades (H := Scenario.audio_remux_fails)
                Scenario.job true false) as [Hrun _].
    destruct (Hrun _ _ _ _ _ _ audio_remux_fails_assembly_starts) as [_ Hdegrade].
    destruct (Hdegrade _ _ Hvideo ltac:(done) Haudio) as (_ & _ & Hsuccess).
    destruct (Hsuccess ""
      "out:../recordings/m1/t1/u1/video/output_2024-05-01_10-00-00.mp4")
      as (oks & w9 & Hlen & Hfinal & _).
    + evaluate.
    + evaluate.
    + intros Heq. vm_compute in Heq. discriminate Heq.
    + assert ((run (H := Scenario.audio_remux_fails) Scenario.job true false
                 Scenario.start).1 = Ret true) as Hok by evaluate.
      assert (uploads (w_trace (run (H := Scenario.audio_remux_fails) Scenario.job true
                                  false Scenario.start).2)
              = [("../recordings/m1/t1/u1/video/output_2024-05-01_10-00-00.mp4",
                  "recordings/m1/t1/final_video_u1.mp4", true)]) as Hup by evaluate.
      assert (w_bucket (run (H := Scenario.audio_remux_fails) Scenario.job true
                          false Scenario.start).2
              = <["recordings/m1/t1/final_video_u1.mp4" :=
                    "out:../recordings/m1/t1/u1/video/output_2024-05-01_10-00-00.mp4"]>
                  (w_bucket Scenario.start)) as Hb by evaluate.
      rewrite Hfinal in Hok, Hup, Hb. cbn [fst snd] in Hok, Hup, Hb.
      exists oks, w9. split; [exact Hlen|]. split; [exact Hfinal|].
      split; [congruence|]. split; [exact Hup|exact Hb].
  - destruct (video_failure_fatal_audio_failure_degrades (H := Scenario.audio_remux_fails)
                Scenario.job true false) as [_ Hassemble].
    destruct (Hassemble Scenario.processor Scenario.video_chunks Scenario.audio_chunks
                "/tmp/tmpk3v9" Scenario.at_assembly) as [_ Hdegrade].
    destruct (Hdegrade _ _ Hvideo ltac:(done) Haudio)
      as (_ & _ & content & Hcontent & Hdeliver).
    assert (w_fs Scenario.after_audio_failure !! "/tmp/tmpk3v9/video_concatenated.webm"
            = Some (NFile "out:/tmp/tmpk3v9/video_concatenated.webm")) as Hfile
      by evaluate.
    change (PyPath.str (mkPath "/tmp/tmpk3v9" "video_concatenated.webm"))
      with "/tmp/tmpk3v9/video_concatenated.webm" in Hcontent.
    rewrite Hfile in Hcontent. injection Hcontent as <-.
    apply Hdeliver. intros Heq. vm_compute in Heq. discriminate Heq.
Defined.

Lemma audio_upload_fails_publish_starts :
  publish_starts (H := Scenario.audio_upload_fails) Scenario.job false Scenario.start
    (Scenario.video, Some Scenario.audio, Some (Scenario.json, Scenario.srt))
    Scenario.at_publish.
Proof.
  exists Scenario.at_process. split; [|evaluate].
  exists Scenario.at_fetch. split; [|evaluate].
  exists Scenario.at_setup. split; evaluate.
Qed.

Lemma publish_attempts_every_upload_witness :
  publish_starts (H := Scenario.audio_upload_fails) Scenario.job false Scenario.start
    (Scenario.video, Some Scenario.audio, Some (Scenario.json, Scenario.srt))
    Scenario.at_publish ∧
  ∃ oks w',
    length oks = 3 ∧
    uploads (w_trace w')
    = zip_with (λ lk ok, (lk.1, lk.2, ok))
        [(PyPath.str Scenario.video, "recordings/m1/t1/final_video_u1.mp4");
         (PyPath.str Scenario.audio, "recordings/m1/t1/final_audio_u1.wav");
         (PyPath.str Scenario.srt, "recordings/m1/t1/subtitle_u1.srt")] oks ∧
    run (H := Scenario.audio_upload_fails) Scenario.job true false Scenario.start
    = (Ret (forallb id oks), w').
Proof.
  split; [exact audio_upload_fails_publish_starts|].
  destruct (publish_attempts_every_upload (H := Scenario.audio_upload_fails)
              Scenario.job true false) as [_ Hrun].
  destruct (Hrun _ _ _ _ _ audio_upload_fails_publish_starts)
    as (oks & w5 & Hlen & Htrace & Hfinal).
  assert (length oks = 3) as Hlen3 by (rewrite Hlen; evaluate).
  exists oks, (finalize Scenario.job true w5).
  split; [exact Hlen3|]. split; [|exact Hfinal].
  destruct (finalize_frame Scenario.job true w5) as (_ & _ & _ & _ & ->).
  rewrite Htrace. unfold uploads. rewrite omap_app.
  replace (omap _ (w_trace Scenario.at_publish)) with ([] : list (string * string * bool))
    by (symmetry; evaluate).
  destruct oks as [|o1 [|o2 [|o3 [|o4 oks]]]]; try discriminate Hlen3.
  evaluate.
Defined.

(** ** Requests and command lines *)

Lemma accepted_submission_never_runs_pipeline_witness :
  ∃ resp thread w1 line,
    Routes.submit_data (H := Scenario.all_succeed)
      (inr (PDict Scenario.request_default)) Scenario.start
    = (Ret (resp, Some thread), w1) ∧
    status_code resp = 200 ∧
    thread w1 = (Ret tt, add_log line w1) ∧
    no_work_done Scenario.start (add_log line w1).
Proof.
  destruct (accepted_submission_never_runs_pipeline (H := Scenario.all_succeed))
    as (Hinv & Haccept & Hthread).
  destruct (Haccept Scenario.request_default "m1" "t1" "u1" "base" Scenario.start)
    as (resp & thread & w1 & Hrun & Hstatus);
    [reflexivity|reflexivity|reflexivity|done|done|done|by right|
     by apply (bool_decide_unpack _)|].
  destruct (Hinv _ _ _ _ _ Hrun Hstatus)
    as (data & m & t & u & model & cleanup & skip & _ & _ & _ & _ & _ & _ & _ & _ & _ &
        Hth & Hquiet).
  injection Hth as ->.
  destruct (Hthread m t u model cleanup skip w1) as (_ & _ & line & Hline & Hnone).
  exists resp, (Routes.run_pipeline (H := Scenario.all_succeed) m t u model cleanup skip),
    w1, line.
  split; [exact Hrun|]. split; [exact Hstatus|]. split; [exact Hline|].
  eapply no_work_done_trans; [exact Hquiet|exact Hnone].
Defined.

Lemma request_huge_textual : textual_identifiers Scenario.request_huge.
Proof.
  intros key x Hkey. rewrite !elem_of_cons, elem_of_nil in Hkey.
  destruct Hkey as [->|[->|[->|[]]]]; intros [= <-] _; eauto.
Qed.

Lemma invalid_model_rejected_before_work_witness :
  textual_identifiers Scenario.request_huge ∧
  (∃ body w1,
     Routes.submit_data (H := Scenario.all_succeed) (inr Scenario.request_huge)
       Scenario.start = (Ret (Response 400 body, None), w1) ∧
     no_work_done Scenario.start w1) ∧
  (∃ w',
     Cli.main (H := Scenario.all_succeed) ["--whisper-model"; "huge"] Scenario.start
     = (Ret 1, w') ∧
     no_work_done Scenario.start w').
Proof.
  destruct (invalid_model_rejected_before_work (H := Scenario.all_succeed))
    as [Hendpoint Hcli].
  split; [exact request_huge_textual|]. split.
  - destruct (Hendpoint Scenario.request_huge (PStr "huge") Scenario.start)
      as (status & body & w1 & Hrun & _ & Hquiet & Hstatus); [reflexivity|reflexivity|].
    rewrite (Hstatus request_huge_textual) in Hrun. by exists body, w1.
  - apply (Hcli ["--whisper-model"; "huge"] (CliOptions true false "huge") Scenario.start);
      [reflexivity|]. by apply (bool_decide_unpack _).
Defined.

(** * Further properties of the pipeline *)

(** ** The run as a whole *)

Section WholeRun.
Context `{External}.

(** X1: [run] never raises.  Whatever the stages do, it returns a Boolean:
    the value the stages returned, or [False] when one of them raised; and the
    world it leaves is the one the stages left, after [cleanup_local_files]
    when cleanup is enabled. *)
Theorem run_never_raises (self : VideoPipeline) (cleanup skip : bool) (w : World) :
  ∃ b w',
    run self cleanup skip w = (Ret b, w') ∧
    (∀ e, (run_stages self skip w).1 = Raise e → b = false) ∧
    (∀ b', (run_stages self skip w).1 = Ret b' → b = b') ∧
    w' = (if cleanup then (cleanup_local_files self (run_stages self skip w).2).2
          else (run_stages self skip w).2).
Proof.
  eexists _, _. split; [apply run_unfold|].
  split; [|split; [|reflexivity]].
  - by intros e ->.
  - by intros b' ->.
Qed.

Lemma rmtree_if_exists_run (d : string) (w : World) :
  rmtree_if_exists d w
  = match w_fs w !! d with
    | Some NDir =>
        (Ret tt, set_fs (filter (λ kv : string * node, Fs.under d kv.1 = false)) w)
    | Some (NFile _) => (Raise NotADirectoryError, w)
    | None => (Ret tt, w)
    end.
Proof.
  unfold rmtree_if_exists. rewrite bind_run, exists_run. unfold Fs.rmtree.
  destruct (w_fs w !! d) as [[c|]|] eqn:Hd; simpl;
    rewrite ?Hd; try reflexivity.
Qed.

Lemma lookup_rmtree (d p : string) (fs : gmap string node) :
  filter (λ kv : string * node, Fs.under d kv.1 = false) fs !! p
  = if Fs.under d p then None else fs !! p.
Proof.
  destruct (Fs.under d p) eqn:Hu.
  - apply map_lookup_filter_None. right. intros x _. simpl. by rewrite Hu.
  - destruct (fs !! p) as [x|] eqn:Hp.
    + apply map_lookup_filter_Some. by split.
    + apply map_lookup_filter_None. by left.
Qed.


End WholeRun.

Section Preflight.
Context `{External}.

Lemma setup_directories_clock (self : VideoPipeline) w w1 :
  setup_directories self w = (Ret tt, w1) → clock w1 = clock w ∧ same_but_fs w w1.
Proof.
  intros Hs. apply setup_directories_run in Hs as (Hsame & _).
  split; [|done]. unfold clock. by destruct Hsame as (_ & _ & _ & _ & ->).
Qed.

(** X3: when the preflight [ffmpeg -version] does not exit with status 0
    (the tool fails or is not installed), the run returns failure at once: the
    preflight is its only external call, so nothing is listed, downloaded,
    transcoded or uploaded, and the bucket is unchanged. *)
Theorem failed_preflight_stops_before_fetch (self : VideoPipeline)
    (cleanup skip : bool) (w w1 : World) :
  setup_directories self w = (Ret tt, w1) →
  (∀ stdout written,
     ext_proc (clock w) ["ffmpeg"; "-version"] ≠ ProcOk stdout written) →
  ∃ w',
    run self cleanup skip w = (Ret false, w') ∧
    w_trace w' = w_trace w ++
      [EvProc ["ffmpeg"; "-version"] (ext_proc (clock w) ["ffmpeg"; "-version"])] ∧
    w_bucket w' = w_bucket w.
Proof.
  intros Hs Hfail.
  destruct (setup_directories_clock _ _ _ Hs) as (Hclock & Hb & _ & _ & _ & Htr).
  assert (∃ w2, run_stages self skip w = (Ret false, w2) ∧
            w2 = add_event (EvProc ["ffmpeg"; "-version"]
                              (ext_proc (clock w) ["ffmpeg"; "-version"])) w1)
    as (w2 & Hstages & ->).
  { unfold run_stages. rewrite bind_run, Hs, bind_run.
    unfold check_ffmpeg, try_except. rewrite bind_run. unfold subprocess_run.
    rewrite Hclock.
    destruct (ext_proc (clock w) ["ffmpeg"; "-version"]) as [o wr|e wr|] eqn:Hout;
      [by destruct (Hfail o wr)|..]; eexists; split; reflexivity. }
  eexists. split; [rewrite run_unfold, Hstages; reflexivity|]. simpl.
  match goal with
  | |- context [finalize self cleanup ?x] =>
      pose proof (finalize_frame self cleanup x) as (Hfb & _ & _ & _ & Hft)
  end.
  rewrite Hft, Hfb. simpl. split; congruence.
Qed.

End Preflight.

(** ** Uploads *)

Section Uploads.
Context `{External}.

(** X4: [upload_file] never raises.  It returns [True] exactly when the
    local path holds a regular file and the request goes through, and then the
    bucket holds the file's bytes under the key and is otherwise unchanged;
    when it returns [False] the bucket is unchanged.  In both cases the
    attempt is the one external call made and the disk is untouched. *)
Theorem upload_file_stores_or_reports (local_path remote_key : string) (w : World) :
  ∃ ok w',
    upload_file local_path remote_key w = (Ret ok, w') ∧
    w_trace w' = w_trace w ++ [EvS3Upload local_path remote_key ok] ∧
    w_fs w' = w_fs w ∧
    (ok = true ↔ (∃ data, w_fs w !! local_path = Some (NFile data)) ∧
                 ext_net (clock w) = true) ∧
    (∀ data, ok = true → w_fs w !! local_path = Some (NFile data) →
       w_bucket w' = <[remote_key := data]> (w_bucket w)) ∧
    (ok = false → w_bucket w' = w_bucket w).
Proof.
  unfold upload_file, try_except. rewrite bind_run. unfold s3_upload_file.
  destruct (w_fs w !! local_path) as [[data|]|] eqn:Hf;
    [destruct (ext_net (clock w)) eqn:Hn|..]; simpl;
    eexists _, _; (split; [reflexivity|]); simpl;
    (split; [reflexivity|]); (split; [reflexivity|]);
    (split; [|split]); try done; try (by intros ? ? [= ->]).
  - split; [eauto|done].
  - split; [done|]. by intros [_ ?].
  - split; [done|]. by intros [[? ?] _].
  - split; [done|]. by intros [[? ?] _].
Qed.

(** X5: when none of the artifacts it is given exists on disk,
    [upload_processed_files] reports success without attempting any upload:
    the world is unchanged. *)
Theorem nothing_to_upload_is_success (self : CloudflareR2Manager)
    (video_path audio_path : option Path)
    (transcript_paths : option (Path * option Path)) (w : World) :
  existing (w_fs w) video_path = [] →
  existing (w_fs w) audio_path = [] →
  existing (w_fs w) (transcript_paths ≫= snd) = [] →
  upload_processed_files self video_path audio_path transcript_paths w = (Ret true, w).
Proof.
  assert (∀ (p : option Path) key, existing (w_fs w) p = [] →
            upload_if_exists p key w = (Ret false, w)) as Hskip.
  { intros [p|] key; [|done]. unfold existing, upload_if_exists, PyPath.exists_.
    rewrite bind_run, exists_run. by case_bool_decide. }
  intros Hv Ha Hs. unfold upload_processed_files.
  rewrite bind_run, (Hskip _ _ Hv), bind_run, (Hskip _ _ Ha), bind_run.
  destruct transcript_paths as [[json srt]|]; simpl in *;
    [by rewrite (Hskip _ _ Hs)|done].
Qed.

End Uploads.

(** ** The speech model *)

#[global] Instance no_speech_preorder : PreOrder no_speech.
Proof.
  split.
  - by intros w.
  - intros w1 w2 w3 [? ?] [? ?]. split; congruence.
Qed.

Lemma filter_speech_snoc (t : list event) (e : event) :
  List.filter speech (t ++ [e])
  = List.filter speech t ++ (if speech e then [e] else []).
Proof. rewrite List.filter_app. simpl. by destruct (speech e). Qed.

Ltac no_speech_primitive :=
  intros w; repeat case_match; simpl; split; simpl;
  rewrite ?filter_speech_snoc, ?app_nil_r; done.

Section Speech.
Context `{External}.

Lemma no_speech_exists p : keeps no_speech (Fs.exists_ p).
Proof. unfold Fs.exists_. no_speech_primitive. Qed.
Lemma no_speech_makedirs p : keeps no_speech (Fs.makedirs p).
Proof. unfold Fs.makedirs. no_speech_primitive. Qed.
Lemma no_speech_open_w p : keeps no_speech (Fs.open_w p).
Proof. unfold Fs.open_w. no_speech_primitive. Qed.
Lemma no_speech_append p d : keeps no_speech (Fs.append p d).
Proof. unfold Fs.append. no_speech_primitive. Qed.
Lemma no_speech_read p : keeps no_speech (Fs.read p).
Proof. unfold Fs.read. no_speech_primitive. Qed.
Lemma no_speech_unlink p : keeps no_speech (Fs.unlink p).
Proof. unfold Fs.unlink. no_speech_primitive. Qed.
Lemma no_speech_rmtree p : keeps no_speech (Fs.rmtree p).
Proof. unfold Fs.rmtree. no_speech_primitive. Qed.
Lemma no_speech_subprocess_run cmd target : keeps no_speech (subprocess_run cmd target).
Proof. unfold subprocess_run. no_speech_primitive. Qed.
Lemma no_speech_list prefix : keeps no_speech (s3_list_objects_v2 prefix).
Proof. unfold s3_list_objects_v2. no_speech_primitive. Qed.
Lemma no_speech_download key p : keeps no_speech (s3_download_file key p).
Proof. unfold s3_download_file. no_speech_primitive. Qed.
Lemma no_speech_upload p key : keeps no_speech (s3_upload_file p key).
Proof. unfold s3_upload_file. no_speech_primitive. Qed.
Lemma no_speech_now : keeps no_speech now_stamp.
Proof. unfold now_stamp. no_speech_primitive. Qed.
Lemma no_speech_mkdtemp : keeps no_speech mkdtemp.
Proof. unfold mkdtemp. no_speech_primitive. Qed.
Lemma no_speech_find self : keeps no_speech (Locator.find_chunk_sequences self).
Proof. unfold Locator.find_chunk_sequences. no_speech_primitive. Qed.

#[local] Hint Resolve no_speech_exists no_speech_makedirs no_speech_open_w
  no_speech_append no_speech_read no_speech_unlink no_speech_rmtree
  no_speech_subprocess_run no_speech_list no_speech_download no_speech_upload
  no_speech_now no_speech_mkdtemp no_speech_find : keeps.

Lemma no_speech_run_ffmpeg cmd : keeps no_speech (run_ffmpeg cmd).
Proof. unfold run_ffmpeg. keeps_auto. Qed.

Lemma no_speech_unlink_if_exists p : keeps no_speech (unlink_if_exists p).
Proof. unfold unlink_if_exists, PyPath.exists_. keeps_auto. Qed.

#[local] Hint Resolve no_speech_run_ffmpeg no_speech_unlink_if_exists : keeps.

Lemma no_speech_concatenate chunks out ty :
  keeps no_speech (concatenate_raw_chunks chunks out ty).
Proof. unfold concatenate_raw_chunks, splice_and_remux. keeps_auto. Qed.

Lemma no_speech_upload_processed_files self v a t :
  keeps no_speech (upload_processed_files self v a t).
Proof.
  unfold upload_processed_files, upload_if_exists, upload_file, PyPath.exists_.
  keeps_auto.
Qed.

Lemma no_speech_cleanup self : keeps no_speech (cleanup_local_files self).
Proof. unfold cleanup_local_files, rmtree_if_exists. keeps_auto. Qed.

(** With transcription skipped no WAV is extracted for the speech model. *)
Lemma extract_wav_skipped (audio : option Path) (temp_dir : string) :
  extract_wav_for_transcription audio temp_dir true = mret None.
Proof. by destruct audio. Qed.

Lemma generate_transcript_skipped (self : VideoPipeline) (wav : option Path)
    (dir : string) :
  generate_transcript self wav dir true = mret (None, None).
Proof. by destruct wav. Qed.

#[local] Hint Resolve no_speech_concatenate no_speech_upload_processed_files
  no_speech_cleanup : keeps.

Lemma no_speech_process_skipping self : keeps no_speech (process self true).
Proof.
  assert (∀ processor dir temp_dir audio,
            keeps no_speech (finish_assembly self processor dir true temp_dir audio))
    as Hfinish.
  { intros processor dir temp_dir audio. unfold finish_assembly.
    rewrite extract_wav_skipped.
    apply (keeps_bind no_speech); [solve [keeps_auto]|]. intros wav.
    rewrite generate_transcript_skipped.
    unfold save_final_audio, mux_video_audio_with_captions, srt_available,
      PyPath.exists_. keeps_auto. }
  unfold process, VideoProcessor_init, with_tempdir, assemble_and_mux, assemble_audio.
  keeps_auto.
Qed.

#[local] Hint Resolve no_speech_process_skipping : keeps.

(** X6: a run started with [skip_transcription] never touches the speech
    model: whatever the bucket, the disk and the collaborators do, no model is
    loaded and nothing is transcribed between the start of the run and its
    end, and the loaded model, if any, is the one there was before. *)
Theorem skipped_transcription_never_uses_speech_model (self : VideoPipeline)
    (cleanup : bool) (w : World) :
  w_model (run self cleanup true w).2 = w_model w ∧
  List.filter speech (w_trace (run self cleanup true w).2)
  = List.filter speech (w_trace w).
Proof.
  assert (keeps no_speech (run self cleanup true)) as Hkeeps.
  { unfold run, run_stages, check_ffmpeg, download_chunks, download_one, publish.
    keeps_auto. }
  exact (Hkeeps w).
Qed.

(** X7: [load_model] never raises and loads at most once.  If a model is
    loaded it returns [True] without any external call; otherwise it makes one
    attempt: on success the model is loaded, so every later call is free; on
    failure it returns [False] and no model is loaded. *)
Theorem load_model_loads_once (self : WhisperTranscriber) (w : World) :
  ∃ b w',
    load_model self w = (Ret b, w') ∧
    (is_Some (w_model w) → b = true ∧ w' = w) ∧
    (w_model w = None →
       w_trace w' = w_trace w ++ [EvLoadModel (model_size self) b] ∧
       w_fs w' = w_fs w ∧ w_bucket w' = w_bucket w) ∧
    (b = true → is_Some (w_model w') ∧ load_model self w' = (Ret true, w')) ∧
    (b = false → w_model w' = None).
Proof.
  unfold load_model at 1.
  destruct (w_model w) as [size|] eqn:Hm.
  - exists true, w. split; [done|]. split; [done|]. split; [done|].
    split; [|done]. intros _. split; [by rewrite Hm|].
    unfold load_model. by rewrite Hm.
  - unfold try_except. rewrite bind_run. unfold whisper_load_model.
    destruct (ext_load_model (clock w) (model_size self)); simpl;
      eexists _, _; (split; [reflexivity|]); simpl.
    + split; [by intros [? ?]|]. split; [done|]. split; [|done].
      intros _. split; [eauto|]. reflexivity.
    + split; [by intros [? ?]|]. split; [done|]. split; [done|]. done.
Qed.

End Speech.

(** ** Transcripts *)

Lemma append_ne_self (d x : string) : x ≠ "" → d +:+ x ≠ d.
Proof.
  intros Hx Heq. apply (f_equal String.length) in Heq.
  rewrite length_append in Heq. destruct x; [done|]. simpl in Heq. lia.
Qed.

Lemma path_ne_dir (d n : string) : PyPath.str (mkPath d n) ≠ d.
Proof. unfold PyPath.str. simpl. by apply append_ne_self. Qed.

Lemma transcript_paths_differ (d stamp : string) :
  PyPath.str (mkPath d ("transcript_" +:+ stamp +:+ ".srt"))
  ≠ PyPath.str (mkPath d ("transcript_" +:+ stamp +:+ ".json")).
Proof.
  unfold PyPath.str. simpl. intros Heq.
  apply (append_inv_head d), (append_inv_head "/"),
    (append_inv_head "transcript_"), (append_inv_head stamp) in Heq.
  discriminate Heq.
Qed.

Section Transcripts.
Context `{External}.

#[global] Instance nothing_published_preorder : PreOrder nothing_published.
Proof.
  split.
  - by intros w.
  - intros w1 w2 w3 [? ?] [? ?]. split; congruence.
Qed.

Lemma quiet_keeps {A} (m : M A) : quiet m → keeps nothing_published m.
Proof. intros Hq w. exact (Hq w). Qed.

(** X8: [transcribe_audio] never raises and publishes nothing.  If no model
    is loaded and loading fails, it returns [None] after that one attempt; if
    the model is loaded and the transcription raises, it returns [None] after
    that one call; in both cases the disk is untouched. *)
Theorem transcribe_audio_fails_quietly (self : WhisperTranscriber) (audio : Path)
    (output_dir meeting_id take user_id : string) (w : World) :
  ∃ r w',
    transcribe_audio self audio output_dir meeting_id take user_id w = (Ret r, w') ∧
    nothing_published w w' ∧
    (w_model w = None → ext_load_model (clock w) (model_size self) = false →
       r = None ∧ w' = add_event (EvLoadModel (model_size self) false) w) ∧
    (is_Some (w_model w) → ext_transcribe (clock w) (PyPath.str audio) = None →
       r = None ∧ w' = add_event (EvTranscribe (PyPath.str audio) false) w).
Proof.
  pose proof (quiet_keeps _ (quiet_transcribe_audio self audio output_dir meeting_id
                               take user_id) w) as Hquiet.
  unfold transcribe_audio in *. rewrite bind_run in *. unfold load_model in *.
  destruct (w_model w) as [size|] eqn:Hm.
  - simpl in *. unfold try_except in *. rewrite bind_run in *.
    unfold transcribe_and_save in *. rewrite bind_run in *.
    unfold whisper_transcribe in *.
    destruct (ext_transcribe (clock w) (PyPath.str audio)) as [result|] eqn:Ht.
    + match goal with
      | |- context [match ?x with _ => _ end] =>
          destruct x as [[a|e] w1] eqn:Hrest
      end; simpl in *; eexists _, _; (split; [reflexivity|]);
        (split; [exact Hquiet|]); by split.
    + simpl in *. eexists _, _. split; [reflexivity|]. split; [exact Hquiet|].
      by split.
  - unfold try_except in *. rewrite bind_run in *. unfold whisper_load_model in *.
    destruct (ext_load_model (clock w) (model_size self)) eqn:Hl; simpl in *.
    + unfold try_except in *.
      match goal with
      | |- context [match ?x with _ => _ end] =>
          destruct x as [[a|e] w1] eqn:Hrest
      end; simpl in *; eexists _, _; (split; [reflexivity|]);
        (split; [exact Hquiet|]); (split; [done|]); by intros [? ?].
    + eexists _, _. split; [reflexivity|]. split; [exact Hquiet|].
      split; [done|]. by intros [? ?].
Qed.

(** X9: with the model loaded, a transcription that succeeds, and paths
    that can be written, [transcribe_audio] first writes the structured
    transcript [transcript_<stamp>.json], holding the job's identifiers, the
    stamp, the model, the language (["unknown"] when none was detected), the
    stripped text and the segments, and then derives the subtitles.  If the
    subtitles can be formatted it writes [transcript_<stamp>.srt] beside it
    and returns the two paths; if formatting a timestamp raises, it returns
    [None], writes no subtitle file, and leaves the structured transcript on
    disk. *)
Theorem transcribe_audio_writes_transcript_before_subtitles
    (self : WhisperTranscriber) (audio : Path)
    (output_dir meeting_id take user_id : string) (w : World)
    (result : whisper_result) :
  is_Some (w_model w) →
  ext_transcribe (clock w) (PyPath.str audio) = Some result →
  (∀ c, w_fs w !! output_dir ≠ Some (NFile c)) →
  w_fs w !! PyPath.str (mkPath output_dir
              ("transcript_" +:+ ext_now (S (clock w)) +:+ ".json")) ≠ Some NDir →
  w_fs w !! PyPath.str (mkPath output_dir
              ("transcript_" +:+ ext_now (S (clock w)) +:+ ".srt")) ≠ Some NDir →
  let stamp := ext_now (S (clock w)) in
  let json := mkPath output_dir ("transcript_" +:+ stamp +:+ ".json") in
  let srt := mkPath output_dir ("transcript_" +:+ stamp +:+ ".srt") in
  let data :=
    TranscriptData meeting_id take user_id stamp (model_size self)
      (default "unknown" (wr_language result)) (PyStr.strip (wr_text result))
      (transcript_segments result) in
  ∃ w',
    w_trace w' = w_trace w ++ [EvTranscribe (PyPath.str audio) true; EvClock stamp] ∧
    w_fs w' !! output_dir = Some NDir ∧
    w_fs w' !! PyPath.str json = Some (NFile (ext_json_dumps data)) ∧
    match Srt.convert_to_srt result with
    | inr content =>
        transcribe_audio self audio output_dir meeting_id take user_id w
          = (Ret (Some (json, srt)), w') ∧
        w_fs w' !! PyPath.str srt = Some (NFile content)
    | inl _ =>
        transcribe_audio self audio output_dir meeting_id take user_id w
          = (Ret None, w') ∧
        w_fs w' !! PyPath.str srt = w_fs w !! PyPath.str srt
    end.
Proof.
  intros [size Hm] Ht Hdir Hjson Hsrt. cbv zeta.
  set (stamp := ext_now (S (clock w))).
  set (json := mkPath output_dir ("transcript_" +:+ stamp +:+ ".json")) in *.
  set (srt := mkPath output_dir ("transcript_" +:+ stamp +:+ ".srt")) in *.
  pose proof (path_ne_dir output_dir ("transcript_" +:+ stamp +:+ ".json")) as Hjd.
  pose proof (path_ne_dir output_dir ("transcript_" +:+ stamp +:+ ".srt")) as Hsd.
  pose proof (transcript_paths_differ output_dir stamp) as Hsj.
  fold json in Hjd, Hsj. fold srt in Hsd, Hsj.
  assert (∀ (A : Type) (a b : A),
            match w_fs w !! output_dir with
            | Some (NFile _) => a
            | _ => b
            end = b) as Hmk.
  { intros A a b. destruct (w_fs w !! output_dir) as [[c|]|] eqn:Hd; try done.
    by destruct (Hdir c). }
  assert (∀ (A : Type) (a b : A),
            match w_fs w !! PyPath.str json with
            | Some NDir => a
            | _ => b
            end = b) as Hoj.
  { intros A a b. by destruct (w_fs w !! PyPath.str json) as [[c|]|] eqn:Hd. }
  assert (∀ (A : Type) (a b : A),
            match w_fs w !! PyPath.str srt with
            | Some NDir => a
            | _ => b
            end = b) as Hos.
  { intros A a b. by destruct (w_fs w !! PyPath.str srt) as [[c|]|] eqn:Hd. }
  assert (clock (set_fs <[output_dir:=NDir]>
                   (add_event (EvTranscribe (PyPath.str audio) true) w))
          = S (clock w)) as Hclock
    by (unfold clock; simpl; rewrite length_app; simpl; lia).
  unfold transcribe_audio, load_model, try_except, transcribe_and_save,
    whisper_transcribe, Fs.makedirs, now_stamp, Fs.open_w, Fs.append, lift_exn, raise.
  unfold mbind, M_bind, mret, M_ret. rewrite Hm. cbn [negb]. rewrite Ht.
  cbn [w_fs add_event set_fs]. rewrite !Hmk.
  cbn [w_fs add_event set_fs]. rewrite Hclock. fold stamp.
  rewrite !lookup_insert_ne by done. rewrite !Hoj.
  cbn [w_fs add_event set_fs]. rewrite !lookup_insert_eq.
  destruct (Srt.convert_to_srt result) as [e|content] eqn:Hconv;
    cbv beta iota; cbn [w_fs add_event set_fs w_trace];
    rewrite ?lookup_insert_ne by done; rewrite ?Hos;
    cbn [w_fs add_event set_fs w_trace]; rewrite ?lookup_insert_eq;
    (eexists; split; [|split; [|split; [|split; [reflexivity|]]]];
     cbn [w_fs add_event set_fs w_trace];
     [by rewrite <- app_assoc
     |by rewrite ?lookup_insert_ne, lookup_insert_eq by done
     |by rewrite ?lookup_insert_ne, lookup_insert_eq by done
     |by rewrite ?lookup_insert_eq, ?lookup_insert_ne by done]).
Qed.

End Transcripts.

(** ** The command line and the endpoint *)

Ltac run_endpoint :=
  unfold Routes.submit_data, try_except, Routes.submit_data_body, Routes.get_or,
    Driver.set_config, lift_exn, PyVal.get in *;
  unfold mbind, M_bind, mret, M_ret, raise, print in *; simpl in *.

Section FrontEndTotal.
Context `{External}.

Lemma scan_args_status (argv : list string) :
  ∀ (o : cli_options) (status : nat),
    (Cli.scan_args argv o).2 = inl status →
    status ≤ 1 ∧ (status = 0 → "--help" ∈ argv).
Proof.
  remember (length argv) as n eqn:Hn. revert argv Hn.
  induction n as [n IH] using lt_wf_ind. intros argv Hn o status.
  destruct argv as [|arg rest]; simpl; [done|].
  repeat case_bool_decide; simpl.
  - intros Hr. edestruct (IH (length rest)) as [Hle Hhelp];
      [simpl in Hn; lia|reflexivity|exact Hr|].
    split; [done|]. intros Hs. right. by apply Hhelp.
  - intros Hr. edestruct (IH (length rest)) as [Hle Hhelp];
      [simpl in Hn; lia|reflexivity|exact Hr|].
    split; [done|]. intros Hs. right. by apply Hhelp.
  - destruct rest as [|model rest']; simpl.
    + intros [= <-]. split; [lia|done].
    + intros Hr. edestruct (IH (length rest')) as [Hle Hhelp];
        [simpl in Hn; lia|reflexivity|exact Hr|].
      split; [done|]. intros Hs. do 2 right. by apply Hhelp.
  - intros [= <-]. split; [lia|]. intros _. subst arg. left.
  - intros [= <-]. split; [lia|done].
Qed.

Lemma build_and_run_fails (o : cli_options) w :
  Cli.build_and_run o w = (Ret 1, w).
Proof.
  unfold Cli.build_and_run, try_except.
  by rewrite bind_run, VideoPipeline_new_keyword_only.
Qed.

(** X10: the command line never gets a pipeline to run.  For every argument
    list [main] ends with an exit status of 0 or 1 having created, fetched,
    loaded, run and uploaded nothing; status 0 is reached by [--help] alone.
    With arguments that parse and name a valid model, the call
    [VideoPipeline(whisper_model=...)] lacks its seven required arguments, so
    the process ends with status 1 before any stage. *)
Theorem command_line_never_runs_pipeline (argv : list string) (w : World) :
  ∃ status w',
    Cli.main argv w = (Ret status, w') ∧
    no_work_done w w' ∧
    status ≤ 1 ∧
    (status = 0 → "--help" ∈ argv) ∧
    (∀ o, (Cli.scan_args argv (CliOptions true false "base")).2 = inr o → status = 1).
Proof.
  unfold Cli.main, Cli.parse_args.
  rewrite bind_run, print_run, bind_run, print_run, bind_run, bind_run.
  match goal with
  | |- context [for_each ?l print ?x] =>
      destruct (print_all_frame l x) as (w1 & -> & Hw1)
  end.
  rewrite ret_run.
  assert (no_work_done w w1) as Hw.
  { destruct Hw1 as (? & ? & ? & ?). repeat split; simpl in *; congruence. }
  destruct (Cli.scan_args argv (CliOptions true false "base")).2 as [status|o] eqn:Hscan.
  - destruct (scan_args_status _ _ _ Hscan) as [Hle Hhelp].
    exists status, w1. rewrite ret_run.
    split; [done|]. split; [exact Hw|]. split; [done|]. split; [done|]. by intros o'.
  - case_bool_decide.
    + rewrite build_and_run_fails. exists 1, w1.
      split; [done|]. split; [exact Hw|]. split; [lia|]. split; [done|]. by intros o'.
    + rewrite bind_run, print_run, bind_run, print_run, ret_run.
      eexists 1, _. split; [reflexivity|].
      split; [|split; [lia|split; [done|by intros o']]].
      destruct Hw as (? & ? & ? & ?). repeat split; simpl in *; congruence.
Qed.

(** [set_config] on identifiers that are not all text. *)
Lemma set_config_not_text (meeting_id take user_id : pyval) (w : World) :
  PyVal.as_str meeting_id = None ∨ PyVal.as_str take = None ∨
  PyVal.as_str user_id = None →
  Driver.set_config meeting_id take user_id w
  = (Raise (TypeError "sequence item: expected str instance" []),
     set_globals
       (DriverGlobals meeting_id take user_id "recordings"
          (g_DIR (w_globals w)) (g_REMOTE_DIR (w_globals w))
          (g_LOCAL_DIR (w_globals w)) (g_OUTPUT_DIR (w_globals w))
          (g_UPLOAD_DIR (w_globals w))) w).
Proof.
  unfold Driver.set_config.
  destruct (PyVal.as_str meeting_id), (PyVal.as_str take), (PyVal.as_str user_id);
    intros [?|[?|?]]; done.
Qed.

(** X11: [set_config] stores the three identifiers in the module globals
    before it joins them.  Given an identifier that is not text it raises
    [TypeError], but the globals [MEETING_ID], [TAKE] and [USER_ID] already
    hold the new values, beside directory globals that still describe the
    previous job; nothing else has changed.  Given three strings it returns
    the job's configuration and stores all nine globals consistently. *)
Theorem set_config_stores_identifiers_first (meeting_id take user_id : pyval)
    (w : World) :
  ∃ r w',
    Driver.set_config meeting_id take user_id w = (r, w') ∧
    g_MEETING_ID (w_globals w') = meeting_id ∧
    g_TAKE (w_globals w') = take ∧
    g_USER_ID (w_globals w') = user_id ∧
    w_fs w' = w_fs w ∧ w_bucket w' = w_bucket w ∧ w_trace w' = w_trace w ∧
    w_log w' = w_log w ∧
    match PyVal.as_str meeting_id, PyVal.as_str take, PyVal.as_str user_id with
    | Some m, Some t, Some u =>
        r = Ret (Driver.job_config m t u) ∧
        g_REMOTE_DIR (w_globals w') = Some ("recordings/" +:+ m +:+ "/" +:+ t +:+ "/" +:+ u) ∧
        g_LOCAL_DIR (w_globals w') = Some ("../chunks/" +:+ m +:+ "/" +:+ t +:+ "/" +:+ u) ∧
        g_OUTPUT_DIR (w_globals w')
          = Some ("../recordings/" +:+ m +:+ "/" +:+ t +:+ "/" +:+ u) ∧
        g_UPLOAD_DIR (w_globals w') = Some ("recordings/" +:+ m +:+ "/" +:+ t)
    | _, _, _ =>
        (∃ reason names, r = Raise (TypeError reason names)) ∧
        g_DIR (w_globals w') = g_DIR (w_globals w) ∧
        g_REMOTE_DIR (w_globals w') = g_REMOTE_DIR (w_globals w) ∧
        g_LOCAL_DIR (w_globals w') = g_LOCAL_DIR (w_globals w) ∧
        g_OUTPUT_DIR (w_globals w') = g_OUTPUT_DIR (w_globals w) ∧
        g_UPLOAD_DIR (w_globals w') = g_UPLOAD_DIR (w_globals w)
    end.
Proof.
  unfold Driver.set_config.
  destruct (PyVal.as_str meeting_id) as [m|], (PyVal.as_str take) as [t|],
    (PyVal.as_str user_id) as [u|];
    eexists _, _; (split; [reflexivity|]); simpl; repeat split; eauto.
Qed.

(** X12: [submit_data] never raises and never does pipeline work itself.
    Every request gets a response whose status is 200, 400 or 500; a thread
    is started exactly when the status is 200; and the endpoint leaves the
    disk, the bucket, the loaded model and the trace of external calls as they
    were.  A request that is not a JSON object, or whose body could not be
    parsed, is answered 400 when it is false in the sense of Python and 500
    otherwise. *)
Theorem submit_data_always_answers (request : exn + pyval) (w : World) :
  ∃ resp thread w1,
    Routes.submit_data request w = (Ret (resp, thread), w1) ∧
    (status_code resp = 200 ∨ status_code resp = 400 ∨ status_code resp = 500) ∧
    (is_Some thread ↔ status_code resp = 200) ∧
    no_work_done w w1 ∧
    (∀ e, request = inl e → status_code resp = 500) ∧
    (∀ data, request = inr data → (∀ d, data ≠ PDict d) →
       status_code resp = if PyVal.truthy data then 500 else 400).
Proof.
  assert (∀ (resp : response) (thread : option (M unit)) (w1 : World) (r : _),
            r = (Ret (resp, thread), w1) →
            (status_code resp = 200 ∧ is_Some thread ∨
             (status_code resp = 400 ∨ status_code resp = 500) ∧ thread = None) →
            no_work_done w w1 →
            ∃ resp thread w1,
              r = (Ret (resp, thread), w1) ∧
              (status_code resp = 200 ∨ status_code resp = 400 ∨
               status_code resp = 500) ∧
              (is_Some thread ↔ status_code resp = 200) ∧
              no_work_done w w1) as Hpack.
  { intros resp thread w1 r -> Hstatus Hw. exists resp, thread, w1.
    split; [done|]. split; [tauto|]. split; [|done].
    destruct Hstatus as [[-> ?]|[[-> | ->] ->]]; split; try done;
      by intros [? ?]. }
  assert (∀ P : Prop, P → P) as Hid by done.
  destruct request as [e|data].
  { eexists _, _, _. run_endpoint. split; [reflexivity|]. simpl.
    split; [tauto|]. split; [split; [by intros [? ?]|done]|].
    split; [by repeat split|]. split; [done|]. by intros data. }
  destruct data as [| b | z | s | l | d].
  1-5: (match goal with
        | |- context [@inr exn pyval ?x] => destruct (PyVal.truthy x) eqn:Htruthy
        end;
        run_endpoint; rewrite ?Htruthy; simpl; try discriminate;
        eexists _, _, _; (split; [reflexivity|]); simpl;
        (split; [tauto|]); (split; [split; [by intros [? ?]|done]|]);
        (split; [by repeat split|]); (split; [done|]);
        intros data' [= <-] _; simpl; by rewrite ?Htruthy).
  (* a JSON object *)
  enough (∃ resp thread w1,
            Routes.submit_data (inr (PDict d)) w = (Ret (resp, thread), w1) ∧
            (status_code resp = 200 ∨ status_code resp = 400 ∨
             status_code resp = 500) ∧
            (is_Some thread ↔ status_code resp = 200) ∧
            no_work_done w w1) as (resp & thread & w1 & ? & ? & ? & ?).
  { exists resp, thread, w1. do 4 (split; [done|]). split; [done|].
    intros data [= <-] Hnot. by destruct (Hnot d). }
  run_endpoint.
  set (fm := List.find (λ kv : string * pyval, bool_decide (kv.1 = "meeting_id")) d) in *.
  set (ft := List.find (λ kv : string * pyval, bool_decide (kv.1 = "take")) d) in *.
  set (fu := List.find (λ kv : string * pyval, bool_decide (kv.1 = "user_id")) d) in *.
  set (fw := List.find (λ kv : string * pyval, bool_decide (kv.1 = "whisper_model")) d) in *.
  set (xm := default PNone (snd <$> fm)).
  set (xt := default PNone (snd <$> ft)).
  set (xu := default PNone (snd <$> fu)).
  destruct (match d with [] => false | _ :: _ => true end); simpl;
    [|eapply Hpack; [reflexivity|right; eauto|by repeat split]].
  destruct (PyVal.truthy xm); simpl;
    [|eapply Hpack; [reflexivity|right; eauto|by repeat split]].
  destruct (PyVal.truthy xt); simpl;
    [|eapply Hpack; [reflexivity|right; eauto|by repeat split]].
  destruct (PyVal.truthy xu); simpl;
    [|eapply Hpack; [reflexivity|right; eauto|by repeat split]].
  destruct (PyVal.as_str xm) as [m|]; simpl;
    [|eapply Hpack; [reflexivity|right; eauto|by repeat split]].
  destruct (PyVal.as_str xt) as [t|]; simpl;
    [|eapply Hpack; [reflexivity|right; eauto|by repeat split]].
  destruct (PyVal.as_str xu) as [u|]; simpl;
    [|eapply Hpack; [reflexivity|right; eauto|by repeat split]].
  destruct (default (PStr "base") (snd <$> fw)) as [| | |model| |]; simpl;
    try (eapply Hpack; [reflexivity|right; eauto|by repeat split]).
  case_bool_decide;
    (eapply Hpack; [reflexivity| |by repeat split]); simpl; eauto.
Qed.

End FrontEndTotal.

(** ** The assembler: what the remux is run on *)

Lemma set_fs_set_fs (f g : gmap string node → gmap string node) w :
  set_fs g (set_fs f w) = set_fs (λ fs, g (f fs)) w.
Proof. done. Qed.

Lemma set_fs_ext (f g : gmap string node → gmap string node) w :
  f (w_fs w) = g (w_fs w) → set_fs f w = set_fs g w.
Proof. unfold set_fs. by intros ->. Qed.

Lemma delete_insert_scratch (t o : string) (v d : node) (m : gmap string node) :
  delete t (<[o := v]> (<[t := d]> m)) = delete t (<[o := v]> m).
Proof.
  apply map_eq. intros k. destruct (decide (k = t)) as [->|Hk].
  - by rewrite !lookup_delete_eq.
  - rewrite !lookup_delete_ne by done. destruct (decide (o = k)) as [->|Ho].
    + by rewrite !lookup_insert_eq.
    + rewrite !lookup_insert_ne; done.
Qed.

Lemma scratch_still_file (t o v d : string) (m : gmap string node) :
  ∃ c, <[o := NFile v]> (<[t := NFile d]> m) !! t = Some (NFile c).
Proof.
  destruct (decide (o = t)) as [->|Ho].
  - eexists. apply lookup_insert_eq.
  - exists d. rewrite lookup_insert_ne by done. apply lookup_insert_eq.
Qed.

Section Splice.
Context `{External}.

(** The splice loop appends the bytes of the chunks, in list order, to what
    the scratch file holds. *)
Lemma splice_loop_run (temp : Path) (chunks : list chunk) (data acc : string) w :
  chunk_bytes (w_fs w) chunks = Some data →
  Forall (λ c : chunk, PyPath.str c.2 ≠ PyPath.str temp) chunks →
  for_each chunks (λ c : chunk,
    data ← Fs.read (PyPath.str c.2);
    Fs.append (PyPath.str temp) data)
    (set_fs (insert (PyPath.str temp) (NFile acc)) w)
  = (Ret tt, set_fs (insert (PyPath.str temp) (NFile (acc +:+ data))) w).
Proof.
  revert data acc. induction chunks as [|c chunks IH]; intros data acc Hbytes Hne.
  - simpl in Hbytes. injection Hbytes as <-. by rewrite append_nil_r.
  - simpl in Hbytes. inversion Hne as [|? ? Hc Hrest]; subst.
    destruct (w_fs w !! PyPath.str c.2) as [[d|]|] eqn:Hd; try done.
    destruct (chunk_bytes (w_fs w) chunks) as [more|] eqn:Hmore; [|done].
    injection Hbytes as <-.
    cbn [for_each]. rewrite bind_run, bind_run.
    unfold Fs.read at 1. cbn [w_fs set_fs]. rewrite lookup_insert_ne by done. rewrite Hd.
    unfold Fs.append at 1. cbn [w_fs set_fs]. rewrite lookup_insert_eq.
    rewrite set_fs_set_fs.
    rewrite (set_fs_ext _ (insert (PyPath.str temp) (NFile (acc +:+ d))))
      by apply insert_insert_eq.
    rewrite (IH more (acc +:+ d)) by done.
    by rewrite append_assoc.
Qed.

(** With a chunk that is not a regular file, the loop raises, and only the
    scratch file has changed. *)
Lemma splice_loop_unreadable (temp : Path) (chunks : list chunk) (acc : string) w :
  chunk_bytes (w_fs w) chunks = None →
  Forall (λ c : chunk, PyPath.str c.2 ≠ PyPath.str temp) chunks →
  ∃ e acc',
    for_each chunks (λ c : chunk,
      data ← Fs.read (PyPath.str c.2);
      Fs.append (PyPath.str temp) data)
      (set_fs (insert (PyPath.str temp) (NFile acc)) w)
    = (Raise e, set_fs (insert (PyPath.str temp) (NFile acc')) w).
Proof.
  revert acc. induction chunks as [|c chunks IH]; intros acc Hbytes Hne; [done|].
  simpl in Hbytes. inversion Hne as [|? ? Hc Hrest]; subst.
  cbn [for_each]. rewrite bind_run, bind_run.
  unfold Fs.read at 1. cbn [w_fs set_fs]. rewrite lookup_insert_ne by done.
  destruct (w_fs w !! PyPath.str c.2) as [[d|]|] eqn:Hd.
  - unfold Fs.append at 1. cbn [w_fs set_fs]. rewrite lookup_insert_eq.
    rewrite set_fs_set_fs.
    rewrite (set_fs_ext _ (insert (PyPath.str temp) (NFile (acc +:+ d))))
      by apply insert_insert_eq.
    apply IH; [|done]. by destruct (chunk_bytes (w_fs w) chunks).
  - by exists IsADirectoryError, acc.
  - by exists FileNotFoundError, acc.
Qed.

Lemma open_scratch (temp : Path) w :
  w_fs w !! PyPath.str temp ≠ Some NDir →
  Fs.open_w (PyPath.str temp) w
  = (Ret tt, set_fs (insert (PyPath.str temp) (NFile "")) w).
Proof. intros Hnd. unfold Fs.open_w. by destruct (w_fs w !! PyPath.str temp) as [[]|]. Qed.

(** What [concatenate_raw_chunks] does when every chunk can be read. *)
Lemma concatenate_run (chunks : list chunk)
    (output_path temp : Path) (chunk_type data : string) (w : World) :
  chunks ≠ [] →
  PyPath.with_suffix output_path ".temp.webm" = inr temp →
  chunk_bytes (w_fs w) chunks = Some data →
  Forall (λ c : chunk, PyPath.str c.2 ≠ PyPath.str temp) chunks →
  w_fs w !! PyPath.str temp ≠ Some NDir →
  let command := remux_command temp output_path in
  let out := ext_proc (clock w) command in
  concatenate_raw_chunks chunks output_path chunk_type w
  = try_except
      (r ← run_ffmpeg command; unlink_if_exists temp;; mret r.1)
      (λ _, unlink_if_exists temp;; mret false)
      (set_fs (insert (PyPath.str temp) (NFile data)) w) ∧
  concatenate_raw_chunks chunks output_path chunk_type w
  = (Ret (match out with ProcOk _ _ => true | _ => false end),
     set_fs (λ fs, delete (PyPath.str temp)
                     match out with
                     | ProcOk _ written | ProcFail _ (Some written) =>
                         <[PyPath.str output_path := NFile written]> fs
                     | _ => fs
                     end)
       (add_event (EvProc command out) w)).
Proof.
  intros Hne Htemp Hbytes Hdistinct Hnd command out.
  assert (concatenate_raw_chunks chunks output_path chunk_type w
          = try_except
              (r ← run_ffmpeg command; unlink_if_exists temp;; mret r.1)
              (λ _, unlink_if_exists temp;; mret false)
              (set_fs (insert (PyPath.str temp) (NFile data)) w)) as Hrun.
  { unfold concatenate_raw_chunks. destruct chunks as [|c chunks]; [done|].
    rewrite Htemp, bind_run. cbn [lift_exn]. rewrite ret_run.
    unfold try_except at 1, splice_and_remux. rewrite bind_run, open_scratch by done.
    rewrite bind_run, (splice_loop_run temp (c :: chunks) data "") by done.
    done. }
  split; [exact Hrun|]. rewrite Hrun.
  assert (∀ w', is_file (PyPath.str temp) w' →
     (unlink_if_exists temp;; mret false) w'
     = (Ret false, set_fs (delete (PyPath.str temp)) w')) as Hhandler.
  { intros w' Hf. by rewrite bind_run, unlink_if_exists_file. }
  unfold try_except at 1. rewrite bind_run.
  unfold run_ffmpeg, try_except, subprocess_run. rewrite bind_run.
  change (last (remux_command temp output_path)) with (Some (PyPath.str output_path)).
  change (clock (set_fs (insert (PyPath.str temp) (NFile data)) w)) with (clock w).
  fold command. fold out.
  destruct out as [stdout written|stderr [written|]|]; cbn [mret M_ret fst].
  - rewrite bind_run, unlink_if_exists_file.
    + rewrite ret_run. f_equal. unfold set_fs, add_event. cbn. f_equal.
      apply delete_insert_scratch.
    + apply scratch_still_file.
  - rewrite bind_run, unlink_if_exists_file.
    + rewrite ret_run. f_equal. unfold set_fs, add_event. cbn. f_equal.
      apply delete_insert_scratch.
    + apply scratch_still_file.
  - rewrite bind_run, unlink_if_exists_file.
    + rewrite ret_run. f_equal. unfold set_fs, add_event. cbn. f_equal.
      apply delete_insert_eq.
    + exists data. cbn. apply lookup_insert_eq.
  - unfold raise. cbn beta iota. rewrite Hhandler.
    + f_equal. unfold set_fs, add_event. cbn. f_equal. apply delete_insert_eq.
    + exists data. cbn. apply lookup_insert_eq.
Qed.

(** X13: when every chunk is a regular file other than the scratch file,
    [concatenate_raw_chunks] runs the remux on a scratch file that holds the
    bytes of the chunks in list order, everything else on disk being as it
    was; it returns whether the tool exited with status 0, having made that
    one external call, and leaves the disk with the scratch file removed and
    the output file as the tool wrote it. *)
Theorem concatenation_remuxes_chunks_in_order (chunks : list chunk)
    (output_path temp : Path) (chunk_type data : string) (w : World) :
  chunks ≠ [] →
  PyPath.with_suffix output_path ".temp.webm" = inr temp →
  chunk_bytes (w_fs w) chunks = Some data →
  Forall (λ c : chunk, PyPath.str c.2 ≠ PyPath.str temp) chunks →
  w_fs w !! PyPath.str temp ≠ Some NDir →
  let command := remux_command temp output_path in
  let out := ext_proc (clock w) command in
  concatenate_raw_chunks chunks output_path chunk_type w
  = try_except
      (r ← run_ffmpeg command; unlink_if_exists temp;; mret r.1)
      (λ _, unlink_if_exists temp;; mret false)
      (set_fs (insert (PyPath.str temp) (NFile data)) w) ∧
  concatenate_raw_chunks chunks output_path chunk_type w
  = (Ret (match out with ProcOk _ _ => true | _ => false end),
     set_fs (λ fs, delete (PyPath.str temp)
                     match out with
                     | ProcOk _ written | ProcFail _ (Some written) =>
                         <[PyPath.str output_path := NFile written]> fs
                     | _ => fs
                     end)
       (add_event (EvProc command out) w)).
Proof. apply concatenate_run. Qed.

(** X14: when one of the chunks is not a regular file,
    [concatenate_raw_chunks] returns failure without running the tool: no
    external call is made, and the disk is as before except that the scratch
    file is gone. *)
Theorem unreadable_chunk_fails_before_remux (chunks : list chunk)
    (output_path temp : Path) (chunk_type : string) (w : World) :
  PyPath.with_suffix output_path ".temp.webm" = inr temp →
  chunk_bytes (w_fs w) chunks = None →
  Forall (λ c : chunk, PyPath.str c.2 ≠ PyPath.str temp) chunks →
  w_fs w !! PyPath.str temp ≠ Some NDir →
  concatenate_raw_chunks chunks output_path chunk_type w
  = (Ret false, set_fs (delete (PyPath.str temp)) w).
Proof.
  intros Htemp Hbytes Hdistinct Hnd.
  unfold concatenate_raw_chunks. destruct chunks as [|c chunks]; [done|].
  rewrite Htemp, bind_run. cbn [lift_exn]. rewrite ret_run.
  unfold try_except, splice_and_remux. rewrite bind_run, open_scratch by done.
  rewrite bind_run.
  destruct (splice_loop_unreadable temp (c :: chunks) "" w Hbytes Hdistinct)
    as (e & acc' & ->).
  rewrite bind_run, unlink_if_exists_file by (exists acc'; apply lookup_insert_eq).
  rewrite ret_run. f_equal. rewrite set_fs_set_fs. apply set_fs_ext.
  apply delete_insert_eq.
Qed.

End Splice.

(** ** The fetch: what a successful download leaves on disk *)

Section Fetch.
Context `{External}.

Lemma download_one_run (self : CloudflareR2Manager) (key : string) w w1 :
  download_one self key w = (Ret tt, w1) →
  ∃ data dir,
    w_bucket w !! key = Some data ∧
    (∀ c, w_fs w !! dir ≠ Some (NFile c)) ∧
    w_bucket w1 = w_bucket w ∧
    w_fs w1 = <[download_path self key := NFile data]> (<[dir := NDir]> (w_fs w)).
Proof.
  unfold download_one, download_path. rewrite bind_run.
  set (dir := r2_local_dir self +:+ _). set (p := PyStr.path_join dir _).
  unfold Fs.makedirs, s3_download_file.
  destruct (w_fs w !! dir) as [[c|]|] eqn:Hdir; [done| |];
    cbn [w_bucket set_fs];
    destruct (w_bucket w !! key) as [data|] eqn:Hkey; try done;
    destruct (ext_net _); try done;
    intros [= <-]; exists data, dir; rewrite Hdir; done.
Qed.

Lemma fetched_to_mono (self : CloudflareR2Manager) key keys bucket fs p :
  fetched_to self keys bucket fs p → fetched_to self (key :: keys) bucket fs p.
Proof.
  intros (k & d & Hk & ?). exists k, d. split; [by apply list_elem_of_further|done].
Qed.

Lemma download_loop_run (self : CloudflareR2Manager) (keys : list string) w w' :
  for_each keys (download_one self) w = (Ret tt, w') →
  w_bucket w' = w_bucket w ∧
  (∀ p c, w_fs w !! p = Some (NFile c) →
     w_fs w' !! p = Some (NFile c) ∨ fetched_to self keys (w_bucket w) (w_fs w') p) ∧
  (∀ key, key ∈ keys →
     fetched_to self keys (w_bucket w) (w_fs w') (download_path self key)).
Proof.
  revert w. induction keys as [|key keys IH]; intros w Hrun.
  - injection Hrun as <-. split; [done|]. split; [by left|].
    intros key Hkey. by apply elem_of_nil in Hkey.
  - cbn [for_each] in Hrun. rewrite bind_run in Hrun.
    destruct (download_one self key w) as [[[]|e] w1] eqn:Hone; [|done].
    destruct (download_one_run _ _ _ _ Hone) as (data & dir & Hkey & Hdir & Hb1 & Hfs1).
    destruct (IH w1 Hrun) as (Hb & Hkept & Hall). rewrite Hb1 in Hkept, Hall.
    assert (fetched_to self (key :: keys) (w_bucket w) (w_fs w')
              (download_path self key)) as Hthis.
    { destruct (Hkept (download_path self key) data) as [Hsame|Hlater].
      - rewrite Hfs1. apply lookup_insert_eq.
      - exists key, data. split; [apply list_elem_of_here|done].
      - by apply fetched_to_mono. }
    split; [congruence|]. split.
    + intros p c Hp. destruct (decide (p = download_path self key)) as [->|Hne];
        [by right|].
      assert (p ≠ dir) as Hnd by (intros ->; by apply (Hdir c)).
      destruct (Hkept p c) as [Hsame|Hlater].
      * rewrite Hfs1, !lookup_insert_ne by done. exact Hp.
      * by left.
      * right. by apply fetched_to_mono.
    + intros key' Hin. apply elem_of_cons in Hin as [->|Hin]; [exact Hthis|].
      apply fetched_to_mono. by apply Hall.
Qed.


End Fetch.

(** ** The deliverables of the two [process_chunks] *)

Section Deliverables.
Context `{External}.

Lemma deliver_mp4_pair (self : VideoProcessor) (temp_dir : string)
    (audio : option Path) :
  returns (deliver_mp4 self temp_dir audio)
    (λ r, (r.1 = None → r.2 = None) ∧
          ∃ stamp,
            (∀ v, r.1 = Some v →
               v = mkPath (video_output_dir self) ("output_" +:+ stamp +:+ ".mp4")) ∧
            (∀ a, r.2 = Some a →
               a = mkPath (audio_output_dir self) ("audio_" +:+ stamp +:+ ".wav"))).
Proof.
  unfold deliver_mp4.
  eapply returns_bind; [apply returns_any|]. intros stamp _.
  eapply returns_bind; [apply returns_any|]. intros there _.
  destruct audio as [audio|], there.
  - eapply returns_bind with
      (P := λ s, ∀ p, s = Some p →
              p = mkPath (audio_output_dir self) ("audio_" +:+ stamp +:+ ".wav")).
    { apply returns_try_except.
      - eapply returns_bind; [apply returns_any|]. intros r _.
        apply returns_ret. destruct r.1; congruence.
      - intros e. by apply returns_ret. }
    intros saved Hsaved.
    eapply returns_bind; [apply returns_any|]. intros r _.
    apply returns_ret. destruct r.1; cbn [fst snd].
    + split; [done|]. exists stamp. split; [by intros v [= <-]|exact Hsaved].
    + split; [done|]. by exists stamp.
  - eapply returns_bind; [apply returns_any|]. intros r _.
    apply returns_ret. destruct r.1; cbn [fst snd]; (split; [done|]); exists stamp;
      split; by intros ? [= <-].
  - eapply returns_bind; [apply returns_any|]. intros r _.
    apply returns_ret. destruct r.1; cbn [fst snd]; (split; [done|]); exists stamp;
      split; by intros ? [= <-].
  - eapply returns_bind; [apply returns_any|]. intros r _.
    apply returns_ret. destruct r.1; cbn [fst snd]; (split; [done|]); exists stamp;
      split; by intros ? [= <-].
Qed.

(** X16: whenever [VideoProcessor.process_chunks] of [app/worker.py]
    returns, it reports an audio deliverable only together with a video: a
    failed final encode gives [(None, None)] even when the WAV had been
    saved.  The video it reports is [output_<stamp>.mp4] in the video output
    directory and the audio [audio_<stamp>.wav] in the audio output directory,
    both with the stamp of one clock reading. *)
Theorem process_chunks_reports_audio_only_with_video (self : VideoProcessor)
    (w w' : World) (r : option Path * option Path) :
  process_chunks self w = (Ret r, w') →
  (r.1 = None → r.2 = None) ∧
  ∃ stamp,
    (∀ v, r.1 = Some v →
       v = mkPath (video_output_dir self) ("output_" +:+ stamp +:+ ".mp4")) ∧
    (∀ a, r.2 = Some a →
       a = mkPath (audio_output_dir self) ("audio_" +:+ stamp +:+ ".wav")).
Proof.
  revert w r w'.
  change (returns (process_chunks self)
    (λ r, (r.1 = None → r.2 = None) ∧
          ∃ stamp,
            (∀ v, r.1 = Some v →
               v = mkPath (video_output_dir self) ("output_" +:+ stamp +:+ ".mp4")) ∧
            (∀ a, r.2 = Some a →
               a = mkPath (audio_output_dir self) ("audio_" +:+ stamp +:+ ".wav")))).
  unfold process_chunks.
  eapply returns_bind; [apply returns_any|]. intros chunks _.
  destruct chunks.1 as [|c l].
  { apply returns_ret. split; [done|]. by exists "". }
  unfold with_tempdir.
  eapply returns_bind; [apply returns_any|]. intros temp_dir _.
  apply returns_try_finally.
  eapply returns_bind; [apply returns_any|]. intros ok _.
  destruct (negb ok).
  { apply returns_ret. split; [done|]. by exists "". }
  eapply returns_bind; [apply returns_any|]. intros audio _.
  apply deliver_mp4_pair.
Qed.

Lemma save_audio_names (audio : option Path) (final : Path) :
  returns (ChunksToVideo.save_audio audio final) (λ s, ∀ p, s = Some p → p = final).
Proof.
  unfold ChunksToVideo.save_audio.
  destruct audio as [audio|]; [|by apply returns_ret].
  eapply returns_bind; [apply returns_any|]. intros there _.
  destruct there; [|by apply returns_ret].
  apply returns_try_except.
  - eapply returns_bind; [apply returns_any|]. intros r _.
    apply returns_ret. destruct r.1; congruence.
  - intros e. by apply returns_ret.
Qed.

Lemma finish_names (video : Path) (audio : option Path) (final : Path) :
  returns (ChunksToVideo.finish video audio final) (λ s, ∀ p, s = Some p → p = final).
Proof.
  unfold ChunksToVideo.finish.
  eapply returns_bind; [apply returns_any|]. intros there _.
  destruct audio as [audio|], there.
  - eapply returns_bind; [apply returns_any|]. intros muxed _.
    apply returns_ret. destruct muxed; congruence.
  - apply returns_try_except; [|intros e; by apply returns_ret].
    eapply returns_bind; [apply returns_any|]. intros ? _.
    apply returns_ret. congruence.
  - apply returns_try_except; [|intros e; by apply returns_ret].
    eapply returns_bind; [apply returns_any|]. intros ? _.
    apply returns_ret. congruence.
  - apply returns_try_except; [|intros e; by apply returns_ret].
    eapply returns_bind; [apply returns_any|]. intros ? _.
    apply returns_ret. congruence.
Qed.

(** X17: whenever [process_chunks] of [chunksToVideo.py] returns, the video
    it reports is [output_<stamp>.webm] in the video output directory and the
    audio [audio_<stamp>.wav] in the audio output directory, both with the
    stamp of one clock reading. *)
Theorem chunks_to_video_names_deliverables (self : VideoProcessor)
    (w w' : World) (r : option Path * option Path) :
  ChunksToVideo.process_chunks self w = (Ret r, w') →
  ∃ stamp,
    (∀ v, r.1 = Some v →
       v = mkPath (video_output_dir self) ("output_" +:+ stamp +:+ ".webm")) ∧
    (∀ a, r.2 = Some a →
       a = mkPath (audio_output_dir self) ("audio_" +:+ stamp +:+ ".wav")).
Proof.
  revert w r w'.
  change (returns (ChunksToVideo.process_chunks self)
    (λ r, ∃ stamp,
            (∀ v, r.1 = Some v →
               v = mkPath (video_output_dir self) ("output_" +:+ stamp +:+ ".webm")) ∧
            (∀ a, r.2 = Some a →
               a = mkPath (audio_output_dir self) ("audio_" +:+ stamp +:+ ".wav")))).
  unfold ChunksToVideo.process_chunks.
  eapply returns_bind; [apply returns_any|]. intros chunks _.
  destruct chunks.1 as [|c l].
  { apply returns_ret. by exists "". }
  unfold with_tempdir.
  eapply returns_bind; [apply returns_any|]. intros temp_dir _.
  apply returns_try_finally. unfold ChunksToVideo.assemble.
  eapply returns_bind; [apply returns_any|]. intros ok _.
  destruct (negb ok).
  { apply returns_ret. by exists "". }
  eapply returns_bind; [apply returns_any|]. intros audio _.
  unfold ChunksToVideo.deliver.
  eapply returns_bind; [apply returns_any|]. intros stamp _.
  eapply returns_bind; [apply save_audio_names|]. intros saved Hsaved.
  eapply returns_bind; [apply finish_names|]. intros video Hvideo.
  apply returns_ret. exists stamp. split; [exact Hvideo|exact Hsaved].
Qed.

End Deliverables.

(** ** What a run may write to the bucket *)

#[global] Instance bucket_kept_outside_preorder (mine : string → bool) :
  PreOrder (bucket_kept_outside mine).
Proof.
  split.
  - by intros w k _.
  - intros w1 w2 w3 H12 H23 k Hk. by rewrite H23, H12.
Qed.

Lemma quiet_kept_outside {A} (mine : string → bool) (m : M A) :
  quiet m → keeps (bucket_kept_outside mine) m.
Proof. intros Hq w k _. by destruct (Hq w) as [-> _]. Qed.

Lemma quiet_print (line : string) : quiet (print line).
Proof. by intros w. Qed.

Lemma audio_key_prefix (d u sfx : string) :
  PyStr.startswith (d +:+ "/final_audio_" +:+ u) (d +:+ "/final_audio_" +:+ u +:+ sfx)
  = true.
Proof.
  unfold PyStr.startswith. apply prefix_iff. exists sfx.
  by rewrite !append_assoc.
Qed.

Section Frame.
Context `{External}.

Lemma quiet_cleanup (self : VideoPipeline) : quiet (cleanup_local_files self).
Proof.
  unfold cleanup_local_files, rmtree_if_exists.
  pose proof quiet_exists. pose proof quiet_rmtree. quiet_auto.
Qed.

Lemma upload_if_exists_kept_outside (mine : string → bool) (path : option Path)
    (key : Path → string) :
  (∀ p, mine (key p) = true) →
  keeps (bucket_kept_outside mine) (upload_if_exists path key).
Proof.
  intros Hkey w k Hk. destruct path as [p|]; [|done].
  unfold upload_if_exists, PyPath.exists_. rewrite bind_run, exists_run.
  case_bool_decide; [|done].
  rewrite bind_run. unfold upload_file, try_except. rewrite bind_run.
  unfold s3_upload_file.
  destruct (w_fs w !! PyPath.str p) as [[c|]|]; [destruct (ext_net (clock w))|..];
    cbn; try done.
  apply lookup_insert_ne. intros <-. by rewrite Hkey in Hk.
Qed.

Lemma upload_processed_files_kept_outside (self : CloudflareR2Manager)
    (video audio : option Path) (transcripts : option (Path * option Path)) :
  keeps (bucket_kept_outside (deliverable_key self))
    (upload_processed_files self video audio transcripts).
Proof.
  unfold upload_processed_files.
  apply (keeps_bind _).
  { apply upload_if_exists_kept_outside. intros _. unfold deliverable_key.
    by rewrite bool_decide_eq_true_2. }
  intros failed_video. apply (keeps_bind _).
  { apply upload_if_exists_kept_outside. intros p. unfold deliverable_key.
    by rewrite audio_key_prefix, orb_true_r. }
  intros failed_audio. apply (keeps_bind _); [|intros; apply (keeps_ret _)].
  destruct transcripts as [[json srt]|]; [|apply (keeps_ret _)].
  apply upload_if_exists_kept_outside. intros _. unfold deliverable_key.
  rewrite (bool_decide_eq_true_2 (_ = _ +:+ "/subtitle_" +:+ _)) by done.
  by rewrite orb_true_r.
Qed.


End Frame.

(** ** The stage methods of [VideoPipeline] that [run] does not call *)

Section StageMethods.
Context `{External}.

#[local] Hint Resolve quiet_exists quiet_makedirs quiet_open_w quiet_append
  quiet_read quiet_unlink quiet_rmtree quiet_subprocess_run quiet_list
  quiet_download quiet_whisper_load quiet_whisper_transcribe quiet_now
  quiet_mkdtemp quiet_find quiet_load_model quiet_run_ffmpeg
  quiet_unlink_if_exists quiet_concatenate quiet_transcribe_audio : quiet.

#[local] Hint Resolve no_speech_exists no_speech_makedirs no_speech_open_w
  no_speech_append no_speech_read no_speech_unlink no_speech_rmtree
  no_speech_subprocess_run no_speech_list no_speech_download no_speech_upload
  no_speech_now no_speech_mkdtemp no_speech_find no_speech_run_ffmpeg
  no_speech_unlink_if_exists no_speech_concatenate : keeps.

Lemma quiet_process_chunks (self : VideoProcessor) : quiet (process_chunks self).
Proof.
  unfold process_chunks, with_tempdir, assemble_audio, deliver_mp4, PyPath.exists_.
  quiet_auto.
Qed.

Lemma no_speech_process_chunks (self : VideoProcessor) :
  keeps no_speech (process_chunks self).
Proof.
  unfold process_chunks, with_tempdir, assemble_audio, deliver_mp4, PyPath.exists_.
  keeps_auto.
Qed.

(** X19: the stage methods [VideoPipeline.process_chunks] and
    [VideoPipeline.transcribe_audio] publish nothing: neither stores to the
    bucket nor attempts an upload; and [process_chunks] neither loads nor runs
    the speech model.  [transcribe_audio] on an audio path that is absent or
    names nothing on disk answers [(None, None)] and leaves the world as it
    is. *)
Theorem stage_methods_publish_nothing (self : VideoPipeline)
    (audio_path : option Path) (w : World) :
  nothing_published w (VideoPipeline_process_chunks self w).2 ∧
  no_speech w (VideoPipeline_process_chunks self w).2 ∧
  nothing_published w (VideoPipeline_transcribe_audio self audio_path w).2 ∧
  (existing (w_fs w) audio_path = [] →
   VideoPipeline_transcribe_audio self audio_path w = (Ret NoAudio, w)).
Proof.
  assert (quiet (VideoPipeline_process_chunks self)) as Hq1.
  { unfold VideoPipeline_process_chunks, VideoProcessor_init.
    pose proof quiet_process_chunks. quiet_auto. }
  assert (keeps no_speech (VideoPipeline_process_chunks self)) as Hs1.
  { unfold VideoPipeline_process_chunks, VideoProcessor_init.
    pose proof no_speech_process_chunks. keeps_auto. }
  assert (quiet (VideoPipeline_transcribe_audio self audio_path)) as Hq2.
  { unfold VideoPipeline_transcribe_audio, PyPath.exists_. quiet_auto. }
  split; [exact (Hq1 w)|]. split; [exact (Hs1 w)|]. split; [exact (Hq2 w)|].
  unfold existing, VideoPipeline_transcribe_audio, PyPath.exists_.
  destruct audio_path as [audio|]; [|done].
  rewrite bind_run, exists_run. by case_bool_decide.
Qed.

End StageMethods.

(** ** The stand-alone script *)

Section ScriptMain.
Context `{External}.

#[local] Hint Resolve quiet_exists quiet_makedirs quiet_open_w quiet_append
  quiet_read quiet_unlink quiet_rmtree quiet_subprocess_run quiet_list
  quiet_download quiet_now quiet_mkdtemp quiet_find quiet_run_ffmpeg
  quiet_unlink_if_exists quiet_concatenate quiet_print quiet_check_ffmpeg
  quiet_download_chunks : quiet.

Lemma quiet_chunks_to_video (self : VideoProcessor) :
  quiet (ChunksToVideo.process_chunks self).
Proof.
  unfold ChunksToVideo.process_chunks, with_tempdir, ChunksToVideo.assemble,
    assemble_audio, ChunksToVideo.deliver, ChunksToVideo.save_audio,
    ChunksToVideo.finish, ChunksToVideo.mux_video_audio, Fs.copy2, PyPath.exists_.
  quiet_auto.
Qed.

Lemma quiet_script_cleanup : quiet Script.cleanup_local_files.
Proof. unfold Script.cleanup_local_files, rmtree_if_exists. quiet_auto. Qed.

Lemma script_upload_kept_outside (video audio : option Path) :
  keeps (bucket_kept_outside script_deliverable_key)
    (Script.upload_processed_files video audio).
Proof.
  unfold Script.upload_processed_files.
  apply (keeps_bind _).
  { apply upload_if_exists_kept_outside. intros _. unfold script_deliverable_key.
    by rewrite bool_decide_eq_true_2. }
  intros failed_video. apply (keeps_bind _); [|intros; apply (keeps_ret _)].
  apply upload_if_exists_kept_outside. intros _. unfold script_deliverable_key.
  rewrite (bool_decide_eq_true_2 (_ = _ +:+ "/final_audio_" +:+ _)) by done.
  by rewrite orb_true_r.
Qed.

Lemma script_run_kept_outside (cleanup : bool) :
  keeps (bucket_kept_outside script_deliverable_key) (Script.run cleanup).
Proof.
  unfold Script.run. apply (keeps_try_finally _).
  - apply (keeps_try_except _); [|intros e; apply (keeps_ret _)].
    unfold Script.run_stages.
    apply (keeps_bind _).
    { apply quiet_kept_outside. unfold Script.setup_directories. quiet_auto. }
    intros _.
    apply (keeps_bind _); [apply quiet_kept_outside, quiet_check_ffmpeg|intros ok].
    destruct (negb ok); [apply (keeps_ret _)|].
    apply (keeps_bind _).
    { apply quiet_kept_outside. unfold Script.download_chunks. quiet_auto. }
    intros fetched. destruct (negb fetched); [apply (keeps_ret _)|].
    apply (keeps_bind _).
    { apply quiet_kept_outside. unfold Script.process_chunks, Script.VideoProcessor_init.
      pose proof quiet_chunks_to_video. quiet_auto. }
    intros produced. destruct produced.1 as [video|]; [|apply (keeps_ret _)].
    apply (keeps_bind _); [apply script_upload_kept_outside|].
    intros ok'. destruct (negb ok'); apply (keeps_ret _).
  - destruct cleanup; [apply quiet_kept_outside, quiet_script_cleanup|apply (keeps_ret _)].
Qed.

Lemma script_cleanup_returns (w : World) :
  ∃ w', Script.cleanup_local_files w = (Ret tt, w').
Proof.
  unfold Script.cleanup_local_files, try_except.
  match goal with
  | |- ∃ w', (match ?x with _ => _ end) = _ => destruct x as [[[]|e] w1]
  end; simpl; eauto.
Qed.

Lemma script_run_returns (cleanup : bool) (w : World) :
  ∃ b w', Script.run cleanup w = (Ret b, w').
Proof.
  unfold Script.run, try_finally, try_except.
  destruct (Script.run_stages w) as [[b|e] w1]; cbn beta iota.
  - destruct cleanup; [|rewrite ret_run; eauto].
    destruct (script_cleanup_returns w1) as [w2 ->]. eauto.
  - rewrite ret_run. destruct cleanup; [|rewrite ret_run; eauto].
    destruct (script_cleanup_returns w1) as [w2 ->]. eauto.
Qed.

Lemma missing_credential_raises (w : World) :
  (∃ k, k ∈ credential_names ∧ (ext_getenv k = None ∨ ext_getenv k = Some "")) →
  Script.R2_init w = (Raise ValueError, w).
Proof.
  intros (k & Hk & Hmissing). unfold Script.R2_init.
  assert (bool_decide (is_Some (ext_getenv k) ∧ ext_getenv k ≠ Some "") = false) as Hset.
  { apply bool_decide_eq_false_2. intros [[v Hv] Hne]. destruct Hmissing; congruence. }
  unfold credential_names in Hk.
  repeat (apply elem_of_cons in Hk as [->|Hk]);
    [..|by apply elem_of_nil in Hk];
    rewrite Hset, ?andb_false_r; done.
Qed.

(** X20: [main] of [script.py] always ends with exit status 0 or 1, and
    whatever happens on the way the bucket changes at most at the two keys
    [final_video_<user>.webm] and [final_audio_<user>.webm] under the upload
    prefix (the audio deliverable, a WAV file, goes under the [.webm] key).
    When one of the four credentials is unset or empty the status is 1 and
    nothing was done: no external call, no change on disk or in the
    bucket. *)
Theorem script_main_exit_status (argv : list string) (w : World) :
  ∃ status w',
    Script.main argv w = (Ret status, w') ∧
    status ≤ 1 ∧
    bucket_kept_outside script_deliverable_key w w' ∧
    ((∃ k, k ∈ credential_names ∧ (ext_getenv k = None ∨ ext_getenv k = Some "")) →
     status = 1 ∧ no_work_done w w').
Proof.
  assert (keeps (bucket_kept_outside script_deliverable_key) (Script.main argv))
    as Hkeeps.
  { unfold Script.main.
    apply (keeps_bind _); [apply quiet_kept_outside, quiet_print|intros _].
    apply (keeps_bind _); [apply quiet_kept_outside, quiet_print|intros _].
    apply (keeps_bind _).
    { destruct (negb _); apply quiet_kept_outside; [apply quiet_ret|apply quiet_print]. }
    intros _. apply (keeps_try_except _); [|intros e; apply (keeps_ret _)].
    apply (keeps_bind _).
    { apply quiet_kept_outside. unfold Script.R2_init.
      destruct (_ && _); [apply quiet_ret|apply quiet_raise]. }
    intros _. apply (keeps_bind _); [apply script_run_kept_outside|].
    intros success. destruct success;
      (apply (keeps_bind _); [apply quiet_kept_outside, quiet_print|intros _]);
      apply (keeps_ret _). }
  assert (∃ status w',
            Script.main argv w = (Ret status, w') ∧ status ≤ 1 ∧
            ((∃ k, k ∈ credential_names ∧
                   (ext_getenv k = None ∨ ext_getenv k = Some "")) →
             status = 1 ∧ no_work_done w w')) as (status & w' & Hrun & Hle & Hmiss).
  { unfold Script.main. rewrite bind_run. unfold print at 1. rewrite bind_run.
    unfold print at 1.
    set (cleanup := negb (bool_decide (head argv = Some "--no-cleanup"))).
    set (w0 := add_log _ (add_log _ w)).
    rewrite bind_run.
    assert (∃ w1, (if cleanup then mret tt
                   else print "🗂️  Local files will be preserved after processing") w0
                  = (Ret tt, w1) ∧ no_work_done w w1) as (w1 & -> & Hw1).
    { destruct cleanup; eexists; (split; [reflexivity|done]). }
    unfold try_except. rewrite bind_run.
    destruct (Script.R2_init w1) as [[[]|e] w2] eqn:Hinit.
    - assert (w2 = w1) as ->.
      { revert Hinit. unfold Script.R2_init. destruct (_ && _); by intros [= <-]. }
      rewrite bind_run.
      destruct (script_run_returns cleanup w1) as (b & w3 & ->).
      destruct b; rewrite bind_run; unfold print; rewrite ret_run;
        eexists _, _; (split; [reflexivity|]); (split; [lia|]);
        intros Hmissing; apply (missing_credential_raises w1) in Hmissing; congruence.
    - assert (w2 = w1) as ->.
      { revert Hinit. unfold Script.R2_init. destruct (_ && _); by intros [= <-]. }
      rewrite ret_run. exists 1, w1. split; [done|]. split; [lia|]. by intros _. }
  exists status, w'. split; [exact Hrun|]. split; [exact Hle|]. split; [|exact Hmiss].
  specialize (Hkeeps w). by rewrite Hrun in Hkeeps.
Qed.

End ScriptMain.

(** * The end-to-end run *)

(** ** Names and paths *)

Lemma append_inv_nil (a x : string) : a +:+ x = a → x = "".
Proof. intros Heq. apply (append_inv_head a). by rewrite append_nil_r. Qed.

Lemma rsplit_none_app (c : ascii) (a b : string) :
  PyStr.rsplit c a = None → PyStr.rsplit c b = None → PyStr.rsplit c (a +:+ b) = None.
Proof.
  intros Ha Hb. induction a as [|x a IH]; [done|].
  rewrite append_cons. simpl in *.
  destruct (PyStr.rsplit c a) as [[? ?]|]; [done|].
  rewrite IH by done. by case_bool_decide.
Qed.

Lemma rsplit_app_sep (c : ascii) (a n : string) :
  PyStr.rsplit c n = None → PyStr.rsplit c (a +:+ String c n) = Some (a, n).
Proof.
  intros Hn. induction a as [|x a IH].
  - simpl. rewrite Hn. by rewrite bool_decide_eq_true_2.
  - rewrite append_cons. simpl. by rewrite IH.
Qed.

Lemma rsplit_rest_none (c : ascii) (s b e : string) :
  PyStr.rsplit c s = Some (b, e) → PyStr.rsplit c e = None.
Proof.
  revert b. induction s as [|x s IH]; intros b; [done|]. simpl.
  destruct (PyStr.rsplit c s) as [[b' e']|] eqn:Hs.
  - intros [= _ <-]. by eapply IH.
  - case_bool_decide; [|done]. by intros [= _ <-].
Qed.

Lemma split_last_no_sep (c : ascii) (s : string) :
  PyStr.rsplit c (PyStr.split_last c s) = None.
Proof.
  unfold PyStr.split_last. destruct (PyStr.rsplit c s) as [[b e]|] eqn:Hs; [|done].
  by eapply rsplit_rest_none.
Qed.

Lemma no_sep_no_lead (c : ascii) (e : string) :
  PyStr.rsplit c e = None → PyStr.startswith (String c "") e = false.
Proof.
  destruct e as [|x e]; [done|]. simpl.
  destruct (PyStr.rsplit c e) as [[? ?]|]; [done|].
  case_bool_decide as Hx; [done|]. intros _.
  unfold PyStr.startswith. simpl.
  destruct (Ascii.ascii_dec c x) as [->|]; [done|]. done.
Qed.

Lemma pretty_N_go_no_slash (x : N) (s : string) :
  PyStr.rsplit "/" s = None → PyStr.rsplit "/" (pretty_N_go x s) = None.
Proof.
  revert s. induction (N.lt_wf_0 x) as [x _ IH]; intros s Hs.
  assert (x = 0 ∨ 0 < x)%N as [->|Hx] by lia.
  - by rewrite pretty_N_go_0.
  - rewrite pretty_N_go_step by done. apply IH.
    { by apply N.div_lt. }
    simpl. rewrite Hs. unfold pretty_N_char. by repeat case_match.
Qed.

Lemma pretty_nat_no_slash (i : nat) : PyStr.rsplit "/" (pretty i) = None.
Proof.
  unfold pretty, pretty_nat, pretty, pretty_N.
  case_decide; [done|]. by apply pretty_N_go_no_slash.
Qed.

Lemma chunk_name_no_slash (track : string) (i : nat) :
  PyStr.rsplit "/" track = None →
  PyStr.rsplit "/" (Locator.chunk_name track i) = None.
Proof.
  intros Ht. unfold Locator.chunk_name.
  apply rsplit_none_app; [done|]. apply (rsplit_none_app _ "_"); [done|].
  apply rsplit_none_app; [apply pretty_nat_no_slash|done].
Qed.

Lemma ends_with_char_app (c : ascii) (a b : string) :
  b ≠ "" → PyStr.ends_with_char c (a +:+ b) = PyStr.ends_with_char c b.
Proof.
  intros Hb. induction a as [|x a IH]; [done|].
  rewrite append_cons. simpl. rewrite IH.
  destruct (a +:+ b) eqn:Hab; [|done].
  destruct a; [by destruct b|done].
Qed.

Lemma path_join_plain (a b : string) :
  a ≠ "" → PyStr.ends_with_char "/" a = false → PyStr.startswith "/" b = false →
  PyStr.path_join a b = a +:+ "/" +:+ b.
Proof.
  intros Ha He Hb. unfold PyStr.path_join. rewrite Hb, He.
  by rewrite bool_decide_eq_false_2.
Qed.

Lemma apart_cases (a b p q : string) :
  (∀ x y, a +:+ x ≠ b +:+ y) →
  (p = a ∨ ∃ x, p = a +:+ x) → (q = b ∨ ∃ y, q = b +:+ y) → p ≠ q.
Proof.
  intros Hab [->|[x ->]] [->|[y ->]] Heq.
  - apply (Hab "" ""). by rewrite !append_nil_r.
  - apply (Hab "" y). by rewrite append_nil_r.
  - apply (Hab x ""). by rewrite append_nil_r.
  - by apply (Hab x y).
Qed.

Ltac apart_side := first [ left; reflexivity | right; eexists; reflexivity ].

Ltac apart_by H Heq :=
  first [ refine (apart_cases _ _ _ _ H _ _ Heq); apart_side
        | refine (apart_cases _ _ _ _ H _ _ (eq_sym Heq)); apart_side ].

Ltac apart_at H Heq :=
  first [ refine (apart_cases _ _ _ _ (H _) _ _ Heq); apart_side
        | refine (apart_cases _ _ _ _ (H _) _ _ (eq_sym Heq)); apart_side ].

(** Two paths differ: common heads are stripped, and what is left differs
    in a character, or in the directories they start with. *)
Ltac path_ne_with tac :=
  let Heq := fresh "Heq" in
  intros Heq; unfold PyPath.str in Heq; cbn [p_dir p_name] in Heq;
  rewrite ?append_assoc in Heq; cbn [String.append] in Heq;
  repeat first
    [ discriminate Heq
    | apply append_inv_head in Heq
    | apply append_inv_nil in Heq
    | (symmetry in Heq; apply append_inv_nil in Heq)
    | injection Heq as Heq ];
  tac Heq.

Lemma lookup_made_dirs (l : list string) (fs : gmap string node) (p : string) :
  foldl (λ m d, <[d := NDir]> m) fs l !! p
  = if bool_decide (p ∈ l) then Some NDir else fs !! p.
Proof.
  revert fs. induction l as [|d l IH]; intros fs; [done|]. simpl. rewrite IH.
  destruct (decide (p ∈ l)) as [Hin|Hnin].
  - rewrite !bool_decide_eq_true_2; [done|by right|done].
  - rewrite (bool_decide_eq_false_2 (p ∈ l)) by done.
    destruct (decide (p = d)) as [->|Hne].
    + rewrite lookup_insert_eq, bool_decide_eq_true_2; [done|by left].
    + rewrite lookup_insert_ne by done. rewrite bool_decide_eq_false_2; [done|].
      by intros [->|?]%elem_of_cons.
Qed.

Lemma makedirs_list_run (l : list string) (w : World) :
  (∀ p c, w_fs w !! p ≠ Some (NFile c)) →
  for_each l Fs.makedirs w
  = (Ret tt, set_fs (λ fs, foldl (λ m d, <[d := NDir]> m) fs l) w).
Proof.
  revert w. induction l as [|d l IH]; intros w Hw.
  - simpl. rewrite ret_run. by destruct w.
  - cbn [for_each]. rewrite bind_run. unfold Fs.makedirs at 1.
    destruct (w_fs w !! d) as [[c|]|] eqn:Hd; [by destruct (Hw d c)|..];
      (rewrite IH; [done|]); intros p c; cbn [w_fs set_fs];
      (destruct (decide (p = d)) as [->|Hne];
       [by rewrite lookup_insert_eq|rewrite lookup_insert_ne by done; apply Hw]).
Qed.

Lemma makedirs_existing (d : string) (w : World) :
  w_fs w !! d = Some NDir → Fs.makedirs d w = (Ret tt, w).
Proof.
  intros Hd. unfold Fs.makedirs. rewrite Hd. f_equal.
  unfold set_fs. rewrite insert_id by done. by destruct w.
Qed.

Lemma keys_under_stored (prefix key : string) (bucket : gmap string string) :
  key ∈ keys_under prefix bucket ↔
  PyStr.startswith prefix key = true ∧ is_Some (bucket !! key).
Proof.
  unfold keys_under. rewrite list_elem_of_In, List.filter_In, <- list_elem_of_In.
  rewrite list_elem_of_fmap. split.
  - intros [([k v] & -> & Hin) Hp]. apply elem_of_map_to_list in Hin.
    split; [done|]. by exists v.
  - intros [Hp [v Hv]]. split; [|done]. exists (key, v).
    split; [done|]. by apply elem_of_map_to_list.
Qed.

Lemma chunk_type_video (i : nat) :
  PyStr.split_first "_" (PyStr.split_first "." (Locator.chunk_name "video" i)) = "video".
Proof. done. Qed.

Lemma chunk_type_audio (i : nat) :
  PyStr.split_first "_" (PyStr.split_first "." (Locator.chunk_name "audio" i)) = "audio".
Proof. done. Qed.

Lemma not_under (d p : string) : (∀ x, d +:+ x ≠ p) → Fs.under d p = false.
Proof.
  intros Hp. unfold Fs.under. apply orb_false_intro.
  - apply bool_decide_eq_false_2. intros ->. apply (Hp ""). by rewrite append_nil_r.
  - destruct (String.prefix (d +:+ "/") p) eqn:Hpre; [|done].
    apply prefix_iff in Hpre as [c ->]. destruct (Hp ("/" +:+ c)).
    by rewrite append_assoc.
Qed.

(** ** The stages of a run in which every step succeeds *)

Section EndToEndRun.
Context `{External}.
Variables (self : VideoPipeline) (L O : string).
Hypothesis Hsucc : every_step_succeeds H.
Hypothesis Hlocal : vp_local_dir self = L.
Hypothesis Houtput : vp_output_dir self = O.
Hypothesis Hr2local : r2_local_dir (vp_r2_manager self) = L.
Hypothesis HL : L ≠ "".
Hypothesis HLend : PyStr.ends_with_char "/" L = false.
Hypothesis HO : O ≠ "".
Hypothesis HOend : PyStr.ends_with_char "/" O = false.
Hypothesis HLO : ∀ x y, L +:+ x ≠ O +:+ y.
Hypothesis HTL : ∀ time x y, ext_tmpdir time +:+ x ≠ L +:+ y.
Hypothesis HTO : ∀ time x y, ext_tmpdir time +:+ x ≠ O +:+ y.

Ltac path_ne :=
  path_ne_with
    ltac:(fun Heq => first [ apart_by HLO Heq | apart_at HTL Heq
                           | apart_at HTO Heq ]).

Ltac in_job_dirs :=
  unfold job_dirs;
  repeat first [ apply list_elem_of_here | apply list_elem_of_further ].

Ltac not_job_dir :=
  unfold job_dirs; rewrite !not_elem_of_cons;
  repeat split; [path_ne..|apply not_elem_of_nil].

Lemma join_local (s : string) :
  PyStr.startswith "/" s = false → PyStr.path_join L s = L +:+ "/" +:+ s.
Proof. by apply path_join_plain. Qed.

Lemma join_output (s : string) :
  PyStr.startswith "/" s = false → PyStr.path_join O s = O +:+ "/" +:+ s.
Proof. by apply path_join_plain. Qed.

Lemma tmp_not_job_dir (time : nat) (x : string) :
  ext_tmpdir time +:+ x ∉ job_dirs L O.
Proof. not_job_dir. Qed.

Lemma working_disk_insert_file (p c : string) (fs : gmap string node) :
  working_disk L O fs → p ∉ job_dirs L O →
  (∀ time x, ext_tmpdir time +:+ x ≠ p) →
  working_disk L O (<[p := NFile c]> fs).
Proof.
  intros (Hdirs & Honly & Htmp) Hp Hpt. split; [|split].
  - intros q Hq. rewrite lookup_insert_ne; [by apply Hdirs|]. by intros ->.
  - intros q. destruct (decide (p = q)) as [->|Hne].
    + by rewrite lookup_insert_eq.
    + rewrite lookup_insert_ne by done. apply Honly.
  - intros time x. rewrite lookup_insert_ne; [apply Htmp|]. intros Heq.
    by apply (Hpt time x).
Qed.

Lemma setup_ready (w : World) :
  w_fs w = ∅ →
  ∃ w1, setup_directories self w = (Ret tt, w1) ∧
        working_disk L O (w_fs w1) ∧ same_but_fs w w1.
Proof.
  intros Hfs. unfold setup_directories.
  rewrite Hlocal, Houtput, !join_local, !join_output by done.
  rewrite makedirs_list_run by (intros p c; by rewrite Hfs, lookup_empty).
  eexists. split; [reflexivity|]. split; [|apply same_but_fs_set_fs].
  cbn [w_fs set_fs]. rewrite Hfs. split; [|split].
  - intros p Hp. rewrite lookup_made_dirs, bool_decide_eq_true_2; [done|exact Hp].
  - intros p. rewrite lookup_made_dirs. case_bool_decide as Hp; [intros _; exact Hp|].
    by rewrite lookup_empty.
  - intros time x. rewrite lookup_made_dirs, bool_decide_eq_false_2;
      [apply lookup_empty|]. apply (tmp_not_job_dir time x).
Qed.

Lemma check_ffmpeg_ok (w : World) :
  ∃ w', check_ffmpeg w = (Ret true, w') ∧ w_fs w' = w_fs w ∧ w_bucket w' = w_bucket w.
Proof.
  destruct Hsucc as (Hproc & _).
  destruct (Hproc (clock w) ["ffmpeg"; "-version"]) as (so & wr & Hp).
  unfold check_ffmpeg, try_except. rewrite bind_run. unfold subprocess_run.
  rewrite Hp. eexists. by split; [reflexivity|].
Qed.

Lemma download_one_ok (key data : string) (w : World) :
  working_disk L O (w_fs w) → w_bucket w !! key = Some data →
  ∃ w', download_one (vp_r2_manager self) key w = (Ret tt, w') ∧
        working_disk L O (w_fs w') ∧ w_bucket w' = w_bucket w.
Proof.
  intros Hdisk Hkey. pose proof Hdisk as (Hdirs & _ & _).
  destruct Hsucc as (_ & Hnet & _).
  unfold download_one. rewrite Hr2local.
  set (file := PyStr.split_last "/" key).
  assert (PyStr.startswith "/" file = false) as Hfile
    by apply no_sep_no_lead, split_last_no_sep.
  destruct (bool_decide (_ = "audio")).
  - rewrite bind_run, makedirs_existing by (apply Hdirs; in_job_dirs).
    rewrite path_join_plain;
      [|by destruct L|by rewrite ends_with_char_app|done].
    unfold s3_download_file. rewrite Hkey, Hnet.
    eexists. split; [reflexivity|]. split; [|done]. cbn [w_fs set_fs add_event].
    apply working_disk_insert_file; [done|not_job_dir|intros time x; path_ne].
  - rewrite bind_run, makedirs_existing by (apply Hdirs; in_job_dirs).
    rewrite path_join_plain;
      [|by destruct L|by rewrite ends_with_char_app|done].
    unfold s3_download_file. rewrite Hkey, Hnet.
    eexists. split; [reflexivity|]. split; [|done]. cbn [w_fs set_fs add_event].
    apply working_disk_insert_file; [done|not_job_dir|intros time x; path_ne].
Qed.

Lemma download_loop_ok (keys : list string) (w : World) :
  working_disk L O (w_fs w) →
  Forall (λ key, is_Some (w_bucket w !! key)) keys →
  ∃ w', for_each keys (download_one (vp_r2_manager self)) w = (Ret tt, w') ∧
        working_disk L O (w_fs w') ∧ w_bucket w' = w_bucket w.
Proof.
  revert w. induction keys as [|key keys IH]; intros w Hdisk Hkeys.
  - by exists w.
  - apply Forall_cons in Hkeys as [[data Hkey] Hkeys].
    destruct (download_one_ok key data w Hdisk Hkey) as (w1 & Hone & Hdisk1 & Hb1).
    destruct (IH w1 Hdisk1) as (w' & Hloop & Hdisk' & Hb').
    { by rewrite Hb1. }
    exists w'. cbn [for_each]. rewrite bind_run, Hone. split; [exact Hloop|].
    split; [done|congruence].
Qed.

Lemma download_chunks_ok (w : World) :
  working_disk L O (w_fs w) →
  keys_under (r2_remote_dir (vp_r2_manager self)) (w_bucket w) ≠ [] →
  ∃ w3, download_chunks (vp_r2_manager self) w = (Ret true, w3) ∧
        working_disk L O (w_fs w3) ∧ w_bucket w3 = w_bucket w ∧
        ∀ key, key ∈ keys_under (r2_remote_dir (vp_r2_manager self)) (w_bucket w) →
               is_Some (w_fs w3 !! download_path (vp_r2_manager self) key).
Proof.
  intros Hdisk Hkeys. destruct Hsucc as (_ & Hnet & _).
  unfold download_chunks, try_except. rewrite bind_run. unfold s3_list_objects_v2.
  rewrite Hnet. cbn beta iota zeta.
  destruct (keys_under _ (w_bucket w)) as [|k l] eqn:Hlist; [done|].
  rewrite bind_run.
  set (w0 := add_event (EvS3List (r2_remote_dir (vp_r2_manager self)) true) w).
  destruct (download_loop_ok (k :: l) w0 Hdisk) as (w3 & Hloop & Hdisk3 & Hb3).
  { apply Forall_forall. intros key Hin. rewrite <- Hlist in Hin.
    by apply keys_under_stored in Hin as [_ ?]. }
  rewrite Hloop, ret_run. exists w3. split; [done|]. split; [done|]. split; [done|].
  intros key Hin.
  destruct (download_loop_run _ _ _ _ Hloop) as (_ & _ & Hall).
  destruct (Hall key Hin) as (key' & data & _ & _ & _ & Hfile). by rewrite Hfile.
Qed.

Lemma download_path_chunk_video (remote : string) (i : nat) :
  download_path (vp_r2_manager self) (remote +:+ "/" +:+ Locator.chunk_name "video" i)
  = PyPath.str (mkPath (L +:+ "/video") (Locator.chunk_name "video" i)).
Proof.
  unfold download_path, PyStr.split_last.
  change (remote +:+ "/" +:+ Locator.chunk_name "video" i)
    with (remote +:+ String "/" (Locator.chunk_name "video" i)).
  rewrite rsplit_app_sep by (by apply chunk_name_no_slash).
  rewrite chunk_type_video, bool_decide_eq_false_2 by done. rewrite Hr2local.
  rewrite path_join_plain; [done|by destruct L|by rewrite ends_with_char_app|].
  by apply no_sep_no_lead, chunk_name_no_slash.
Qed.

Lemma download_path_chunk_audio (remote : string) (i : nat) :
  download_path (vp_r2_manager self) (remote +:+ "/" +:+ Locator.chunk_name "audio" i)
  = PyPath.str (mkPath (L +:+ "/audio") (Locator.chunk_name "audio" i)).
Proof.
  unfold download_path, PyStr.split_last.
  change (remote +:+ "/" +:+ Locator.chunk_name "audio" i)
    with (remote +:+ String "/" (Locator.chunk_name "audio" i)).
  rewrite rsplit_app_sep by (by apply chunk_name_no_slash).
  rewrite chunk_type_audio, bool_decide_eq_true_2 by done. rewrite Hr2local.
  rewrite path_join_plain; [done|by destruct L|by rewrite ends_with_char_app|].
  by apply no_sep_no_lead, chunk_name_no_slash.
Qed.

Lemma run_ffmpeg_ok (command : list string) (o : string) (w : World) :
  last command = Some o →
  ∃ r written w',
    run_ffmpeg command w = (Ret r, w') ∧ r.1 = true ∧
    w_fs w' = <[o := NFile written]> (w_fs w).
Proof.
  intros Hlast. destruct Hsucc as (Hproc & _).
  destruct (Hproc (clock w) command) as (so & wr & Hp).
  unfold run_ffmpeg, try_except. rewrite bind_run. unfold subprocess_run.
  rewrite Hp, Hlast. eexists _, _, _. split; [reflexivity|]. done.
Qed.

Lemma chunk_bytes_files (fs : gmap string node) (chunks : list chunk) :
  Forall (λ c : chunk, ∃ d, fs !! PyPath.str c.2 = Some (NFile d)) chunks →
  ∃ data, chunk_bytes fs chunks = Some data.
Proof.
  induction 1 as [|c chunks [d Hd] _ [data IH]]; [by exists ""|].
  simpl. rewrite Hd, IH. eauto.
Qed.

Lemma concatenate_ok (chunks : list chunk) (output_path temp : Path)
    (chunk_type : string) (w : World) :
  chunks ≠ [] →
  PyPath.with_suffix output_path ".temp.webm" = inr temp →
  Forall (λ c : chunk, ∃ d, w_fs w !! PyPath.str c.2 = Some (NFile d)) chunks →
  Forall (λ c : chunk, PyPath.str c.2 ≠ PyPath.str temp) chunks →
  w_fs w !! PyPath.str temp ≠ Some NDir →
  ∃ written w',
    concatenate_raw_chunks chunks output_path chunk_type w = (Ret true, w') ∧
    w_fs w' = delete (PyPath.str temp)
                (<[PyPath.str output_path := NFile written]> (w_fs w)).
Proof.
  intros Hne Htemp Hfiles Hdistinct Hnd.
  destruct (chunk_bytes_files _ _ Hfiles) as [data Hdata].
  destruct (concatenate_run chunks output_path temp chunk_type data w
              Hne Htemp Hdata Hdistinct Hnd) as [_ Hrun].
  destruct Hsucc as (Hproc & _).
  destruct (Hproc (clock w) (remux_command temp output_path)) as (so & wr & Hp).
  rewrite Hp in Hrun. rewrite Hrun. by eexists _, _.
Qed.

Lemma load_model_ok (tr : WhisperTranscriber) (w : World) :
  ∃ w', load_model tr w = (Ret true, w') ∧ w_fs w' = w_fs w.
Proof.
  destruct Hsucc as (_ & _ & Hload & _). unfold load_model.
  destruct (w_model w); [by eexists|].
  unfold try_except. rewrite bind_run. unfold whisper_load_model. rewrite Hload.
  by eexists.
Qed.

Lemma write_file (p data : string) (w : World) :
  w_fs w !! p ≠ Some NDir →
  (Fs.open_w p;; Fs.append p data) w = (Ret tt, set_fs (insert p (NFile data)) w).
Proof.
  intros Hp. rewrite bind_run. unfold Fs.open_w.
  destruct (w_fs w !! p) as [[c|]|] eqn:Hf; [|done|];
    unfold Fs.append; cbn [w_fs set_fs]; rewrite lookup_insert_eq;
    rewrite set_fs_set_fs; f_equal; apply set_fs_ext; apply insert_insert_eq.
Qed.

Lemma transcribe_ok (tr : WhisperTranscriber) (audio : Path)
    (dir meeting_id take user_id : string) (w : World) :
  w_fs w !! dir = Some NDir →
  (∀ n, w_fs w !! PyPath.str (mkPath dir n) ≠ Some NDir) →
  ∃ stamp content dumps w',
    transcribe_audio tr audio dir meeting_id take user_id w
    = (Ret (Some (mkPath dir ("transcript_" +:+ stamp +:+ ".json"),
                  mkPath dir ("transcript_" +:+ stamp +:+ ".srt"))), w') ∧
    w_fs w'
    = <[PyPath.str (mkPath dir ("transcript_" +:+ stamp +:+ ".srt")) := NFile content]>
        (<[PyPath.str (mkPath dir ("transcript_" +:+ stamp +:+ ".json")) := NFile dumps]>
           (w_fs w)).
Proof.
  intros Hdir Hfree. unfold transcribe_audio. rewrite bind_run.
  destruct (load_model_ok tr w) as (w1 & -> & Hfs1). cbn [negb].
  unfold try_except. rewrite bind_run. unfold transcribe_and_save. rewrite bind_run.
  destruct Hsucc as (_ & _ & _ & Htrans & _).
  destruct (Htrans (clock w1) (PyPath.str audio)) as (result & content & Hr & Hsrt).
  unfold whisper_transcribe at 1. rewrite Hr.
  rewrite bind_run, makedirs_existing by (cbn [w_fs add_event]; by rewrite Hfs1).
  rewrite bind_run. unfold now_stamp at 1.
  set (stamp := ext_now _). set (w2 := add_event (EvClock stamp) _).
  assert (w_fs w2 = w_fs w) as Hfs2 by exact Hfs1.
  set (json := mkPath dir ("transcript_" +:+ stamp +:+ ".json")).
  set (srt := mkPath dir ("transcript_" +:+ stamp +:+ ".srt")).
  set (dumps := ext_json_dumps _).
  assert (∀ (A : Type) (k : M A),
            (Fs.open_w (PyPath.str json);; Fs.append (PyPath.str json) dumps;; k) w2
            = k (set_fs (insert (PyPath.str json) (NFile dumps)) w2)) as Hjson.
  { intros A k.
    pose proof (write_file (PyPath.str json) dumps w2) as Hw.
    rewrite bind_run in Hw. rewrite bind_run.
    destruct (Fs.open_w (PyPath.str json) w2) as [[[]|e] w3].
    - rewrite bind_run, Hw; [done|]. rewrite Hfs2. apply Hfree.
    - rewrite Hfs2 in Hw. by specialize (Hw (Hfree _)). }
  rewrite Hjson, bind_run, Hsrt. cbn [lift_exn]. rewrite ret_run.
  set (w3 := set_fs _ w2).
  assert (∀ (A : Type) (k : M A),
            (Fs.open_w (PyPath.str srt);; Fs.append (PyPath.str srt) content;; k) w3
            = k (set_fs (insert (PyPath.str srt) (NFile content)) w3)) as Hsrtw.
  { intros A k.
    assert (w_fs w3 !! PyPath.str srt ≠ Some NDir) as Hfree3.
    { unfold w3. cbn [w_fs set_fs].
      destruct (decide (PyPath.str json = PyPath.str srt)) as [<-|Hne].
      - by rewrite lookup_insert_eq.
      - rewrite lookup_insert_ne by done. rewrite Hfs2. apply Hfree. }
    pose proof (write_file (PyPath.str srt) content w3 Hfree3) as Hw.
    rewrite bind_run in Hw. rewrite bind_run.
    destruct (Fs.open_w (PyPath.str srt) w3) as [[[]|e] w4]; [|done].
    by rewrite bind_run, Hw. }
  rewrite Hsrtw, ret_run, ret_run.
  exists stamp, content, dumps. eexists. split; [reflexivity|].
  unfold w3. cbn [w_fs set_fs]. by rewrite Hfs2.
Qed.

Lemma VideoProcessor_init_existing (video_dir audio_dir video_out audio_out
    transcripts : string) (w : World) :
  transcripts ≠ "" →
  w_fs w !! video_out = Some NDir → w_fs w !! audio_out = Some NDir →
  w_fs w !! transcripts = Some NDir →
  VideoProcessor_init video_dir audio_dir video_out audio_out (Some transcripts) w
  = (Ret (Processor video_dir audio_dir video_out audio_out (Some transcripts)), w).
Proof.
  intros Hne Hv Ha Ht. unfold VideoProcessor_init.
  destruct transcripts as [|a s]; [done|].
  by rewrite bind_run, makedirs_existing, bind_run, makedirs_existing, bind_run,
    makedirs_existing, ret_run.
Qed.

Lemma located_chunks_files (fs : gmap string node) (sub track : string) (i : nat) :
  working_disk L O fs →
  sub = "/video" ∨ sub = "/audio" →
  i < Locator.upper_bound →
  is_Some (fs !! PyPath.str (mkPath (L +:+ sub) (Locator.chunk_name track i))) →
  let chunks :=
    Locator.sort_by_index (Locator.scan fs (L +:+ sub) track Locator.upper_bound) in
  chunks ≠ [] ∧
  Forall (λ c : chunk, ∃ n d, c.2 = mkPath (L +:+ sub) n ∧
                              fs !! PyPath.str c.2 = Some (NFile d)) chunks.
Proof.
  intros (_ & Honly & _) Hsub Hi Hthere. cbv zeta.
  rewrite sort_by_index_sorted by apply scan_indices_sorted. split.
  - assert ((i, mkPath (L +:+ sub) (Locator.chunk_name track i))
            ∈ Locator.scan fs (L +:+ sub) track Locator.upper_bound) as Hin
      by (by apply scan_elem).
    intros Hnil. rewrite Hnil in Hin. by apply elem_of_nil in Hin.
  - apply Forall_forall. intros [k p] Hin.
    apply scan_elem in Hin as (_ & -> & [[d|] Hfile]); cbn [snd].
    + by eexists _, _.
    + apply Honly in Hfile.
      assert (PyPath.str (mkPath (L +:+ sub) (Locator.chunk_name track k))
              ∉ job_dirs L O) as Hout
        by (destruct Hsub as [->| ->]; not_job_dir).
      done.
Qed.

Ltac look :=
  repeat first
    [ rewrite lookup_insert_eq
    | rewrite lookup_insert_ne by path_ne
    | rewrite lookup_delete_ne by path_ne
    | match goal with
      | Hfs : w_fs ?w = _ |- context [w_fs ?w !! _] => rewrite Hfs
      end ].

Lemma process_succeeds (w3 : World) (i j : nat) :
  working_disk L O (w_fs w3) →
  i < Locator.upper_bound →
  is_Some (w_fs w3 !! PyPath.str (mkPath (L +:+ "/video") (Locator.chunk_name "video" i))) →
  j < Locator.upper_bound →
  is_Some (w_fs w3 !! PyPath.str (mkPath (L +:+ "/audio") (Locator.chunk_name "audio" j))) →
  ∃ w4 stamp stamp' cv ca cs cj,
    let video := mkPath (O +:+ "/video") ("output_" +:+ stamp +:+ ".mp4") in
    let audio := mkPath (O +:+ "/audio") ("audio_" +:+ stamp +:+ ".wav") in
    let json := mkPath (O +:+ "/transcripts") ("transcript_" +:+ stamp' +:+ ".json") in
    let srt := mkPath (O +:+ "/transcripts") ("transcript_" +:+ stamp' +:+ ".srt") in
    process self false w3 = (Ret (Some (video, Some audio, Some (json, srt))), w4) ∧
    w_fs w4 !! PyPath.str video = Some (NFile cv) ∧
    w_fs w4 !! PyPath.str audio = Some (NFile ca) ∧
    w_fs w4 !! PyPath.str srt = Some (NFile cs) ∧
    w_fs w4 !! PyPath.str json = Some (NFile cj) ∧
    w_fs w4 !! L = Some NDir ∧ w_fs w4 !! O = Some NDir.
Proof.
  intros Hdisk Hi Hvi Hj Haj. pose proof Hdisk as (Hdirs & Honly & Htmp).
  unfold process. rewrite Hlocal, Houtput, !join_local, !join_output by done.
  change (L +:+ "/" +:+ "video") with (L +:+ "/video").
  change (L +:+ "/" +:+ "audio") with (L +:+ "/audio").
  change (O +:+ "/" +:+ "video") with (O +:+ "/video").
  change (O +:+ "/" +:+ "audio") with (O +:+ "/audio").
  change (O +:+ "/" +:+ "transcripts") with (O +:+ "/transcripts").
  rewrite bind_run, VideoProcessor_init_existing;
    [|by destruct O|apply Hdirs; in_job_dirs..].
  rewrite bind_run. unfold Locator.find_chunk_sequences at 1.
  cbn [video_chunks_dir audio_chunks_dir fst snd].
  destruct (located_chunks_files (w_fs w3) "/video" "video" i Hdisk
              (or_introl eq_refl) Hi Hvi) as [Hvne Hvfiles].
  destruct (located_chunks_files (w_fs w3) "/audio" "audio" j Hdisk
              (or_intror eq_refl) Hj Haj) as [Hane Hafiles].
  set (vc := Locator.sort_by_index
               (Locator.scan (w_fs w3) (L +:+ "/video") "video" Locator.upper_bound)) in *.
  set (ac := Locator.sort_by_index
               (Locator.scan (w_fs w3) (L +:+ "/audio") "audio" Locator.upper_bound)) in *.
  assert (∀ (A : Type) (a b : A), match vc with [] => a | _ :: _ => b end = b) as Hvmatch
    by (intros; by destruct vc).
  assert (∀ (A : Type) (a b : A), match ac with [] => a | _ :: _ => b end = b) as Hamatch
    by (intros; by destruct ac).
  rewrite Hvmatch. unfold with_tempdir. rewrite bind_run. unfold mkdtemp at 1.
  set (d := ext_tmpdir (clock w3)).
  assert (w_fs w3 !! d = None) as Hd by (rewrite <- (append_nil_r d); apply Htmp).
  rewrite Hd.
  remember (set_fs (insert d NDir) (add_event (EvMkdtemp d) w3)) as w5 eqn:Hw5.
  assert (w_fs w5 = <[d := NDir]> (w_fs w3)) as Hfs5 by (by rewrite Hw5).
  clear Hw5.
  assert (∀ x, w_fs w3 !! (d +:+ x) = None) as Htmpd by (intros x; apply Htmp).
  unfold try_finally, assemble_and_mux. rewrite bind_run.
  destruct (concatenate_ok vc (mkPath d "video_concatenated.webm")
              (mkPath d "video_concatenated.temp.webm") "video" w5 Hvne eq_refl)
    as (wr1 & w6 & -> & Hfs6).
  { eapply Forall_impl; [exact Hvfiles|]. intros c (n & data & Hc & Hf).
    exists data. rewrite Hc in *. by look. }
  { eapply Forall_impl; [exact Hvfiles|]. intros c (n & data & Hc & Hf).
    rewrite Hc. path_ne. }
  { look. unfold PyPath.str. cbn [p_dir p_name]. by rewrite Htmpd. }
  cbn [negb]. rewrite bind_run. unfold assemble_audio. rewrite Hamatch, bind_run.
  destruct (concatenate_ok ac (mkPath d "audio_concatenated.webm")
              (mkPath d "audio_concatenated.temp.webm") "audio" w6 Hane eq_refl)
    as (wr2 & w7 & -> & Hfs7).
  { eapply Forall_impl; [exact Hafiles|]. intros c (n & data & Hc & Hf).
    exists data. rewrite Hc in *. by look. }
  { eapply Forall_impl; [exact Hafiles|]. intros c (n & data & Hc & Hf).
    rewrite Hc. path_ne. }
  { look. unfold PyPath.str. cbn [p_dir p_name]. by rewrite Htmpd. }
  rewrite ret_run. unfold finish_assembly.
  cbn [video_output_dir audio_output_dir]. rewrite bind_run.
  unfold extract_wav_for_transcription. rewrite bind_run.
  destruct (run_ffmpeg_ok
              (wav_command (mkPath d "audio_concatenated.webm")
                 (mkPath d "audio_for_transcription.wav"))
              (PyPath.str (mkPath d "audio_for_transcription.wav")) w7 eq_refl)
    as (r3 & wr3 & w8 & -> & -> & Hfs8).
  rewrite ret_run, bind_run. unfold generate_transcript.
  unfold PyPath.exists_ at 1. rewrite bind_run, exists_run.
  rewrite bool_decide_eq_true_2 by (look; eauto).
  rewrite bind_run.
  destruct (transcribe_ok (vp_transcriber self) (mkPath d "audio_for_transcription.wav")
              (O +:+ "/transcripts") (vp_meeting_id self) (vp_take self)
              (vp_user_id self) w8)
    as (stamp' & content & dumps & w9 & -> & Hfs9).
  { look. apply Hdirs; in_job_dirs. }
  { intros n. look. intros Hdir. apply Honly in Hdir. revert Hdir.
    change (PyPath.str (mkPath (O +:+ "/transcripts") n) ∉ job_dirs L O).
    not_job_dir. }
  rewrite ret_run. cbn [fst snd fmap option_fmap option_map].
  rewrite bind_run. unfold now_stamp at 1.
  set (stamp := ext_now (clock w9)).
  remember (add_event (EvClock stamp) w9) as w10 eqn:Hw10.
  assert (w_fs w10 = w_fs w9) as Hfs10 by (by rewrite Hw10). clear Hw10.
  rewrite bind_run. unfold save_final_audio.
  unfold PyPath.exists_ at 1. rewrite bind_run, exists_run.
  rewrite bool_decide_eq_true_2 by (look; eauto).
  rewrite bind_run.
  destruct (run_ffmpeg_ok
              (wav_command (mkPath d "audio_concatenated.webm")
                 (mkPath (O +:+ "/audio") ("audio_" +:+ stamp +:+ ".wav")))
              (PyPath.str (mkPath (O +:+ "/audio") ("audio_" +:+ stamp +:+ ".wav")))
              w10 eq_refl)
    as (r4 & wr4 & w11 & -> & -> & Hfs11).
  rewrite ret_run, bind_run.
  unfold mux_video_audio_with_captions, srt_available.
  unfold PyPath.exists_ at 1. rewrite bind_run, exists_run.
  rewrite bool_decide_eq_true_2 by (look; eauto).
  rewrite bind_run.
  destruct (run_ffmpeg_ok
              (caption_mux_command (mkPath d "video_concatenated.webm")
                 (Some (mkPath d "audio_concatenated.webm"))
                 (Some (mkPath (O +:+ "/transcripts")
                          ("transcript_" +:+ stamp' +:+ ".srt")))
                 true
                 (mkPath (O +:+ "/video") ("output_" +:+ stamp +:+ ".mp4")))
              (PyPath.str (mkPath (O +:+ "/video") ("output_" +:+ stamp +:+ ".mp4")))
              w11 eq_refl)
    as (r5 & wr5 & w12 & -> & -> & Hfs12).
  rewrite ret_run, ret_run.
  destruct (rmtree_run d w12) as (w13 & -> & _ & Hfs13).
  { by look. }
  exists w13, stamp, stamp', wr5, wr4, content, dumps. cbv zeta.
  split; [reflexivity|].
  rewrite !Hfs13, !not_under by (intros x; path_ne).
  repeat split; look; try done; apply Hdirs; in_job_dirs.
Qed.

End EndToEndRun.

(** ** The run of a job *)

Lemma absolute_apart (d : string) (c : ascii) (s x y : string) :
  PyStr.startswith "/" d = true → c ≠ "/"%char → d +:+ x ≠ String c s +:+ y.
Proof.
  unfold PyStr.startswith. intros [c' ->]%prefix_iff Hc.
  change ("/" +:+ c') with (String "/" c'). rewrite !append_cons.
  intros [= Heq _]. by destruct Hc.
Qed.

Lemma job_dir_end (root m t u : string) :
  u ≠ "" → PyStr.ends_with_char "/" u = false →
  PyStr.ends_with_char "/" (root +:+ m +:+ "/" +:+ t +:+ "/" +:+ u) = false.
Proof.
  intros Hu Hend.
  rewrite (ends_with_char_app _ root) by (by destruct m).
  rewrite (ends_with_char_app _ m) by done.
  rewrite (ends_with_char_app _ "/") by (by destruct t).
  rewrite (ends_with_char_app _ t) by done.
  by rewrite (ends_with_char_app _ "/").
Qed.


(** ** The properties at the example jobs *)

Lemma all_succeed_every_step : every_step_succeeds Scenario.all_succeed.
Proof.
  split; [|split; [|split; [|split]]].
  - intros time command. eexists _, _. reflexivity.
  - done.
  - done.
  - intros time audio. exists Scenario.result. eexists. split; [reflexivity|].
    vm_compute. reflexivity.
  - done.
Qed.


(** A request for the model [huge] whose meeting id is the number 5 is
    answered 500, not 400: [set_config] joins the identifiers before the
    model is looked at, and the join raises on the number.  The command line
    [--whisper-model huge --help] prints the usage and exits with status 0:
    the usage is printed before the model is looked at. *)
Lemma invalid_model_not_always_rejected :
  (PyVal.get Cases.request_numeric_id "whisper_model" = inr (Some (PStr "huge")) ∧
   in_valid_models (PStr "huge") = false ∧
   (Routes.submit_data (H := Scenario.all_succeed) (inr Cases.request_numeric_id)
      Scenario.start).1
   = Ret (Response 500
            (BodyException (TypeError "sequence item: expected str instance" [])),
          None)) ∧
  (("huge" ∉ valid_models) ∧
   (Cli.main (H := Scenario.all_succeed) ["--whisper-model"; "huge"; "--help"]
      Scenario.start).1 = Ret 0).
Proof.
  split; [split; [evaluate|split; evaluate]|].
  split; [by apply (bool_decide_unpack _)|evaluate].
Qed.

Lemma failed_preflight_stops_before_fetch_witness :
  setup_directories Scenario.job Scenario.start
  = (Ret tt, Scenario.at_setup) ∧
  ∃ w',
    run (H := Cases.no_ffmpeg) Scenario.job true false Scenario.start = (Ret false, w') ∧
    w_trace w' = [EvProc ["ffmpeg"; "-version"] ProcMissing] ∧
    w_bucket w' = w_bucket Scenario.start.
Proof.
  assert (setup_directories Scenario.job Scenario.start
          = (Ret tt, Scenario.at_setup)) as Hsetup by evaluate.
  split; [exact Hsetup|].
  exact (failed_preflight_stops_before_fetch (H := Cases.no_ffmpeg) Scenario.job true false
           Scenario.start Scenario.at_setup Hsetup ltac:(done)).
Defined.

Lemma nothing_to_upload_is_success_witness :
  existing (w_fs Scenario.start) (Some Scenario.video) = [] ∧
  upload_processed_files (H := Scenario.all_succeed) (vp_r2_manager Scenario.job)
    (Some Scenario.video) (Some Scenario.audio)
    (Some (Scenario.json, Some Scenario.srt)) Scenario.start
  = (Ret true, Scenario.start).
Proof.
  split; [reflexivity|].
  apply (nothing_to_upload_is_success (H := Scenario.all_succeed)); reflexivity.
Defined.

Lemma transcribe_audio_writes_transcript_before_subtitles_witness :
  is_Some (w_model Cases.model_loaded) ∧
  ∃ w',
    transcribe_audio (H := Scenario.all_succeed) (Transcriber "base") Scenario.audio
      "../recordings/m1/t1/u1/transcripts" "m1" "t1" "u1" Cases.model_loaded
    = (Ret (Some (Scenario.json, Scenario.srt)), w') ∧
    w_trace w' = [EvTranscribe (PyPath.str Scenario.audio) true;
                  EvClock "2024-05-01_10-00-00"] ∧
    w_fs w' !! PyPath.str Scenario.json = Some (NFile "{transcript of m1}") ∧
    w_fs w' !! PyPath.str Scenario.srt = Some (NFile Scenario.subtitle).
Proof.
  assert (is_Some (w_model Cases.model_loaded)) as Hmodel by (by exists "base").
  split; [exact Hmodel|].
  pose proof (transcribe_audio_writes_transcript_before_subtitles
                (H := Scenario.all_succeed) (Transcriber "base") Scenario.audio
                "../recordings/m1/t1/u1/transcripts" "m1" "t1" "u1" Cases.model_loaded
                Scenario.result Hmodel ltac:(reflexivity) ltac:(done) ltac:(done)
                ltac:(done)) as Hrun.
  cbv zeta in Hrun. destruct Hrun as (w' & Htrace & _ & Hjson & Hsrt).
  remember (Srt.convert_to_srt Scenario.result) as converted eqn:Hconverted in Hsrt.
  vm_compute in Hconverted. subst converted. destruct Hsrt as [Hrun Hsrt].
  exists w'. split; [exact Hrun|]. split; [exact Htrace|]. split; [exact Hjson|exact Hsrt].
Defined.

Lemma concatenation_remuxes_chunks_in_order_witness :
  chunk_bytes (w_fs Scenario.one_chunk) [(0, mkPath "/data" "video_0.webm")] = Some "V0" ∧
  concatenate_raw_chunks (H := Scenario.all_succeed) [(0, mkPath "/data" "video_0.webm")]
    (mkPath "/tmp/work" "video_concatenated.webm") "video" Scenario.one_chunk
  = (Ret true,
     set_fs (λ fs, delete "/tmp/work/video_concatenated.temp.webm"
                     (<["/tmp/work/video_concatenated.webm" :=
                          NFile "out:/tmp/work/video_concatenated.webm"]> fs))
       (add_event
          (EvProc (remux_command (mkPath "/tmp/work" "video_concatenated.temp.webm")
                     (mkPath "/tmp/work" "video_concatenated.webm"))
             (ProcOk "" "out:/tmp/work/video_concatenated.webm"))
          Scenario.one_chunk)).
Proof.
  assert (chunk_bytes (w_fs Scenario.one_chunk) [(0, mkPath "/data" "video_0.webm")]
          = Some "V0") as Hbytes by evaluate.
  split; [exact Hbytes|].
  refine (proj2 (concatenation_remuxes_chunks_in_order (H := Scenario.all_succeed)
                   [(0, mkPath "/data" "video_0.webm")]
                   (mkPath "/tmp/work" "video_concatenated.webm")
                   (mkPath "/tmp/work" "video_concatenated.temp.webm") "video" "V0"
                   Scenario.one_chunk ltac:(done) ltac:(reflexivity) Hbytes _ _)).
  - by repeat constructor.
  - intros Heq. vm_compute in Heq. discriminate Heq.
Defined.

Lemma unreadable_chunk_fails_before_remux_witness :
  chunk_bytes (w_fs Scenario.one_chunk) Cases.two_chunks = None ∧
  concatenate_raw_chunks (H := Scenario.all_succeed) Cases.two_chunks
    (mkPath "/tmp/work" "video_concatenated.webm") "video" Scenario.one_chunk
  = (Ret false,
     set_fs (delete "/tmp/work/video_concatenated.temp.webm") Scenario.one_chunk).
Proof.
  assert (chunk_bytes (w_fs Scenario.one_chunk) Cases.two_chunks = None) as Hbytes
    by evaluate.
  split; [exact Hbytes|].
  refine (unreadable_chunk_fails_before_remux (H := Scenario.all_succeed)
            Cases.two_chunks (mkPath "/tmp/work" "video_concatenated.webm")
            (mkPath "/tmp/work" "video_concatenated.temp.webm") "video"
            Scenario.one_chunk ltac:(reflexivity) Hbytes _ _).
  - by repeat constructor.
  - intros Heq. vm_compute in Heq. discriminate Heq.
Defined.

Lemma process_chunks_reports_audio_only_with_video_witness :
  process_chunks (H := Scenario.all_succeed) Scenario.processor Scenario.at_locate
  = (Ret (Some Scenario.video, Some Scenario.audio), Cases.processed) ∧
  ∃ stamp,
    Scenario.video
    = mkPath (video_output_dir Scenario.processor) ("output_" +:+ stamp +:+ ".mp4") ∧
    Scenario.audio
    = mkPath (audio_output_dir Scenario.processor) ("audio_" +:+ stamp +:+ ".wav").
Proof.
  assert (process_chunks (H := Scenario.all_succeed) Scenario.processor Scenario.at_locate
          = (Ret (Some Scenario.video, Some Scenario.audio), Cases.processed)) as Hrun
    by evaluate.
  split; [exact Hrun|].
  destruct (process_chunks_reports_audio_only_with_video (H := Scenario.all_succeed)
              _ _ _ _ Hrun) as (_ & stamp & Hvideo & Haudio).
  exists stamp. split; [by apply Hvideo|by apply Haudio].
Defined.

Lemma chunks_to_video_names_deliverables_witness :
  ChunksToVideo.process_chunks (H := Scenario.all_succeed) Scenario.processor
    Scenario.at_locate
  = (Ret (Some Cases.webm, Some Scenario.audio), Cases.assembled) ∧
  ∃ stamp,
    Cases.webm
    = mkPath (video_output_dir Scenario.processor) ("output_" +:+ stamp +:+ ".webm") ∧
    Scenario.audio
    = mkPath (audio_output_dir Scenario.processor) ("audio_" +:+ stamp +:+ ".wav").
Proof.
  assert (ChunksToVideo.process_chunks (H := Scenario.all_succeed) Scenario.processor
            Scenario.at_locate
          = (Ret (Some Cases.webm, Some Scenario.audio), Cases.assembled)) as Hrun
    by evaluate.
  split; [exact Hrun|].
  destruct (chunks_to_video_names_deliverables (H := Scenario.all_succeed)
              _ _ _ _ Hrun) as (stamp & Hvideo & Haudio).
  exists stamp. split; [by apply Hvideo|by apply Haudio].
Defined.

